(** * Manifold Bayesian optimisation loop: a shallow embedding

    The development follows the Python sources of the repository:

    - [Torch]            the few tensor operations the code relies on
    - [Botorch]          mdgp/experiments/bo_experiment/model/botorch.py
    - [Bo]               mdgp/bo_experiment/bo/bo.py
    - [Run]              notebooks/bo_experiment/run.py
    - [Surrogate]        the deep GP behind the wrapper, which the sources
                         do not contain
    - [Model]            mdgp/experiment_utils/model.py
    - [Reproducibility]  mdgp/experiment_utils/reproducibility.py and
                         notebooks/experiments/run_experiments.py
    - [Naming], [Tree]   the names and the tree of configurations of
                         reproducibility.py
    - [Crawl]            the crawl and the script of run_experiments.py
    - [Kernels]          mdgp/kernels/matern_kernel.py
    - [Geometric]        mdgp/experiments/uci/model/geometric.py

    Python exceptions are values of [exn]; code that may raise returns in
    [res]; code that mutates an object threads that object through the
    state-and-exception monad [M].  Python floats are IEEE values
    ([spec_float] of the standard library), so that NaN and the partial
    comparison [<] are the ones the interpreter computes.  Library code
    that drives the acquisition function (botorch, pymanopt) is a strategy
    [query]; collaborators of the package that the sources do not contain
    are members of the classes [BaseModel], [Surrogate], [Optim],
    [Dataclass], [Experiment], [Fields], [KernelLibrary] and [LayerLibrary];
    torch's reduction [y.min()] is the member of the class [Reductions].

    The definitions come first; the modules whose names end in [Facts]
    hold the lemmas and theorems, and [Stubs] holds small deterministic
    collaborators together with the runs that instantiate the theorems. *)

From Stdlib Require Import ZArith Lia Bool List Ascii.
From Stdlib Require Import Floats.SpecFloat.
From stdpp Require Import base option list strings gmap.
From stdpp Require Import pretty.

Set Warnings "-register-all".

(* ===================================================================== *)
(** ** Python: exceptions and the state-and-exception monad *)
(* ===================================================================== *)

Module Py.

Inductive exn : Type :=
| ValueError (msg : string)
| AssertionError (msg : string)
| IndexError
| KeyError (key : string)
| TypeError (msg : string)
| FileNotFoundError (path : string)
| ZeroDivisionError
| RuntimeError (msg : string).

Inductive res (A : Type) : Type :=
| Ok (a : A)
| Raise (e : exn).
Arguments Ok {A} a.
Arguments Raise {A} e.

Definition is_ok {A} (r : res A) : bool :=
  match r with Ok _ => true | Raise _ => false end.

Definition res_bind {A B} (r : res A) (k : A -> res B) : res B :=
  match r with Ok a => k a | Raise e => Raise e end.

(** A computation over a mutable object of type [S]: the object after the
    call is returned also when the call raises (Python keeps the mutations
    made before the exception). *)
Definition M (S A : Type) : Type := S -> res A * S.

Definition ret {S A} (a : A) : M S A := fun s => (Ok a, s).
Definition raise {S A} (e : exn) : M S A := fun s => (Raise e, s).
Definition lift {S A} (r : res A) : M S A := fun s => (r, s).
Definition get {S} : M S S := fun s => (Ok s, s).
Definition modify {S} (f : S -> S) : M S unit := fun s => (Ok tt, f s).
Definition bindM {S A B} (m : M S A) (k : A -> M S B) : M S B :=
  fun s => match m s with
           | (Ok a, s') => k a s'
           | (Raise e, s') => (Raise e, s')
           end.

End Py.
Export Py.

Notation "x <~ m ;; k" := (bindM m (fun x => k))
  (at level 100, m at level 99, right associativity).
Notation "m ;;; k" := (bindM m (fun _ => k))
  (at level 100, right associativity).

(* ===================================================================== *)
(** ** Torch: floats and tensors *)
(* ===================================================================== *)

Module Torch.

Definition float : Type := spec_float.

Definition isnan (f : float) : bool :=
  match f with S754_nan => true | _ => false end.

(** Python's [a < b] on floats. *)
Definition flt (a b : float) : bool := SFltb a b.

(** A few literals used in examples: [m * 2^e]. *)
Definition fpos (m : positive) (e : Z) : float := S754_finite false m e.
Definition fneg (m : positive) (e : Z) : float := S754_finite true m e.
Definition fzero : float := S754_zero false.
Definition fnan : float := S754_nan.

(** A dense tensor: its shape and its elements in row-major order. *)
Record tensor : Type := Tensor { shape : list nat; data : list float }.

Definition ndim (X : tensor) : nat := length (shape X).

(** Python index normalisation for a sequence of length [n]:
    negative indices count from the end; out of range raises. *)
Definition py_index (n : nat) (i : Z) : res nat :=
  let j := if (i <? 0)%Z then (Z.of_nat n + i)%Z else i in
  if ((0 <=? j)%Z && (j <? Z.of_nat n)%Z)%bool then Ok (Z.to_nat j) else Raise IndexError.

(** [X.shape[i]] *)
Definition shape_at (X : tensor) (i : Z) : res nat :=
  res_bind (py_index (ndim X) i) (fun j =>
    match shape X !! j with
    | Some d => Ok d
    | None => Raise IndexError
    end).

(** [X.squeeze(i)]: drops dimension [i] when its size is one, leaves the
    tensor alone otherwise; a dimension out of range raises (the code calls
    it with dimension -2 only, which is out of range for every tensor of
    fewer than two dimensions). *)
Definition squeeze (X : tensor) (i : Z) : res tensor :=
  res_bind (py_index (ndim X) i) (fun j =>
    match shape X !! j with
    | Some 1 => Ok (Tensor (delete j (shape X)) (data X))
    | _ => Ok X
    end).

(** [X.isnan().any()] *)
Definition isnan_any (X : tensor) : bool := existsb isnan (data X).

End Torch.
Export Torch.

(* ===================================================================== *)
(** ** Botorch: the wrapper [BotorchGP] (model/botorch.py) *)
(* ===================================================================== *)

Module Botorch.

(** The events of a run, in program order: what a model object did (the
    first two) and what the loop around it did. *)
Inductive event : Type :=
| EBase (X : tensor) (sample_hidden : string) (resample_weights : bool)
    (* self.base_model(X, sample_hidden=..., resample_weights=...) *)
| EResample
    (* model.resample_weights() *)
| ECreate (iteration : nat) (model_name : string)
    (* create_model(model_args=model_args, ...) in an iteration *)
| EFit (model_name : string) (num_steps : option Z)
    (* fit_gpytorch_mll(mll) or fit(..., num_steps=num_steps) *)
| EObserve (new_x : list float) (new_y : float)
    (* new_y = target_function(new_x) *)
| ELog (best_x : list float) (best_y : float).
    (* log(loggers, metrics) *)

(** The wrapped deep GP, its likelihood and the constructor of botorch's
    [GPyTorchPosterior]: collaborators that live outside the wrapper.  A
    call of the base model may raise and may change the state of the base
    model (its sampled weights, its random source); the likelihood and the
    constructor of the posterior may raise as well. *)
Class BaseModel (B MVN : Type) : Type := {
  base_call : tensor -> string -> bool -> B -> res MVN * B;
  likelihood_call : MVN -> res MVN;
  GPyTorchPosterior_init : MVN -> res unit;
  set_training : bool -> B -> B
}.

Record GPyTorchPosterior (MVN : Type) : Type := MkPosterior { mvn : MVN }.
Arguments MkPosterior {MVN} mvn.
Arguments mvn {MVN} _.

(** The attributes of a [BotorchGP] object; [calls] is a ghost field that
    records the events of the object. *)
Record BotorchGP (B : Type) : Type := MkBotorchGP {
  base_model : B;
  posterior_sample_method : string;
  _resample_weights : bool;
  training : bool;
  calls : list event
}.
Arguments MkBotorchGP {B}.
Arguments base_model {B}.
Arguments posterior_sample_method {B}.
Arguments _resample_weights {B}.
Arguments training {B}.
Arguments calls {B}.

Section Wrapper.
Context {B MVN : Type} `{BaseModel B MVN}.

(** [BotorchGP.__init__]; a fresh torch module is in training mode. *)
Definition init (base : B) (posterior_sample_method : string) : BotorchGP B :=
  MkBotorchGP base posterior_sample_method true true [].

Definition set_flag (b : bool) (gp : BotorchGP B) : BotorchGP B :=
  MkBotorchGP (base_model gp) (posterior_sample_method gp) b (training gp) (calls gp).

(** [self.train()] and [self.eval()] reach the wrapped module as well. *)
Definition set_mode (b : bool) (gp : BotorchGP B) : BotorchGP B :=
  MkBotorchGP (set_training b (base_model gp)) (posterior_sample_method gp)
              (_resample_weights gp) b (calls gp).

Definition record (e : event) (gp : BotorchGP B) : BotorchGP B :=
  MkBotorchGP (base_model gp) (posterior_sample_method gp)
              (_resample_weights gp) (training gp) (calls gp ++ [e]).

(** [self.base_model(X, sample_hidden=..., resample_weights=...)] *)
Definition call_base (X : tensor) (sample_hidden : string) (resample : bool)
  : M (BotorchGP B) MVN :=
  fun gp =>
    let gp1 := record (EBase X sample_hidden resample) gp in
    let '(r, b') := base_call X sample_hidden resample (base_model gp1) in
    (r, MkBotorchGP b' (posterior_sample_method gp1) (_resample_weights gp1)
                    (training gp1) (calls gp1)).

(** [BotorchGP.forward] *)
Definition forward (X : tensor) (sample_hidden : string) (resample_weights : bool)
  : M (BotorchGP B) MVN :=
  d <~ lift (shape_at X (-2)) ;;
  X' <~ (if Nat.eqb d 1 then lift (squeeze X (-2)) else ret X) ;;
  call_base X' sample_hidden resample_weights.

(** [BotorchGP.resample_weights] *)
Definition resample_weights : M (BotorchGP B) unit :=
  modify (fun gp => record EResample (set_flag true gp)).

(** The argument [posterior_transform]: [None], or a callable that may
    raise. *)
Definition transform : Type := option (GPyTorchPosterior MVN -> res (GPyTorchPosterior MVN)).

(** [BotorchGP.posterior]; the wrapper has no input transform, so
    [transform_inputs] returns its argument.  The flag is cleared as soon
    as [forward] has returned (line 32); the likelihood, the constructor of
    the posterior and the transform run after that, and an exception of
    theirs leaves the flag cleared and the module in evaluation mode. *)
Definition posterior (X : tensor) (observation_noise : bool) (posterior_transform : transform)
  : M (BotorchGP B) (GPyTorchPosterior MVN) :=
  gp0 <~ get ;;
  let was_training := training gp0 in
  modify (set_mode false) ;;;
  gp1 <~ get ;;
  m <~ forward X (posterior_sample_method gp1) (_resample_weights gp1) ;;
  modify (set_flag false) ;;;
  m <~ (if observation_noise then lift (likelihood_call m) else ret m) ;;
  lift (GPyTorchPosterior_init m) ;;;
  let p := MkPosterior m in
  p <~ match posterior_transform with Some t => lift (t p) | None => ret p end ;;
  (if was_training then modify (set_mode true) else ret tt) ;;;
  ret p.

(** The flags the base model was called with, in order. *)
Definition base_flags (evs : list event) : list bool :=
  omap (fun e => match e with EBase _ _ b => Some b | _ => None end) evs.

End Wrapper.

Arguments transform : clear implicits.

End Botorch.
Export Botorch.

(* ===================================================================== *)
(** ** Bo: arguments, family resolvers and the acquisition optimiser
       (bo_experiment/bo/bo.py) *)
(* ===================================================================== *)

Module Bo.

Record BOArguments : Type := MkBOArguments {
  manifold_name : string;
  manifold_dim : Z;
  num_iter : Z;
  num_restarts : Z;
  raw_samples : Z;
  q : Z;
  maximize : bool;
  acqf_name : string;
  optimizer_name : string;
  optimizer_max_iterations : Z;
  optimizer_verbosity : Z
}.

(** The defaults of the dataclass. *)
Definition BOArguments_default : BOArguments :=
  MkBOArguments "sphere" 2 200 5 100 1 false
                "log_expected_improvement" "steepest_descent" 100 0.

Inductive acqf_class : Type := LogExpectedImprovement | ExpectedImprovement.
Inductive manifold_class : Type := Sphere.
Inductive optimizer_class : Type := SteepestDescent.

(** Instances built from the resolved classes. *)
Record Manifold : Type := MkManifold { m_class : manifold_class; m_n : Z }.
Record Optimizer : Type :=
  MkOptimizer { o_class : optimizer_class; max_iterations : Z; verbosity : Z }.

Definition acqf_class_from_name (name : string) : res acqf_class :=
  if String.eqb name "log_expected_improvement" then Ok LogExpectedImprovement
  else if String.eqb name "expected_improvement" then Ok ExpectedImprovement
  else Raise (ValueError ("Unknown acquisition function " +:+ name)).

Definition manifold_class_from_name (name : string) : res manifold_class :=
  if String.eqb name "sphere" then Ok Sphere
  else Raise (ValueError ("Unknown manifold " +:+ name)).

Definition optimizer_class_from_name (name : string) : res optimizer_class :=
  if String.eqb name "steepest_descent" then Ok SteepestDescent
  else Raise (ValueError ("Unknown optimizer " +:+ name)).

(** The property [BOArguments.manifold]: resolved at every access, with the
    dimension of the embedding space. *)
Definition manifold (a : BOArguments) : res Manifold :=
  res_bind (manifold_class_from_name (manifold_name a))
           (fun c => Ok (MkManifold c (manifold_dim a + 1))).

(** The property [BOArguments.optimizer]. *)
Definition optimizer (a : BOArguments) : res Optimizer :=
  res_bind (optimizer_class_from_name (optimizer_name a))
           (fun c => Ok (MkOptimizer c (optimizer_max_iterations a) (optimizer_verbosity a))).

(** Library code that searches with the acquisition function is a strategy:
    it returns, raises, or asks for the acquisition value at a batch of
    points and goes on with the answer. *)
Inductive query (R : Type) : Type :=
| QRet (r : R)
| QRaise (e : exn)
| QEval (X : tensor) (k : tensor -> query R).
Arguments QRet {R} r.
Arguments QRaise {R} e.
Arguments QEval {R} X k.

Fixpoint qbind {R R'} (m : query R) (f : R -> query R') : query R' :=
  match m with
  | QRet r => f r
  | QRaise e => QRaise e
  | QEval X k => QEval X (fun v => qbind (k v) f)
  end.

Definition qlift {R} (r : res R) : query R :=
  match r with Ok a => QRet a | Raise e => QRaise e end.

(** Running a strategy against an acquisition function that lives in [M S]. *)
Fixpoint run_query {St R} (acq_function : tensor -> M St tensor) (m : query R) : M St R :=
  match m with
  | QRet r => ret r
  | QRaise e => raise e
  | QEval X k => v <~ acq_function X ;; run_query acq_function (k v)
  end.

(** The number of acquisition evaluations a run of a strategy makes. *)
Fixpoint evaluations {St R} (acq_function : tensor -> M St tensor) (m : query R) (s : St) : nat :=
  match m with
  | QRet _ | QRaise _ => 0
  | QEval X k =>
      match acq_function X s with
      | (Ok v, s') => S (evaluations acq_function (k v) s')
      | (Raise _, _) => 1
      end
  end.

(** botorch's [gen_batch_initial_conditions] and [optimize_acqf], and the
    repository's [gen_candidates_manifold] (module manifold_botorch), as
    strategies.  [optimize_acqf] receives the candidate generator as a
    callback and the width of its placeholder bounds. *)
Class Optim : Type := {
  gen_batch_initial_conditions : Z -> Z -> Z -> Manifold -> query tensor;
  optimize_acqf :
    Z -> nat -> Z -> Z -> (tensor -> query (tensor * tensor)) -> tensor -> query (tensor * tensor);
  gen_candidates_manifold : tensor -> Manifold -> Optimizer -> query (tensor * tensor)
}.

Section Optimise.
Context `{Optim}.

(** [ManifoldGenCandidates.__call__]: both properties are read, in argument
    order, when the call is made. *)
Definition ManifoldGenCandidates (bo_args : BOArguments) (initial_conditions : tensor)
  : query (tensor * tensor) :=
  qbind (qlift (manifold bo_args)) (fun mf =>
  qbind (qlift (optimizer bo_args)) (fun opt =>
  gen_candidates_manifold initial_conditions mf opt)).

Definition nan_message : string := "Generated nan batch initial conditions".

(** Step 1 of [optimize_acqf_manifold]: the initial conditions. *)
Definition initial_conditions_stage (bo_args : BOArguments) : query tensor :=
  qbind (qlift (manifold bo_args)) (fun mf =>
  gen_batch_initial_conditions (q bo_args) (num_restarts bo_args) (raw_samples bo_args) mf).

(** Step 2 of [optimize_acqf_manifold]: local refinement from the initial
    conditions. *)
Definition refinement_stage (bo_args : BOArguments) (batch_initial_conditions : tensor)
  : query (tensor * tensor) :=
  qbind (qlift (squeeze batch_initial_conditions (-2))) (fun bic =>
  qbind (qlift (shape_at bic (-1))) (fun width =>
  optimize_acqf (q bo_args) width (num_restarts bo_args) (raw_samples bo_args)
                (ManifoldGenCandidates bo_args) bic)).

(** [optimize_acqf_manifold], as the strategy it is (the [assert] is
    executed: the interpreter runs without [-O]) ... *)
Definition optimize_acqf_manifold_query (bo_args : BOArguments) : query (tensor * tensor) :=
  qbind (initial_conditions_stage bo_args) (fun batch_initial_conditions =>
  if isnan_any batch_initial_conditions
  then QRaise (AssertionError nan_message)
  else refinement_stage bo_args batch_initial_conditions).

(** ... and run against the acquisition function it is given. *)
Definition optimize_acqf_manifold {St} (acq_function : tensor -> M St tensor)
    (bo_args : BOArguments) : M St (tensor * tensor) :=
  run_query acq_function (optimize_acqf_manifold_query bo_args).

End Optimise.

End Bo.
Export Bo.

(* ===================================================================== *)
(** ** Run: the optimisation loop (notebooks/bo_experiment/run.py) *)
(* ===================================================================== *)

Module Run.

(** A row of the tensor of inputs. *)
Definition point : Type := list float.

(** The attributes of [fit_args] that the loop reads. *)
Record FitArguments : Type := MkFitArguments {
  lr : float;
  num_steps : Z;
  full_every_n_steps : Z;
  partial_num_steps : Z
}.

(** The attributes of [bo_args] that the loop reads and that the dataclass
    of bo.py does not declare: they are inputs of the loop. *)
Record Schedule : Type := MkSchedule {
  switch_to_deep_iter : option Z;
  kmeans_inducing : bool;
  kmeans_inducing_num : Z
}.

(** Collaborators of the loop that are not part of it: the construction of
    the model of a family on the data ([create_model], which wraps the
    deep GP it builds in a [BotorchGP] with the sampling method
    [sample_method]), the factories of [model_args] for the optimiser and
    the marginal log-likelihood, the two fitting procedures (they train the
    wrapped model in place), the acquisition score and the k-means
    centres.  Each call may raise. *)
Class Surrogate (B MVN : Type) `{BaseModel B MVN} : Type := {
  optimizer_t : Type;
  mll_t : Type;
  create_base : string -> list point -> list float -> list point -> res B;
  optimizer_factory : B -> float -> res optimizer_t;
  mll_factory : B -> list float -> res mll_t;
  fit_gpytorch_mll : mll_t -> B -> res B;
  fit : optimizer_t -> mll_t -> list point -> list float -> FitArguments -> Z -> B -> res B;
  acqf_score : float -> GPyTorchPosterior MVN -> tensor;
  sphere_kmeans_centers : list point -> Z -> list point;
  sample_method : string
}.

(** The local variables of [run_bo], the attribute [model_args.model_name]
    that it assigns, and the events so far. *)
Record bo_state : Type := MkState {
  bo_x : list point;
  bo_y : list float;
  best_x : point;
  best_y : float;
  model_name : string;
  trace : list event
}.

(** torch's reductions order NaN before every number; among equal
    candidates the first index is returned. *)
Definition tlt (a b : float) : bool :=
  (isnan a && negb (isnan b)) || flt a b.

Fixpoint argmin_from (best_i : nat) (best : float) (i : nat) (l : list float) : nat * float :=
  match l with
  | [] => (best_i, best)
  | v :: l' => if tlt v best then argmin_from i v (S i) l'
               else argmin_from best_i best (S i) l'
  end.

(** [y.argmin()] *)
Definition argmin (l : list float) : res nat :=
  match l with
  | [] => Raise (RuntimeError "argmin of an empty tensor")
  | v :: l' => Ok (fst (argmin_from 0 v 1 l'))
  end.

(** [y.min()] is a reduction of its own, not a lookup at [y.argmin()]: on a
    tensor that is not empty torch returns one of its values, and no value
    of the tensor comes before that one in the order of the reductions (it
    is NaN when a value is NaN, and a least value otherwise).  Which of
    several least values that compare equal is returned (the two zeros
    compare equal) depends on the order in which the backend reduces, and
    need not be the value at [y.argmin()]; the reduction is a collaborator
    with this one law. *)
Class Reductions : Type := {
  tmin : list float -> res float;
  tmin_least : forall (v : float) (l : list float),
    exists m, tmin (v :: l) = Ok m
              /\ m ∈ v :: l
              /\ Forall (fun w => tlt w m = false) (v :: l)
}.

(** [initial_data[i]] *)
Definition row (x : list point) (i : nat) : res point :=
  match x !! i with Some p => Ok p | None => Raise IndexError end.

(** The objective on a batch of rows. *)
Fixpoint observe_all (target_function : point -> res float) (x : list point) : res (list float) :=
  match x with
  | [] => Ok []
  | p :: x' =>
      res_bind (target_function p) (fun v =>
      res_bind (observe_all target_function x') (fun vs => Ok (v :: vs)))
  end.

(** Lines 23-28: the state before the first iteration. *)
Definition run_bo_init `{Reductions} (initial_data : list point)
    (target_function : point -> res float) (model_args_model_name : string) : res bo_state :=
  res_bind (observe_all target_function initial_data) (fun y =>
  res_bind (argmin y) (fun i =>
  res_bind (row initial_data i) (fun bx =>
  res_bind (tmin y) (fun by_ =>
  Ok (MkState initial_data y bx by_ model_args_model_name []))))).

(** Lines 32-39: the assignment to [model_args.model_name]. *)
Definition switch_model (switch : option Z) (start_model_name : string)
    (iteration : Z) (current : string) : string :=
  if match switch with Some k => (iteration <? k)%Z | None => false end
  then "exact"
  else if String.eqb start_model_name "deep" then "deep"
  else current.

(** [x.shape[-1]] for the tensor of rows. *)
Definition last_dim (x : list point) : Z :=
  match x with [] => 0%Z | p :: _ => Z.of_nat (length p) end.

Definition emit (evs : list event) : M bo_state unit :=
  modify (fun st => MkState (bo_x st) (bo_y st) (best_x st) (best_y st)
                            (model_name st) (trace st ++ evs)).

Definition set_model_name (name : string) : M bo_state unit :=
  modify (fun st => MkState (bo_x st) (bo_y st) (best_x st) (best_y st) name (trace st)).

(** Lines 79-85: append the observation, then update the best one. *)
Definition append_observation (new_x : point) (new_y : float) (st : bo_state) : bo_state :=
  let x := bo_x st ++ [new_x] in
  let y := bo_y st ++ [new_y] in
  if flt new_y (best_y st)
  then MkState x y new_x new_y (model_name st) (trace st)
  else MkState x y (best_x st) (best_y st) (model_name st) (trace st).

(** Line 57: the number of fitting steps of a deep model. *)
Definition deep_num_steps (fit_args : FitArguments) (iteration : nat) : res Z :=
  if (full_every_n_steps fit_args =? 0)%Z then Raise ZeroDivisionError
  else if (Z.of_nat iteration mod full_every_n_steps fit_args =? 0)%Z
       then Ok (num_steps fit_args)
       else Ok (partial_num_steps fit_args).

Section Loop.
Context {B MVN : Type} `{Surrogate B MVN} `{Optim} `{Reductions}.

(** Modelled from the spec: [model_args.acqf_factory(model, best_f)] is not
    part of the sources; the acquisition function it builds scores the
    posterior of the model at the points against the best observed value. *)
Definition acq_function (best_f : float) (X : tensor) : M (BotorchGP B) tensor :=
  p <~ posterior X false None ;;
  ret (acqf_score best_f p).

(** Lines 54-61. *)
Definition fit_model (name : string) (fit_args : FitArguments) (iteration : nat)
    (optimizer : optimizer_t) (mll : mll_t) (x : list point) (y : list float) (base : B)
  : M bo_state B :=
  if String.eqb name "exact" then
    emit [EFit name None] ;;; lift (fit_gpytorch_mll mll base)
  else if String.eqb name "deep" then
    n <~ lift (deep_num_steps fit_args iteration) ;;
    emit [EFit name (Some n)] ;;;
    lift (fit optimizer mll x y fit_args n base)
  else raise (ValueError ("Unknown model name: " +:+ name)).

(** Lines 64-73: the work done on the model object of the iteration, the
    [BotorchGP] around the fitted base model (the wrapper is built with the
    model, before the fit, which trains the base model in place and leaves
    the attributes of the wrapper alone).  The events of the object join
    the trace whether or not the work raises. *)
Definition acquire (name : string) (best_f : float) (bo_args : BOArguments) (base : B)
  : M bo_state (tensor * tensor) :=
  fun st =>
    let '(r, gp) :=
      ((if String.eqb name "deep" then resample_weights else ret tt) ;;;
       optimize_acqf_manifold (acq_function best_f) bo_args)
        (init base sample_method) in
    (r, MkState (bo_x st) (bo_y st) (best_x st) (best_y st) (model_name st)
                (trace st ++ calls gp)).

(** Lines 32-93: one pass through the body of the [for] loop.  The new
    point is the row of coordinates of the candidate that the optimiser
    returns. *)
Definition bo_iteration (target_function : point -> res float) (bo_args : BOArguments)
    (sched : Schedule) (fit_args : FitArguments) (start_model_name : string)
    (iteration : nat) : M bo_state unit :=
  st <~ get ;;
  let name := switch_model (switch_to_deep_iter sched) start_model_name
                           (Z.of_nat iteration) (model_name st) in
  set_model_name name ;;;
  let inducing_points :=
    if (kmeans_inducing sched && (kmeans_inducing_num sched <? last_dim (bo_x st))%Z)%bool
    then sphere_kmeans_centers (bo_x st) (kmeans_inducing_num sched)
    else bo_x st in
  emit [ECreate iteration name] ;;;
  base <~ lift (create_base name (bo_x st) (bo_y st) inducing_points) ;;
  optimizer <~ lift (optimizer_factory base (lr fit_args)) ;;
  mll <~ lift (mll_factory base (bo_y st)) ;;
  base <~ fit_model name fit_args iteration optimizer mll (bo_x st) (bo_y st) base ;;
  cand <~ acquire name (best_y st) bo_args base ;;
  let new_x := data (fst cand) in
  new_y <~ lift (target_function new_x) ;;
  modify (append_observation new_x new_y) ;;;
  st' <~ get ;;
  emit [EObserve new_x new_y; ELog (best_x st') (best_y st')].

Fixpoint for_each (its : list nat) (body : nat -> M bo_state unit) : M bo_state unit :=
  match its with
  | [] => ret tt
  | i :: its' => body i ;;; for_each its' body
  end.

Inductive outcome : Type :=
| InitFailed (e : exn)
| Finished (r : res unit) (st : bo_state).

(** [run_bo]; [model_args_model_name] is [model_args.model_name] at the
    call. *)
Definition run_bo (initial_data : list point) (target_function : point -> res float)
    (bo_args : BOArguments) (sched : Schedule) (model_args_model_name : string)
    (fit_args : FitArguments) : outcome :=
  match run_bo_init initial_data target_function model_args_model_name with
  | Raise e => InitFailed e
  | Ok st0 =>
      let start_model_name := model_args_model_name in
      let '(r, st) :=
        for_each (seq 0 (Z.to_nat (num_iter bo_args)))
                 (bo_iteration target_function bo_args sched fit_args start_model_name) st0 in
      Finished r st
  end.

End Loop.

End Run.
Export Run.

(* ===================================================================== *)
(** ** Surrogate: the deep GP behind the wrapper *)
(* ===================================================================== *)

Module Surrogate.

(** The stochastic state of a deep GP: the weights it sampled last, the
    random source the next weights come from, and the mode of the module. *)
Record deep_gp (W G : Type) : Type := MkDeepGP {
  weights : W;
  source : G;
  train_mode : bool
}.
Arguments MkDeepGP {W G}.
Arguments weights {W G}.
Arguments source {W G}.
Arguments train_mode {W G}.

(** Drawing weights consumes the random source; the predictive
    distribution at some points is computed from the points, the
    hidden-sampling method, the mode and the weights (it may raise).  The
    likelihood of the model and the check botorch makes when it wraps a
    distribution in a posterior may raise too. *)
Class Sampler (W G MVN : Type) : Type := {
  draw : G -> W * G;
  predict : tensor -> string -> bool -> W -> res MVN;
  observation_model : MVN -> res MVN;
  as_posterior : MVN -> res unit
}.

Section DeepGP.
Context {W G MVN : Type} `{Sampler W G MVN}.

(** Modelled from the spec: the deep GP classes of [mdgp.models.deep_gps]
    are not part of the sources.  Per the spec the surrogate holds internal
    randomness that is resampled on request and held fixed otherwise, and
    its posterior is a function of that state: a call with
    [resample_weights=True] draws new weights and keeps them, a call with
    [resample_weights=False] uses the weights the model holds. *)
Definition deep_gp_call (X : tensor) (sample_hidden : string) (resample_weights : bool)
    (b : deep_gp W G) : res MVN * deep_gp W G :=
  let b' :=
    if resample_weights
    then let '(w, g) := draw (source b) in MkDeepGP w g (train_mode b)
    else b in
  (predict X sample_hidden (train_mode b') (weights b'), b').

Definition deep_gp_set_training (t : bool) (b : deep_gp W G) : deep_gp W G :=
  MkDeepGP (weights b) (source b) t.

#[export] Instance deep_gp_base : BaseModel (deep_gp W G) MVN := {|
  base_call := deep_gp_call;
  likelihood_call := observation_model;
  GPyTorchPosterior_init := as_posterior;
  set_training := deep_gp_set_training
|}.

End DeepGP.

End Surrogate.

(* ===================================================================== *)
(** ** Model: model construction for the regression experiments
       (experiment_utils/model.py) *)
(* ===================================================================== *)

Module Model.

Record ModelArguments : Type := MkModelArguments {
  space_name : string;
  space_dim : Z;
  model_name : string;
  num_hidden : Z;
  num_inducing : Z;
  num_eigenfunctions : Z;
  learn_inducing_locations : bool;
  optimize_nu : bool;
  nu : float;
  tangent_to_manifold : string;
  project_to_tangent : string;
  parametrised_frame : bool;
  rotated_frame : bool;
  outputscale_mean : float
}.

(** [2.5] is [5 * 2^-1] and [1.0] is [1 * 2^0]. *)
Definition ModelArguments_default : ModelArguments :=
  MkModelArguments "hypersphere" 2 "geometric_manifold" 1 60 20 false true
                   (fpos 5 (-1)) "exp" "intrinsic" false false (fpos 1 0).

Inductive Space : Type := Hypersphere (dim : Z).
Inductive Prior : Type := GammaPrior (concentration rate : float).

(** The constructor calls that [create_model] can return, with the
    keyword arguments of each. *)
Inductive DeepGP : Type :=
| GeometricManifoldDeepGP (space : Space) (inducing_points : tensor)
    (outputscale_prior : Prior) (num_hidden num_eigenfunctions : Z)
    (learn_inducing_locations optimize_nu : bool) (nu : float)
    (project_to_tangent tangent_to_manifold : string)
| EuclideanManifoldDeepGP (space : Space) (inducing_points : tensor)
    (outputscale_prior : Prior) (num_hidden : Z) (learn_inducing_locations : bool)
    (nu : float) (project_to_tangent tangent_to_manifold : string)
| EuclideanDeepGP (inducing_points : tensor) (outputscale_prior : Prior)
    (num_hidden : Z) (nu : float) (learn_inducing_locations : bool).

(** The property [ModelArguments.space]. *)
Definition space (a : ModelArguments) : res Space :=
  if String.eqb (space_name a) "hypersphere" then Ok (Hypersphere (space_dim a))
  else Raise (ValueError ("Unknown space: " +:+ space_name a +:+ ". Must be one of ['hypersphere'].")).

Definition is_zero (f : float) : bool :=
  match f with S754_zero _ => true | _ => false end.

(** Python's [a / b] on floats (binary64): a zero divisor raises. *)
Definition py_div (a b : float) : res float :=
  if is_zero b then Raise ZeroDivisionError else Ok (SFdiv 53 1024 a b).

Definition get_outputscale_prior (outputscale_mean : float) : res Prior :=
  res_bind (py_div (fpos 1 0) outputscale_mean) (fun rate =>
  Ok (GammaPrior (fpos 1 0) rate)).

Definition unknown_model_message (name : string) : string :=
  "Unknown model name: " +:+ name +:+
  ". Must be one of ['geometric_manifold', 'euclidean_manifold', 'euclidean']".

Section Create.
(** [mdgp.utils.sphere_uniform_grid] is not part of the sources. *)
Variable sphere_uniform_grid : Z -> tensor.

Definition get_inducing_points (num_inducing : Z) (sp : Space) : res tensor :=
  match sp with
  | Hypersphere d =>
      if (d =? 2)%Z then Ok (sphere_uniform_grid num_inducing)
      else Raise (ValueError "Unknown space. Must be one of [Hypersphere(dim=2)].")
  end.

Definition create_model (model_args : ModelArguments) : res DeepGP :=
  let space := Hypersphere 2 in
  let inducing_points := sphere_uniform_grid (num_inducing model_args) in
  let model_name := model_name model_args in
  res_bind (get_outputscale_prior (outputscale_mean model_args)) (fun outputscale_prior =>
  if String.eqb model_name "geometric_manifold" then
    Ok (GeometricManifoldDeepGP space inducing_points outputscale_prior
          (num_hidden model_args) (num_eigenfunctions model_args)
          (learn_inducing_locations model_args) (optimize_nu model_args)
          (nu model_args) (project_to_tangent model_args) (tangent_to_manifold model_args))
  else if String.eqb model_name "euclidean_manifold" then
    Ok (EuclideanManifoldDeepGP space inducing_points outputscale_prior
          (num_hidden model_args) (learn_inducing_locations model_args)
          (nu model_args) (project_to_tangent model_args) (tangent_to_manifold model_args))
  else if String.eqb model_name "euclidean" then
    Ok (EuclideanDeepGP inducing_points outputscale_prior
          (num_hidden model_args) (nu model_args) (learn_inducing_locations model_args))
  else Raise (ValueError (unknown_model_message model_name))).

End Create.

(** The space and the inducing points a constructed model was given. *)
Definition space_of (m : DeepGP) : option Space :=
  match m with
  | GeometricManifoldDeepGP s _ _ _ _ _ _ _ _ _ => Some s
  | EuclideanManifoldDeepGP s _ _ _ _ _ _ _ => Some s
  | EuclideanDeepGP _ _ _ _ _ => None
  end.

Definition inducing_points_of (m : DeepGP) : tensor :=
  match m with
  | GeometricManifoldDeepGP _ ip _ _ _ _ _ _ _ _ => ip
  | EuclideanManifoldDeepGP _ ip _ _ _ _ _ _ => ip
  | EuclideanDeepGP ip _ _ _ _ => ip
  end.

Definition with_space (name : string) (dim : Z) (a : ModelArguments) : ModelArguments :=
  MkModelArguments name dim (model_name a) (num_hidden a) (num_inducing a)
    (num_eigenfunctions a) (learn_inducing_locations a) (optimize_nu a) (nu a)
    (tangent_to_manifold a) (project_to_tangent a) (parametrised_frame a)
    (rotated_frame a) (outputscale_mean a).

Definition model_names : list string :=
  ["geometric_manifold"; "euclidean_manifold"; "euclidean"].

End Model.

(* ===================================================================== *)
(** ** Reproducibility: experiment configurations on disk and the reader
       that guards a run (experiment_utils/reproducibility.py,
       notebooks/experiments/run_experiments.py) *)
(* ===================================================================== *)

Module Reproducibility.

(** *** os.path on POSIX *)

Definition sep : ascii := "/"%char.

Fixpoint has_sep (s : string) : bool :=
  match s with
  | EmptyString => false
  | String c r => Ascii.eqb c sep || has_sep r
  end.

Fixpoint endswith_sep (s : string) : bool :=
  match s with
  | EmptyString => false
  | String c EmptyString => Ascii.eqb c sep
  | String _ r => endswith_sep r
  end.

Definition startswith_sep (s : string) : bool :=
  match s with
  | String c _ => Ascii.eqb c sep
  | EmptyString => false
  end.

Definition is_empty (s : string) : bool :=
  match s with EmptyString => true | _ => false end.

(** [s.rstrip('/')] *)
Fixpoint rstrip_sep (s : string) : string :=
  match s with
  | EmptyString => EmptyString
  | String c r =>
      let r' := rstrip_sep r in
      if is_empty r' && Ascii.eqb c sep then EmptyString else String c r'
  end.

(** The split at the last separator: the head keeps the separator. *)
Fixpoint rsplit_sep (s : string) : option (string * string) :=
  match s with
  | EmptyString => None
  | String c r =>
      match rsplit_sep r with
      | Some (h, t) => Some (String c h, t)
      | None => if Ascii.eqb c sep then Some (String c EmptyString, r) else None
      end
  end.

(** [os.path.join(a, b)] *)
Definition os_path_join (a b : string) : string :=
  if startswith_sep b then b
  else if is_empty a || endswith_sep a then a +:+ b
  else a +:+ "/" +:+ b.

(** [os.path.basename(p)] *)
Definition os_path_basename (p : string) : string :=
  match rsplit_sep p with
  | Some (_, t) => t
  | None => p
  end.

(** [os.path.dirname(p)] *)
Definition os_path_dirname (p : string) : string :=
  match rsplit_sep p with
  | Some (h, _) => if is_empty (rstrip_sep h) then h else rstrip_sep h
  | None => EmptyString
  end.

(** *** JSON documents *)

Inductive json : Type :=
| JNull
| JBool (b : bool)
| JInt (z : Z)
| JFloat (f : float)
| JStr (s : string)
| JList (l : list json)
| JObj (fields : list (string * json)).

(** A Python [dict] with string keys, in insertion order. *)
Definition dict : Type := list (string * json).

Fixpoint dict_get (k : string) (d : dict) : option json :=
  match d with
  | [] => None
  | (k', v) :: d' => if String.eqb k k' then Some v else dict_get k d'
  end.

(** [d[k] = v]: an existing key keeps its place. *)
Fixpoint dict_set (k : string) (v : json) (d : dict) : dict :=
  match d with
  | [] => [(k, v)]
  | (k', v') :: d' => if String.eqb k k' then (k, v) :: d' else (k', v') :: dict_set k v d'
  end.

(** [d[k]] *)
Definition dict_item (k : string) (d : dict) : res json :=
  match dict_get k d with
  | Some v => Ok v
  | None => Raise (KeyError k)
  end.

(** Calling a dataclass with [**d]: every key must name a field. *)
Definition check_keywords (fields : list string) (d : dict) : res unit :=
  match List.find (fun kv => negb (existsb (String.eqb (fst kv)) fields)) d with
  | Some (k, _) => Raise (TypeError ("unexpected keyword argument " +:+ k))
  | None => Ok tt
  end.

(** Reading one keyword, with the field's default when it is absent.  The
    records are typed, so a value of another JSON type is refused. *)
Definition kw_str (k : string) (default : string) (d : dict) : res string :=
  match dict_get k d with
  | None => Ok default
  | Some (JStr s) => Ok s
  | Some _ => Raise (TypeError k)
  end.

Definition kw_int (k : string) (default : Z) (d : dict) : res Z :=
  match dict_get k d with
  | None => Ok default
  | Some (JInt z) => Ok z
  | Some _ => Raise (TypeError k)
  end.

Definition kw_bool (k : string) (default : bool) (d : dict) : res bool :=
  match dict_get k d with
  | None => Ok default
  | Some (JBool b) => Ok b
  | Some _ => Raise (TypeError k)
  end.

Definition kw_float (k : string) (default : float) (d : dict) : res float :=
  match dict_get k d with
  | None => Ok default
  | Some (JFloat f) => Ok f
  | Some _ => Raise (TypeError k)
  end.

Definition as_dict (j : json) : res dict :=
  match j with
  | JObj d => Ok d
  | _ => Raise (TypeError "argument after ** must be a mapping")
  end.

(** *** ModelArguments as a dictionary *)

Import Model.

(** [asdict(model_arguments)] *)
Definition ModelArguments_asdict (a : ModelArguments) : json :=
  JObj [ ("space_name", JStr (space_name a));
         ("space_dim", JInt (space_dim a));
         ("model_name", JStr (model_name a));
         ("num_hidden", JInt (num_hidden a));
         ("num_inducing", JInt (num_inducing a));
         ("num_eigenfunctions", JInt (num_eigenfunctions a));
         ("learn_inducing_locations", JBool (learn_inducing_locations a));
         ("optimize_nu", JBool (optimize_nu a));
         ("nu", JFloat (nu a));
         ("tangent_to_manifold", JStr (tangent_to_manifold a));
         ("project_to_tangent", JStr (project_to_tangent a));
         ("parametrised_frame", JBool (parametrised_frame a));
         ("rotated_frame", JBool (rotated_frame a));
         ("outputscale_mean", JFloat (outputscale_mean a)) ].

Definition ModelArguments_fields : list string :=
  [ "space_name"; "space_dim"; "model_name"; "num_hidden"; "num_inducing";
    "num_eigenfunctions"; "learn_inducing_locations"; "optimize_nu"; "nu";
    "tangent_to_manifold"; "project_to_tangent"; "parametrised_frame";
    "rotated_frame"; "outputscale_mean" ].

(** [ModelArguments] called with the keywords of a dictionary *)
Definition ModelArguments_of (j : json) : res ModelArguments :=
  let df := ModelArguments_default in
  res_bind (as_dict j) (fun d =>
  res_bind (check_keywords ModelArguments_fields d) (fun _ =>
  res_bind (kw_str "space_name" (space_name df) d) (fun f1 =>
  res_bind (kw_int "space_dim" (space_dim df) d) (fun f2 =>
  res_bind (kw_str "model_name" (model_name df) d) (fun f3 =>
  res_bind (kw_int "num_hidden" (num_hidden df) d) (fun f4 =>
  res_bind (kw_int "num_inducing" (num_inducing df) d) (fun f5 =>
  res_bind (kw_int "num_eigenfunctions" (num_eigenfunctions df) d) (fun f6 =>
  res_bind (kw_bool "learn_inducing_locations" (learn_inducing_locations df) d) (fun f7 =>
  res_bind (kw_bool "optimize_nu" (optimize_nu df) d) (fun f8 =>
  res_bind (kw_float "nu" (nu df) d) (fun f9 =>
  res_bind (kw_str "tangent_to_manifold" (tangent_to_manifold df) d) (fun f10 =>
  res_bind (kw_str "project_to_tangent" (project_to_tangent df) d) (fun f11 =>
  res_bind (kw_bool "parametrised_frame" (parametrised_frame df) d) (fun f12 =>
  res_bind (kw_bool "rotated_frame" (rotated_frame df) d) (fun f13 =>
  res_bind (kw_float "outputscale_mean" (outputscale_mean df) d) (fun f14 =>
  Ok (MkModelArguments f1 f2 f3 f4 f5 f6 f7 f8 f9 f10 f11 f12 f13 f14))))))))))))))))).

(** *** ExperimentConfig *)

Inductive ExperimentStatus : Type := READY | RUNNING | FAILED | COMPLETED.

(** [status.value] *)
Definition status_value (s : ExperimentStatus) : string :=
  match s with
  | READY => "ready"
  | RUNNING => "running"
  | FAILED => "failed"
  | COMPLETED => "completed"
  end.

(** [ExperimentStatus(v)] *)
Definition status_of_value (j : json) : res ExperimentStatus :=
  match j with
  | JStr v =>
      if String.eqb v "ready" then Ok READY
      else if String.eqb v "running" then Ok RUNNING
      else if String.eqb v "failed" then Ok FAILED
      else if String.eqb v "completed" then Ok COMPLETED
      else Raise (ValueError (v +:+ " is not a valid ExperimentStatus"))
  | _ => Raise (ValueError "not a valid ExperimentStatus")
  end.

Definition status_eqb (a b : ExperimentStatus) : bool :=
  match a, b with
  | READY, READY | RUNNING, RUNNING | FAILED, FAILED | COMPLETED, COMPLETED => true
  | _, _ => false
  end.

(** [DataArguments] and [TrainingArguments] are dataclasses of the package
    that are not part of the sources: a dataclass is used through [asdict]
    and through its constructor called with keywords. *)
Class Dataclass (A : Type) : Type := {
  asdict : A -> json;
  of_keywords : json -> res A;
  default : A
}.

(** A dataclass of plain fields is rebuilt from its own dictionary. *)
Class Rebuilds (A : Type) `{Dataclass A} : Prop :=
  rebuilds : forall a : A, of_keywords (asdict a) = Ok a.

Section Config.
Context {DataArguments TrainingArguments : Type}.
Context `{Dataclass DataArguments} `{Dataclass TrainingArguments}.

Record ExperimentConfig : Type := MkExperimentConfig {
  model_arguments : ModelArguments;
  data_arguments : DataArguments;
  training_arguments : TrainingArguments;
  run : Z;
  status : ExperimentStatus;
  file_name : string
}.

Definition seed (c : ExperimentConfig) : Z := run c.

Definition to_dict (c : ExperimentConfig) : dict :=
  [ ("model_arguments", ModelArguments_asdict (model_arguments c));
    ("data_arguments", asdict (data_arguments c));
    ("training_arguments", asdict (training_arguments c));
    ("run", JInt (run c));
    ("status", JStr (status_value (status c))) ].

Definition ExperimentConfig_fields : list string :=
  [ "model_arguments"; "data_arguments"; "training_arguments"; "run"; "status"; "file_name" ].

(** [ExperimentConfig.from_dict]: the four subscripted entries are replaced
    in place, then the class is called with the dictionary as keywords.
    After the replacement the three argument entries and the status hold
    objects, so only [run] and [file_name] can fall back on a default. *)
Definition from_dict (data : dict) : res ExperimentConfig :=
  res_bind (dict_item "status" data) (fun js =>
  res_bind (status_of_value js) (fun st =>
  res_bind (dict_item "model_arguments" data) (fun jm =>
  res_bind (ModelArguments_of jm) (fun ma =>
  res_bind (dict_item "data_arguments" data) (fun jd =>
  res_bind (of_keywords jd) (fun da =>
  res_bind (dict_item "training_arguments" data) (fun jt =>
  res_bind (of_keywords jt) (fun ta =>
  res_bind (check_keywords ExperimentConfig_fields data) (fun _ =>
  res_bind (kw_int "run" 0 data) (fun r =>
  res_bind (kw_str "file_name" "config.json" data) (fun fn =>
  Ok (MkExperimentConfig ma da ta r st fn)))))))))))).

(** The files written with [json.dump], by path.  [json.load] of a file
    gives back the document that was dumped. *)
Definition files : Type := gmap string json.

(** [open(path, 'w')]: a path that names no file cannot be opened. *)
Definition open_w (path : string) : res unit :=
  if is_empty path || endswith_sep path then Raise (FileNotFoundError path) else Ok tt.

(** [ExperimentConfig.to_json] *)
Definition to_json (c : ExperimentConfig) (dir_path : string) : M files unit :=
  let file_path := os_path_join dir_path (file_name c) in
  lift (open_w file_path) ;;;
  modify (fun fs : files => <[file_path := JObj (to_dict c)]> fs).

(** [ExperimentConfig.from_json] *)
Definition from_json (file_path : string) : M files ExperimentConfig :=
  fs <~ get ;;
  match (fs : files) !! file_path with
  | None => raise (FileNotFoundError file_path)
  | Some doc =>
      data <~ lift (as_dict doc) ;;
      let data := dict_set "file_name" (JStr (os_path_basename file_path)) data in
      lift (from_dict data)
  end.

(** *** ExperimentConfigReader *)

Definition set_status (st : ExperimentStatus) (c : ExperimentConfig) : ExperimentConfig :=
  MkExperimentConfig (model_arguments c) (data_arguments c) (training_arguments c)
                     (run c) st (file_name c).

(** The reader and the block of the [with] statement hold the same
    configuration object: it is part of the state next to the files. *)
Definition _update_status (file_path : string) (st : ExperimentStatus)
  : M (ExperimentConfig * files) unit :=
  fun '(c, fs) =>
    let c' := set_status st c in
    let '(r, fs') := to_json c' (os_path_dirname file_path) fs in
    (r, (c', fs')).

(** The condition of [__enter__]. *)
Definition may_start (st : ExperimentStatus) (overwrite : bool) : bool :=
  status_eqb st READY || status_eqb st FAILED || (status_eqb st COMPLETED && overwrite).

(** [ExperimentConfigReader.__enter__]: the object read from the file
    becomes [self.experiment_config] and is the value of the [with] item. *)
Definition enter (file_path : string) (overwrite : bool) : M files ExperimentConfig :=
  c <~ from_json file_path ;;
  if may_start (status c) overwrite
  then fun fs =>
         let '(r, (c', fs')) := _update_status file_path RUNNING (c, fs) in
         (res_bind r (fun _ => Ok c'), fs')
  else ret c.

(** [ExperimentConfigReader.__exit__]; it returns [None], so an exception
    of the block goes on after it. *)
Definition exit (file_path : string) (exc_type : option exn)
  : M (ExperimentConfig * files) unit :=
  fun '(c, fs) =>
    if status_eqb (status c) RUNNING
    then let st := match exc_type with None => COMPLETED | Some _ => FAILED end in
         _update_status file_path st (c, fs)
    else (Ok tt, (c, fs)).

Section Reader.
Context {E : Type}.

(** The state a block runs in: the shared configuration object, the files,
    and whatever else the run touches. *)
Definition session : Type := ExperimentConfig * files * E.

(** [with ExperimentConfigReader(file_path, overwrite) as experiment_config: block] *)
Definition with_reader (file_path : string) (overwrite : bool)
    (block : M session unit) : M (files * E) unit :=
  fun '(fs, e) =>
    match enter file_path overwrite fs with
    | (Raise x, fs1) => (Raise x, (fs1, e))
    | (Ok c, fs1) =>
        let '(r, (c2, fs2, e2)) := block (c, fs1, e) in
        let exc_type := match r with Ok _ => None | Raise x => Some x end in
        let '(r', (_, fs3)) := exit file_path exc_type (c2, fs2) in
        match r' with
        | Raise x' => (Raise x', (fs3, e2))
        | Ok _ => (r, (fs3, e2))
        end
    end.

(** The collaborators of [run_experiment]: the data sets, and training
    and testing of the constructed model on them (steps 2 to 5, after
    [create_model]); [seed_everything] sets the global random state. *)
Class Experiment : Type := {
  data_t : Type;
  sphere_uniform_grid : Z -> tensor;
  get_data : DataArguments -> M (files * E) data_t;
  train_and_test : DeepGP -> data_t -> ExperimentConfig -> string -> M (files * E) unit;
  seed_everything : Z -> E -> E
}.

Context `{Experiment}.

Definition in_world {A} (m : M (files * E) A) : M session A :=
  fun '(c, fs, e) => let '(r, (fs', e')) := m (fs, e) in (r, (c, fs', e')).

(** [set_experiment_seed] *)
Definition set_experiment_seed (run : Z) : M session unit :=
  modify (fun '(c, fs, e) => (c, fs, seed_everything run e)).

(** [run_experiment] of run_experiments.py: it reads the configuration and
    never assigns to it. *)
Definition run_experiment (experiment_config : ExperimentConfig) (dir_path : string)
  : M session unit :=
  sets <~ in_world (get_data (data_arguments experiment_config)) ;;
  model <~ lift (create_model sphere_uniform_grid (model_arguments experiment_config)) ;;
  in_world (train_and_test model sets experiment_config dir_path).

(** [main] of run_experiments.py *)
Definition main (dir_path : string) (overwrite : bool) (config_file_name : string)
  : M (files * E) unit :=
  with_reader (os_path_join dir_path config_file_name) overwrite
    (s <~ get ;;
     let experiment_config := fst (fst (s : session)) in
     if status_eqb (status experiment_config) RUNNING
     then set_experiment_seed (seed experiment_config) ;;;
          run_experiment experiment_config dir_path
     else ret tt).

End Reader.

End Config.

Arguments ExperimentConfig : clear implicits.

End Reproducibility.

(* ===================================================================== *)
(** ** Naming: experiment and run names (experiment_utils/reproducibility.py) *)
(* ===================================================================== *)

Module Naming.
Import Model Reproducibility.

(** A field of a dataclass instance as [fields(dc)] and [getattr] show it:
    its name, its current value and its default, of the declared type. *)
Inductive field : Type :=
| StrField (name : string) (current default : string)
| IntField (name : string) (current default : Z)
| BoolField (name : string) (current default : bool)
| FloatField (name : string) (current default : float).

Inductive value : Type :=
| VStr (s : string)
| VInt (z : Z)
| VBool (b : bool)
| VFloat (f : float).

Definition field_name (f : field) : string :=
  match f with
  | StrField n _ _ | IntField n _ _ | BoolField n _ _ | FloatField n _ _ => n
  end.

Definition field_value (f : field) : value :=
  match f with
  | StrField _ c _ => VStr c
  | IntField _ c _ => VInt c
  | BoolField _ c _ => VBool c
  | FloatField _ c _ => VFloat c
  end.

(** [current_value != field.default]; on floats the comparison is the
    IEEE one: NaN differs from NaN, and the two zeros are equal. *)
Definition differs (f : field) : bool :=
  match f with
  | StrField _ c d => negb (String.eqb c d)
  | IntField _ c d => negb (Z.eqb c d)
  | BoolField _ c d => negb (Bool.eqb c d)
  | FloatField _ c d => negb (SFeqb c d)
  end.

(** A dict from names to values, in insertion order. *)
Definition namespace : Type := list (string * value).

(** [d[k] = v] *)
Fixpoint set_item (k : string) (v : value) (d : namespace) : namespace :=
  match d with
  | [] => [(k, v)]
  | (k', v') :: d' =>
      if String.eqb k k' then (k, v) :: d' else (k', v') :: set_item k v d'
  end.

(** [non_default_fields] *)
Definition non_default_fields (dc : list field) : namespace :=
  foldl (fun result f =>
           if differs f then set_item (field_name f) (field_value f) result else result)
        [] dc.

(** [{**a, **b}] *)
Definition merge (a b : namespace) : namespace :=
  foldl (fun acc kv => set_item (fst kv) (snd kv) acc) a b.

(** [sep.join(l)] *)
Fixpoint join (sep : string) (l : list string) : string :=
  match l with
  | [] => EmptyString
  | [s] => s
  | s :: l' => s +:+ sep +:+ join sep l'
  end.

Definition repeated_message : string :=
  "There are repeated argument names between data, training, and model arguments".

(** The fields of [ModelArguments], with the defaults of the dataclass. *)
Definition ModelArguments_field_list (a : ModelArguments) : list field :=
  let df := ModelArguments_default in
  [ StrField "space_name" (space_name a) (space_name df);
    IntField "space_dim" (space_dim a) (space_dim df);
    StrField "model_name" (model_name a) (model_name df);
    IntField "num_hidden" (num_hidden a) (num_hidden df);
    IntField "num_inducing" (num_inducing a) (num_inducing df);
    IntField "num_eigenfunctions" (num_eigenfunctions a) (num_eigenfunctions df);
    BoolField "learn_inducing_locations" (learn_inducing_locations a)
              (learn_inducing_locations df);
    BoolField "optimize_nu" (optimize_nu a) (optimize_nu df);
    FloatField "nu" (nu a) (nu df);
    StrField "tangent_to_manifold" (tangent_to_manifold a) (tangent_to_manifold df);
    StrField "project_to_tangent" (project_to_tangent a) (project_to_tangent df);
    BoolField "parametrised_frame" (parametrised_frame a) (parametrised_frame df);
    BoolField "rotated_frame" (rotated_frame a) (rotated_frame df);
    FloatField "outputscale_mean" (outputscale_mean a) (outputscale_mean df) ].

(** The fields of the dataclasses that are not part of the sources. *)
Class Fields (A : Type) : Type := field_list : A -> list field.

Section Names.
(** [repr] of a float is the interpreter's. *)
Variable float_repr : float -> string.

(** [f'{value}'] *)
Definition format_value (v : value) : string :=
  match v with
  | VStr s => s
  | VInt z => pretty z
  | VBool true => "True"
  | VBool false => "False"
  | VFloat f => float_repr f
  end.

(** [get_experiment_name] *)
Definition get_experiment_name (data_arguments training_arguments model_arguments : list field)
  : res string :=
  let data_arguments_dict := non_default_fields data_arguments in
  let training_arguments_dict := non_default_fields training_arguments in
  let model_arguments_dict := non_default_fields model_arguments in
  let all_arguments_dict :=
    merge (merge model_arguments_dict data_arguments_dict) training_arguments_dict in
  if negb (Nat.eqb (length all_arguments_dict)
                   (length data_arguments_dict + length training_arguments_dict
                    + length model_arguments_dict))
  then Raise (ValueError repeated_message)
  else if Nat.eqb (length all_arguments_dict) 0 then Ok "default"
  else Ok (join "-" (map (fun kv => fst kv +:+ "=" +:+ format_value (snd kv))
                         all_arguments_dict)).

Context {DataArguments TrainingArguments : Type}.
Context `{Dataclass DataArguments} `{Dataclass TrainingArguments}.
Context `{Fields DataArguments} `{Fields TrainingArguments}.

(** The property [ExperimentConfig.experiment_name] *)
Definition experiment_name (c : ExperimentConfig DataArguments TrainingArguments)
  : res string :=
  get_experiment_name (field_list (data_arguments c)) (field_list (training_arguments c))
                      (ModelArguments_field_list (model_arguments c)).

(** The property [ExperimentConfig.run_name] *)
Definition run_name (c : ExperimentConfig DataArguments TrainingArguments) : string :=
  "run_" +:+ pretty (run c).

End Names.

End Naming.

(* ===================================================================== *)
(** ** Tree: the configurations of an experiment tree
       (experiment_utils/reproducibility.py) *)
(* ===================================================================== *)

Module Tree.
Import Model Reproducibility Naming.

(** The values a key of the description stands for: the elements of a
    list, or the value itself. *)
Definition choices (v : json) : list json :=
  match v with
  | JList l => l
  | _ => [v]
  end.

(** [itertools.product] of the lists: the last position varies fastest. *)
Fixpoint product (ls : list (list json)) : list (list json) :=
  match ls with
  | [] => [[]]
  | l :: ls' => flat_map (fun a => map (cons a) (product ls')) l
  end.

(** [expand_args]; a dict has distinct keys, so [dict(zip(keys, c))] is
    the list of pairs. *)
Definition expand_args (args_dict : dict) : list dict :=
  let keys := map fst args_dict in
  let values := map (fun kv => choices (snd kv)) args_dict in
  map (fun combination => zip keys combination) (product values).

(** The description of a tree, with its four entries in place. *)
Record TreeConfig : Type := MkTreeConfig {
  tree_model_arguments : dict;
  tree_data_arguments : dict;
  tree_training_arguments : dict;
  tree_runs : list Z
}.

(** One pass of the inner loop: the three dictionaries and the run. *)
Definition job : Type := dict * dict * dict * Z.

(** The passes of the two nested loops, in order. *)
Definition jobs (json_config : TreeConfig) : list job :=
  flat_map (fun model_args =>
    flat_map (fun data_args =>
      flat_map (fun training_args =>
        map (fun run => (model_args, data_args, training_args, run))
            (tree_runs json_config))
        (expand_args (tree_training_arguments json_config)))
      (expand_args (tree_data_arguments json_config)))
    (expand_args (tree_model_arguments json_config)).

(** A loop over a list, in a state-and-exception monad. *)
Fixpoint each {S A : Type} (l : list A) (body : A -> M S unit) : M S unit :=
  match l with
  | [] => ret tt
  | a :: l' => body a ;;; each l' body
  end.

Section Tree.
Variable float_repr : float -> string.
Context {DataArguments TrainingArguments : Type}.
Context `{Dataclass DataArguments} `{Dataclass TrainingArguments}.
Context `{Fields DataArguments} `{Fields TrainingArguments}.

(** Lines 175-180: the configuration of a pass; the status and the file
    name are the defaults of [ExperimentConfig]. *)
Definition build_config (j : job) : res (ExperimentConfig DataArguments TrainingArguments) :=
  let '(model_args, data_args, training_args, run) := j in
  res_bind (ModelArguments_of (JObj model_args)) (fun ma =>
  res_bind (of_keywords (JObj data_args)) (fun da =>
  res_bind (of_keywords (JObj training_args)) (fun ta =>
  Ok (MkExperimentConfig ma da ta run READY "config.json")))).

(** Lines 175-196: one pass.  Directories are not files: [os.makedirs]
    with [exist_ok=True] leaves the files alone. *)
Definition create_one (dir_path : string) (overwrite : bool) (j : job) : M files unit :=
  config <~ lift (build_config j) ;;
  name <~ lift (experiment_name float_repr config) ;;
  let experiment_path := os_path_join dir_path name in
  let run_path := os_path_join experiment_path (run_name config) in
  let config_path := os_path_join run_path (file_name config) in
  fs <~ get ;;
  if bool_decide (is_Some ((fs : files) !! config_path)) && negb overwrite
  then ret tt
  else to_json config run_path.

(** [create_experiment_config_from_json] *)
Definition create_experiment_config_from_json (json_config : TreeConfig)
    (dir_path : string) (overwrite : bool) : M files unit :=
  each (jobs json_config) (create_one dir_path overwrite).

End Tree.

End Tree.

(* ===================================================================== *)
(** ** Crawl: running the experiments of a tree
       (notebooks/experiments/run_experiments.py) *)
(* ===================================================================== *)

Module Crawl.
Import Model Reproducibility Tree.

(** What [os.walk] yields for a directory: its path, the names of its
    sub-directories and the names of its files. *)
Definition walk_entry : Type := string * list string * list string.

(** [bool(s)] for a string. *)
Definition bool_of_str (s : string) : bool := negb (is_empty s).

(** The command line of the script, as [parse_args] sees it: the
    positional argument and the values given to the two options. *)
Record CommandLine : Type := MkCommandLine {
  arg_dir_path : string;
  arg_config_name : option string;
  arg_overwrite : option string
}.

Section Crawl.
Context {DataArguments TrainingArguments E : Type}.
Context `{Dataclass DataArguments} `{Dataclass TrainingArguments}.
Context `{@Experiment DataArguments TrainingArguments E}.

(** [crawl_and_run]; [walk] is what [os.walk(start_directory)] yields. *)
Definition crawl_and_run (walk : list walk_entry) (config_file_name : string)
    (overwrite : bool) : M (files * E) unit :=
  each walk (fun '(dirpath, _, filenames) =>
    if existsb (String.eqb config_file_name) filenames
    then main dirpath overwrite config_file_name
    else ret tt).

(** The script; [walk] is what [os.walk(args.dir_path)] yields.
    [--config_name] is a string with the default 'config.json';
    [--overwrite] is declared with [type=bool], so its value is [bool] of
    the string that was given, and [False] when the option is absent. *)
Definition script (walk : list walk_entry) (args : CommandLine) : M (files * E) unit :=
  let config_name :=
    match arg_config_name args with
    | Some s => s
    | None => "config.json"
    end in
  let overwrite :=
    match arg_overwrite args with
    | Some s => bool_of_str s
    | None => false
    end in
  crawl_and_run walk config_name overwrite.

End Crawl.

End Crawl.

(* ===================================================================== *)
(** ** Kernels: the Matern kernel on a space (kernels/matern_kernel.py) *)
(* ===================================================================== *)

Module Kernels.

(** The spaces of the package: the code tells the Euclidean space from
    the others with [isinstance(space, Euclidean)]. *)
Inductive Space : Type :=
| Euclidean (dim : Z)
| Hypersphere (dim : Z).

Definition is_euclidean (space : Space) : bool :=
  match space with Euclidean _ => true | Hypersphere _ => false end.

(** [a or b] for two optional integers: [None] and [0] are false. *)
Definition py_or (a b : option Z) : option Z :=
  match a with
  | Some n => if (n =? 0)%Z then b else a
  | None => b
  end.

Definition both_given_warning : string :=
  "Only one of num_random_phases and num_eigenfunctions will be used. You have passed both. Make sure this is intended.".

Definition trainable_nu_message : string :=
  "Trainable nu is not yet supported for Euclidean spaces.".

(** The libraries behind the kernels (torch, geometric_kernels, gpytorch);
    each call may raise.  [Generator] is a fresh generator, seeded when a
    seed is given; [MaternGeometricKernel] takes the space, [num] and the
    key, which is known by its seed; [GPytorchGeometricKernel] takes the
    base kernel, the length scale, [nu] and [trainable_nu];
    [MaternKernel] is gpytorch's kernel for [nu], initialised with the
    length scale. *)
Class KernelLibrary (FeatureMap BaseKernel GpKernel : Type) : Type := {
  Generator : option Z -> res unit;
  default_feature_map : Space -> res FeatureMap;
  MaternGeometricKernel : Space -> option Z -> option Z -> res BaseKernel;
  GPytorchGeometricKernel : BaseKernel -> float -> float -> bool -> res GpKernel;
  MaternKernel : float -> float -> res GpKernel
}.

Section Kernels.
Context {FeatureMap BaseKernel GpKernel : Type}.
Context `{KernelLibrary FeatureMap BaseKernel GpKernel}.

(** What [BaseMaternKernel.__init__] sets: the seed (of the key) and the
    feature map. *)
Record BaseMaternKernel : Type := MkBaseMaternKernel {
  seed : option Z;
  feature_map : FeatureMap
}.

(** The two kernels, with what their constructors are given; further
    keyword arguments go to the library as they are. *)
Inductive Kernel : Type :=
| _GeometricMaternKernel (base : BaseMaternKernel) (kernel : GpKernel)
| _EuclideanMaternKernel (base : BaseMaternKernel) (kernel : GpKernel) (space : Space).

(** A constructor call: its result and the warnings it issued. *)
Definition built : Type := res Kernel * list string.

Definition BaseMaternKernel_init (space : Space) (seed : option Z) : res BaseMaternKernel :=
  res_bind (Generator seed) (fun _ =>
  res_bind (default_feature_map space) (fun fm => Ok (MkBaseMaternKernel seed fm))).

(** [_GeometricMaternKernel.__init__] *)
Definition GeometricMaternKernel_init (space : Space) (lengthscale nu : float)
    (trainable_nu : bool) (seed : option Z) (num_random_phases num_eigenfunctions : option Z)
  : built :=
  match BaseMaternKernel_init space seed with
  | Raise e => (Raise e, [])
  | Ok base =>
      let warnings :=
        match num_random_phases, num_eigenfunctions with
        | Some _, Some _ => [both_given_warning]
        | _, _ => []
        end in
      (res_bind (MaternGeometricKernel space (py_or num_random_phases num_eigenfunctions) seed)
         (fun base_kernel =>
       res_bind (GPytorchGeometricKernel base_kernel lengthscale nu trainable_nu)
         (fun kernel => Ok (_GeometricMaternKernel base kernel))),
       warnings)
  end.

(** [_EuclideanMaternKernel.__init__] *)
Definition EuclideanMaternKernel_init (space : Space) (lengthscale nu : float)
    (trainable_nu : bool) (seed : option Z) : built :=
  if trainable_nu then (Raise (AssertionError trainable_nu_message), [])
  else
    (res_bind (BaseMaternKernel_init space seed) (fun base =>
     res_bind (MaternKernel nu lengthscale) (fun kernel =>
     Ok (_EuclideanMaternKernel base kernel space))),
     []).

(** [GeometricMaternKernel.__new__] *)
Definition GeometricMaternKernel (space : Space) (lengthscale nu : float)
    (trainable_nu : bool) (seed : option Z) (num_random_phases num_eigenfunctions : option Z)
  : built :=
  if is_euclidean space
  then EuclideanMaternKernel_init space lengthscale nu trainable_nu seed
  else GeometricMaternKernel_init space lengthscale nu trainable_nu seed
                                  num_random_phases num_eigenfunctions.

End Kernels.

End Kernels.

(* ===================================================================== *)
(** ** Geometric: the deep GP with spherical harmonic features
       (experiments/uci/model/geometric.py) *)
(* ===================================================================== *)

Module Geometric.
Import Kernels.

(** The constants of the module, by name. *)
Inductive variance : Type := INNER_LAYER_VARIANCE | OUTPUT_LAYER_VARIANCE.

Definition NUM_HARMONICS_KERNEL : Z := 625.
(** [LENGTHSCALE = 1.0] and [NU = 1.5]. *)
Definition LENGTHSCALE : float := fpos 1 0.
Definition NU : float := fpos 3 (-1).
Definition OPTIMIZE_NU : bool := false.

(** [dimension_to_num_harmonics_variational[d]] *)
Definition dimension_to_num_harmonics_variational (d : Z) : res Z :=
  if (d =? 4)%Z then Ok 336%Z
  else if (d =? 6)%Z then Ok 294%Z
  else if (d =? 8)%Z then Ok 210%Z
  else Raise (KeyError (pretty d)).

(** What the layers are built from, outside the sources: the two functions
    of [mdgp.variational.spherical_harmonic_features.utils] (the first
    component of the result of the first one is what the code uses); the
    variational strategy of a layer, from the number of inducing points,
    the batch shape, the number of levels and the jitter; the space
    [Hypersphere(d)]; the scaled kernel and the constant mean of a batch
    shape; the likelihood of a number of tasks; and the default jitter of
    gpytorch.  Each call may raise. *)
Class LayerLibrary (Strategy : Type) : Type := {
  num_spherical_harmonics_to_num_levels : Z -> Z -> res Z;
  total_num_harmonics : Z -> Z -> res Z;
  variational_strategy : Z -> list Z -> Z -> option float -> res Strategy;
  Hypersphere_init : Z -> res unit;
  ScaleKernel : list Z -> res unit;
  ConstantMean : list Z -> res unit;
  MultitaskGaussianLikelihood : Z -> res unit;
  cholesky_jitter : float
}.

(** The attributes of the data set that the model reads. *)
Record UCIDataset : Type := MkUCIDataset { dimension : Z; num_outputs : Z }.

Section Geometric.
Context {FeatureMap BaseKernel GpKernel Strategy : Type}.
Context `{KernelLibrary FeatureMap BaseKernel GpKernel} `{LayerLibrary Strategy}.

(** What [SHFDeepGPLayer.__init__] sets. *)
Record SHFDeepGPLayer : Type := MkSHFDeepGPLayer {
  strategy : Strategy;
  input_dims : Z;
  output_dims : option Z;
  batch_shape : list Z;
  jitter_val : float;
  max_ell : Z;
  max_ell_prior : Z;
  d : Z;
  base_kernel : @Kernel FeatureMap GpKernel;
  outputscale : variance
}.

(** [jitter_val or settings.cholesky_jitter.value(...)]: [None] and [0.0]
    are false. *)
Definition jitter_or_default (jitter_val : option float) : float :=
  match jitter_val with
  | Some (S754_zero _) | None => cholesky_jitter
  | Some j => j
  end.

(** [SHFDeepGPLayer.__init__] *)
Definition SHFDeepGPLayer_init (d : Z) (hidden : bool) (jitter_val : option float)
    (optimize_nu : bool) (output_dims : option Z) : res SHFDeepGPLayer :=
  res_bind (dimension_to_num_harmonics_variational d) (fun harmonics =>
  res_bind (num_spherical_harmonics_to_num_levels harmonics d) (fun max_ell =>
  res_bind (num_spherical_harmonics_to_num_levels NUM_HARMONICS_KERNEL d) (fun max_ell_prior =>
  res_bind (total_num_harmonics max_ell d) (fun m =>
  let batch_shape := match output_dims with None => [] | Some n => [n] end in
  res_bind (variational_strategy m batch_shape max_ell jitter_val) (fun strategy =>
  res_bind (Hypersphere_init d) (fun _ =>
  res_bind (fst (GeometricMaternKernel (Hypersphere d) LENGTHSCALE NU optimize_nu None
                                       None (Some max_ell_prior))) (fun base_kernel =>
  res_bind (ScaleKernel batch_shape) (fun _ =>
  res_bind (ConstantMean batch_shape) (fun _ =>
  Ok (MkSHFDeepGPLayer strategy (d + 1) output_dims batch_shape
                       (jitter_or_default jitter_val) max_ell max_ell_prior d base_kernel
                       (if hidden then INNER_LAYER_VARIANCE
                        else OUTPUT_LAYER_VARIANCE))))))))))).

(** What [SHFDeepGP.__init__] sets. *)
Record SHFDeepGP : Type := MkSHFDeepGP {
  space : Space;
  layers : list SHFDeepGPLayer;
  likelihood_num_tasks : Z;
  likelihood_noise : variance
}.

(** A list comprehension: the elements are built in order, and the first
    one that raises ends it. *)
Fixpoint build_all (n : nat) (build : res SHFDeepGPLayer) : res (list SHFDeepGPLayer) :=
  match n with
  | 0 => Ok []
  | S k => res_bind build (fun layer =>
           res_bind (build_all k build) (fun rest => Ok (layer :: rest)))
  end.

Definition no_layers_message : string :=
  "unsupported operand type(s) for -: 'NoneType' and 'int'".

(** [SHFDeepGP.__init__]; [range(n)] is empty for [n <= 0]. *)
Definition SHFDeepGP_init (dataset : UCIDataset) (num_layers : option Z)
    (jitter_val : option float) (optimize_nu : bool) : res SHFDeepGP :=
  res_bind (Hypersphere_init (dimension dataset)) (fun _ =>
  match num_layers with
  | None => Raise (TypeError no_layers_message)
  | Some n =>
      res_bind (build_all (Z.to_nat (n - 1))
                  (SHFDeepGPLayer_init (dimension dataset) true jitter_val optimize_nu
                                       (Some (dimension dataset + 1)%Z))) (fun hidden_layers =>
      res_bind (SHFDeepGPLayer_init (dimension dataset) false jitter_val optimize_nu
                                    (Some (num_outputs dataset))) (fun output_layer =>
      res_bind (MultitaskGaussianLikelihood (num_outputs dataset)) (fun _ =>
      Ok (MkSHFDeepGP (Hypersphere (dimension dataset)) (hidden_layers ++ [output_layer])
                      (num_outputs dataset) OUTPUT_LAYER_VARIANCE))))
  end).

End Geometric.

End Geometric.

(* ===================================================================== *)
(** ** Facts about floats and tensors *)
(* ===================================================================== *)

Module TorchFacts.

(** The comparison of IEEE values that are not NaN is the lexicographic
    order of a rank: class (infinities, signs, zero), exponent, mantissa. *)
Definition rank (f : float) : Z * Z * Z :=
  match f with
  | S754_infinity true => (-2, 0, 0)
  | S754_finite true m e => (-1, - e, - Zpos m)
  | S754_zero _ => (0, 0, 0)
  | S754_finite false m e => (1, e, Zpos m)
  | S754_infinity false => (2, 0, 0)
  | S754_nan => (3, 0, 0)
  end%Z.

Definition lex3 (a b : Z * Z * Z) : Prop :=
  let '(a1, a2, a3) := a in
  let '(b1, b2, b3) := b in
  (a1 < b1 \/ (a1 = b1 /\ (a2 < b2 \/ (a2 = b2 /\ a3 < b3))))%Z.

Lemma flt_rank (a b : float) :
  isnan a = false -> isnan b = false ->
  flt a b = true <-> lex3 (rank a) (rank b).
Proof.
  intros Ha Hb. unfold flt, SFltb.
  destruct a as [[]|[]| |[] ma ea], b as [[]|[]| |[] mb eb];
    simpl in *; try discriminate;
    try (split; [ intros; lia | intros; try reflexivity; lia ]).
  all: rewrite Pos.compare_cont_spec; simpl.
  all: destruct (Z.compare_spec ea eb); simpl;
    try (split; [ intros; try discriminate; lia | intros; try reflexivity; lia ]).
  all: destruct (Pos.compare_spec ma mb); simpl;
    (split; [ intros; try discriminate; lia | intros; try reflexivity; lia ]).
Qed.

Lemma flt_irrefl (a : float) : flt a a = false.
Proof.
  destruct (isnan a) eqn:Ha.
  - destruct a; try discriminate. reflexivity.
  - destruct (flt a a) eqn:E; [|reflexivity].
    apply flt_rank in E; try assumption.
    unfold lex3 in E. destruct (rank a) as [[? ?] ?]. lia.
Qed.

Lemma flt_trans (a b c : float) :
  isnan a = false -> isnan b = false -> isnan c = false ->
  flt a b = true -> flt b c = true -> flt a c = true.
Proof.
  intros Ha Hb Hc Hab Hbc.
  apply flt_rank in Hab, Hbc; try assumption. apply flt_rank; try assumption.
  unfold lex3 in *.
  destruct (rank a) as [[? ?] ?], (rank b) as [[? ?] ?], (rank c) as [[? ?] ?]. lia.
Qed.

(** If [a < b] then every [c] is above [a] or below [b]. *)
Lemma flt_cotrans (a b c : float) :
  isnan a = false -> isnan b = false -> isnan c = false ->
  flt a b = true -> flt a c = true \/ flt c b = true.
Proof.
  intros Ha Hb Hc Hab.
  apply flt_rank in Hab; try assumption.
  assert (lex3 (rank a) (rank c) \/ lex3 (rank c) (rank b)) as [L|L].
  { unfold lex3 in *.
    destruct (rank a) as [[? ?] ?], (rank b) as [[? ?] ?], (rank c) as [[? ?] ?]. lia. }
  - left. apply flt_rank; assumption.
  - right. apply flt_rank; assumption.
Qed.

Lemma flt_nan_l (b : float) : flt fnan b = false.
Proof. reflexivity. Qed.

Lemma flt_nan_r (a : float) : flt a fnan = false.
Proof. destruct a as [[]|[]| |[] ? ?]; reflexivity. Qed.

Lemma isnan_any_true (X : tensor) :
  isnan_any X = true <-> exists i v, data X !! i = Some v /\ isnan v = true.
Proof.
  unfold isnan_any. rewrite existsb_exists. split.
  - intros (v & Hin & Hv). apply list_elem_of_In, list_elem_of_lookup in Hin.
    destruct Hin as [i Hi]. eauto.
  - intros (i & v & Hi & Hv). exists v. split; [|assumption].
    apply list_elem_of_In, list_elem_of_lookup. eauto.
Qed.

Lemma py_index_from_end (n k : nat) :
  0 < k -> k <= n -> py_index n (- Z.of_nat k) = Ok (n - k).
Proof.
  intros Hk Hn. unfold py_index.
  destruct (- Z.of_nat k <? 0)%Z eqn:E; [|apply Z.ltb_ge in E; lia].
  replace ((0 <=? Z.of_nat n + - Z.of_nat k)%Z) with true by (symmetry; apply Z.leb_le; lia).
  replace ((Z.of_nat n + - Z.of_nat k <? Z.of_nat n)%Z) with true by (symmetry; apply Z.ltb_lt; lia).
  simpl. f_equal. lia.
Qed.

Lemma py_index_short (n k : nat) :
  n < k -> py_index n (- Z.of_nat k) = Raise IndexError.
Proof.
  intros Hn. unfold py_index.
  destruct (- Z.of_nat k <? 0)%Z eqn:E; [|apply Z.ltb_ge in E; lia].
  replace ((0 <=? Z.of_nat n + - Z.of_nat k)%Z) with false by (symmetry; apply Z.leb_gt; lia).
  reflexivity.
Qed.

(** The size of dimension -2 of a tensor whose shape ends in [n; d]. *)
Lemma shape_at_minus2 (X : tensor) (pre : list nat) (n d : nat) :
  shape X = pre ++ [n; d] -> shape_at X (-2) = Ok n.
Proof.
  intros Hs. unfold shape_at, ndim. rewrite Hs.
  change (-2)%Z with (- Z.of_nat 2)%Z.
  rewrite py_index_from_end by (rewrite ?length_app; simpl; lia).
  simpl. rewrite length_app. simpl.
  replace (length pre + 2 - 2) with (length pre + 0) by lia.
  rewrite lookup_app_r by lia.
  replace (length pre + 0 - length pre) with 0 by lia. reflexivity.
Qed.

Lemma squeeze_minus2 (X : tensor) (pre : list nat) (n d : nat) :
  shape X = pre ++ [n; d] ->
  squeeze X (-2) = Ok (if Nat.eqb n 1 then Tensor (pre ++ [d]) (data X) else X).
Proof.
  intros Hs. unfold squeeze, ndim. rewrite Hs.
  change (-2)%Z with (- Z.of_nat 2)%Z.
  rewrite py_index_from_end by (rewrite ?length_app; simpl; lia).
  simpl. rewrite length_app. simpl.
  replace (length pre + 2 - 2) with (length pre + 0) by lia.
  rewrite lookup_app_r by lia.
  replace (length pre + 0 - length pre) with 0 by lia. simpl.
  destruct n as [|[|n]]; simpl; try reflexivity.
  f_equal. f_equal.
  replace (length pre + 0) with (length pre) by lia.
  clear. induction pre; simpl; [reflexivity| f_equal; assumption].
Qed.

End TorchFacts.

(* ===================================================================== *)
(** ** Facts about the wrapper [BotorchGP] *)
(* ===================================================================== *)

Ltac unfold_monad :=
  unfold bindM, ret, raise, lift, get, modify in *.

Module BotorchFacts.

(** Flags of a run of base-model calls that starts with fresh weights and
    then keeps them. *)
Definition frozen_flags (n : nat) : list bool :=
  match n with
  | 0 => []
  | S k => true :: repeat false k
  end.

Definition is_base (e : event) : Prop :=
  match e with EBase _ _ _ => True | _ => False end.

(** Events that neither call the base model nor resample. *)
Definition quiet (e : event) : Prop :=
  match e with EBase _ _ _ | EResample => False | _ => True end.

Section Wrapper.
Context {B MVN : Type} `{BaseModel B MVN}.

Lemma call_base_calls (X : tensor) (m : string) (f : bool) (gp : BotorchGP B) :
  calls (snd (call_base X m f gp)) = calls gp ++ [EBase X m f]
  /\ _resample_weights (snd (call_base X m f gp)) = _resample_weights gp
  /\ posterior_sample_method (snd (call_base X m f gp)) = posterior_sample_method gp
  /\ training (snd (call_base X m f gp)) = training gp.
Proof.
  unfold call_base. simpl.
  destruct (base_call X m f (base_model gp)) as [r b']. simpl. auto.
Qed.

(** A tensor with fewer than two dimensions has no dimension -2: the
    subscript raises and the base model is not called. *)
Lemma forward_short (X : tensor) (m : string) (f : bool) (gp : BotorchGP B) :
  ndim X < 2 -> forward X m f gp = (Raise IndexError, gp).
Proof.
  intros Hn. unfold forward, shape_at. unfold_monad.
  change (-2)%Z with (- Z.of_nat 2)%Z.
  rewrite TorchFacts.py_index_short by assumption. reflexivity.
Qed.

(** What [forward] does in general: it raises without a call, or it makes
    exactly one call of the base model with the flag it was given. *)
Lemma forward_events (X : tensor) (m : string) (f : bool) (gp : BotorchGP B) :
  (is_ok (fst (forward X m f gp)) = false /\ snd (forward X m f gp) = gp)
  \/ (exists X', forward X m f gp = call_base X' m f gp).
Proof.
  unfold forward. unfold_monad.
  destruct (shape_at X (-2)) as [d|e]; [|left; auto].
  destruct (Nat.eqb d 1).
  - destruct (squeeze X (-2)) as [X'|e]; [right; eauto | left; auto].
  - right. eauto.
Qed.

(** The tensor [forward] hands to the base model. *)
Definition base_input (X : tensor) : res tensor :=
  res_bind (shape_at X (-2)) (fun d => if Nat.eqb d 1 then squeeze X (-2) else Ok X).

Lemma forward_base_input (X : tensor) (m : string) (f : bool) (gp : BotorchGP B) :
  forward X m f gp
  = match base_input X with
    | Ok X' => call_base X' m f gp
    | Raise e => (Raise e, gp)
    end.
Proof.
  unfold forward, base_input. unfold_monad.
  destruct (shape_at X (-2)) as [d|e]; simpl; [|reflexivity].
  destruct (Nat.eqb d 1); [|reflexivity].
  destruct (squeeze X (-2)); reflexivity.
Qed.

(** Lines 35-41 of [posterior], which run when [forward] has returned and
    the flag is cleared: the likelihood, the constructor of the posterior
    and the transform, each of which may raise. *)
Definition finish_posterior (noise : bool) (tr : transform MVN) (m : MVN)
  : res (GPyTorchPosterior MVN) :=
  res_bind (if noise then likelihood_call m else Ok m) (fun m' =>
  res_bind (GPyTorchPosterior_init m') (fun _ =>
  match tr with
  | Some t => t (MkPosterior m')
  | None => Ok (MkPosterior m')
  end)).

Lemma posterior_unfold (X : tensor) (noise : bool) (tr : transform MVN) (gp : BotorchGP B) :
  posterior X noise tr gp
  = match base_input X with
    | Raise e => (Raise e, set_mode false gp)
    | Ok X' =>
        match call_base X' (posterior_sample_method gp) (_resample_weights gp)
                        (set_mode false gp) with
        | (Raise e, gp2) => (Raise e, gp2)
        | (Ok m, gp2) =>
            match finish_posterior noise tr m with
            | Raise e => (Raise e, set_flag false gp2)
            | Ok p =>
                (Ok p,
                 if training gp then set_mode true (set_flag false gp2) else set_flag false gp2)
            end
        end
    end.
Proof.
  unfold posterior, finish_posterior. unfold_monad. rewrite forward_base_input. simpl.
  destruct (base_input X) as [X'|e]; [|reflexivity].
  destruct (call_base X' (posterior_sample_method gp) (_resample_weights gp) (set_mode false gp))
    as [[m|e] gp2]; [|reflexivity].
  destruct noise.
  - destruct (likelihood_call m) as [m'|e]; simpl; [|reflexivity].
    destruct (GPyTorchPosterior_init m') as [[]|e]; simpl; [|reflexivity].
    destruct tr as [t|]; [destruct (t (MkPosterior m')) as [p|e]; simpl|simpl];
      try reflexivity; destruct (training gp); reflexivity.
  - simpl. destruct (GPyTorchPosterior_init m) as [[]|e]; simpl; [|reflexivity].
    destruct tr as [t|]; [destruct (t (MkPosterior m)) as [p|e]; simpl|simpl];
      try reflexivity; destruct (training gp); reflexivity.
Qed.

(** One evaluation of [posterior]: either nothing reached the base model
    and the flag is as before, or the base model was called once with the
    current flag; the flag is then cleared or as before, and it is cleared
    when the evaluation returned. *)
Lemma posterior_events (X : tensor) (noise : bool) (tr : transform MVN) (gp : BotorchGP B) :
  let r := fst (posterior X noise tr gp) in
  let gp' := snd (posterior X noise tr gp) in
  posterior_sample_method gp' = posterior_sample_method gp /\
  ((is_ok r = false /\ calls gp' = calls gp /\ _resample_weights gp' = _resample_weights gp)
   \/ (exists X',
         calls gp' = calls gp ++ [EBase X' (posterior_sample_method gp) (_resample_weights gp)]
         /\ (_resample_weights gp' = false \/ _resample_weights gp' = _resample_weights gp)
         /\ (is_ok r = true -> _resample_weights gp' = false))).
Proof.
  cbv zeta. rewrite posterior_unfold.
  destruct (base_input X) as [X'|e]; [|simpl; split; [reflexivity|left; auto]].
  pose proof (call_base_calls X' (posterior_sample_method gp) (_resample_weights gp)
                (set_mode false gp)) as (Hc & Hf & Hm & Ht).
  destruct (call_base X' (posterior_sample_method gp) (_resample_weights gp) (set_mode false gp))
    as [[m|e] gp2]; simpl in *.
  - destruct (finish_posterior noise tr m) as [p|e]; simpl.
    + destruct (training gp); simpl; (split; [assumption|]); right; exists X'; auto.
    + split; [assumption|]. right. exists X'. auto.
  - split; [assumption|]. right. exists X'. split; [assumption|]. split; [auto|discriminate].
Qed.

(** A client of the wrapper that reaches the model through [posterior]
    only: each of its steps satisfies what [posterior_events] states. *)
Definition posterior_client (acq : tensor -> M (BotorchGP B) tensor) : Prop :=
  forall (X : tensor) (gp : BotorchGP B),
    let r := fst (acq X gp) in
    let gp' := snd (acq X gp) in
    (is_ok r = false /\ calls gp' = calls gp /\ _resample_weights gp' = _resample_weights gp)
    \/ (exists X' m,
          calls gp' = calls gp ++ [EBase X' m (_resample_weights gp)]
          /\ (is_ok r = true -> _resample_weights gp' = false)).

Lemma scored_posterior_client (noise : bool) (tr : transform MVN)
    (score : GPyTorchPosterior MVN -> tensor) :
  posterior_client (fun X => p <~ posterior X noise tr ;; ret (score p)).
Proof.
  intros X gp. simpl.
  pose proof (posterior_events X noise tr gp) as [_ Hp]. simpl in Hp.
  unfold_monad.
  destruct (posterior X noise tr gp) as [[p|e] gp1]; simpl in *.
  - destruct Hp as [[Hr _]|(X' & Hc & _ & Hf)]; [discriminate|]. right. eauto.
  - destruct Hp as [Hp|(X' & Hc & _ & Hf)]; [left; assumption|]. right. eauto.
Qed.

(** A client that goes on after an exception: the evaluations it makes,
    one after the other, whatever each of them returns or raises. *)
Fixpoint evaluate_each (es : list (tensor * bool * transform MVN)) (gp : BotorchGP B)
  : BotorchGP B :=
  match es with
  | [] => gp
  | (X, noise, tr) :: es' => evaluate_each es' (snd (posterior X noise tr gp))
  end.

(** The flag of one evaluation: [forward] is called with the flag the
    object holds; when [forward] returns the flag is cleared, whatever the
    rest of the evaluation does, and when [forward] raises the evaluation
    raises and the flag stays as it was. *)
Lemma posterior_flag (X : tensor) (noise : bool) (tr : transform MVN) (gp : BotorchGP B) :
  let fw := forward X (posterior_sample_method gp) (_resample_weights gp) (set_mode false gp) in
  let gp' := snd (posterior X noise tr gp) in
  calls gp' = calls (snd fw)
  /\ (is_ok (fst fw) = true -> _resample_weights gp' = false)
  /\ (is_ok (fst fw) = false ->
      is_ok (fst (posterior X noise tr gp)) = false
      /\ _resample_weights gp' = _resample_weights gp).
Proof.
  cbv zeta. rewrite posterior_unfold, forward_base_input.
  destruct (base_input X) as [X'|e].
  2:{ simpl. split; [reflexivity|]. split; [discriminate|]. intros _. split; reflexivity. }
  pose proof (call_base_calls X' (posterior_sample_method gp) (_resample_weights gp)
                (set_mode false gp)) as (Hc & Hf & Hm & Ht).
  destruct (call_base X' (posterior_sample_method gp) (_resample_weights gp) (set_mode false gp))
    as [[m|e] gp2]; simpl in *.
  - destruct (finish_posterior noise tr m) as [p|e]; simpl.
    + destruct (training gp); simpl; (split; [reflexivity|]);
        (split; [reflexivity|discriminate]).
    + split; [reflexivity|]. split; [reflexivity|discriminate].
  - split; [reflexivity|]. split; [discriminate|]. intros _. split; [reflexivity|exact Hf].
Qed.

(** Evaluations made one after the other pass the flag [True] until the
    [forward] call of one of them has returned and [False] from then on:
    among the calls that reach the base model no [True] follows a
    [False], there is no [True] at all when the flag was cleared at the
    start, and no [False] when it is still set at the end. *)
Lemma evaluate_each_flags (es : list (tensor * bool * transform MVN)) (gp : BotorchGP B) :
  exists bases n k,
    calls (evaluate_each es gp) = calls gp ++ bases
    /\ Forall is_base bases
    /\ base_flags bases = repeat true n ++ repeat false k
    /\ (_resample_weights gp = false -> n = 0)
    /\ (_resample_weights (evaluate_each es gp) = true
        -> k = 0 /\ _resample_weights gp = true).
Proof.
  revert gp. induction es as [|[[X noise] tr] es IH]; intros gp; simpl.
  - exists [], 0, 0. rewrite app_nil_r. repeat split; auto.
  - pose proof (posterior_events X noise tr gp) as [_ Hp]. cbv zeta in Hp.
    destruct (IH (snd (posterior X noise tr gp))) as (bases & n & k & Hc & Hall & Hfl & Hn & Hk).
    destruct Hp as [(_ & Hc1 & Hf1)|(X' & Hc1 & Hf1 & _)].
    + exists bases, n, k. rewrite Hc, Hc1. rewrite Hf1 in Hn, Hk. auto.
    + destruct (_resample_weights gp) eqn:Ef.
      * exists (EBase X' (posterior_sample_method gp) true :: bases), (S n), k.
        rewrite Hc, Hc1, <- app_assoc.
        split; [reflexivity|]. split; [constructor; [exact I|assumption]|].
        split; [simpl; f_equal; exact Hfl|]. split; [discriminate|].
        intros He. split; [apply Hk; exact He|reflexivity].
      * assert (Hf2 : _resample_weights (snd (posterior X noise tr gp)) = false)
          by (destruct Hf1; assumption).
        exists (EBase X' (posterior_sample_method gp) false :: bases), 0, (S k).
        rewrite Hc, Hc1, <- app_assoc.
        split; [reflexivity|]. split; [constructor; [exact I|assumption]|].
        split; [simpl; f_equal; rewrite Hfl, (Hn Hf2); reflexivity|]. split; [reflexivity|].
        intros He. destruct (Hk He) as [_ Hbad]. rewrite Hf2 in Hbad. discriminate.
Qed.

(** "after resample_weights() is called, the first subsequent posterior()
    evaluation invokes the base model with resample_weights=True and every
    later posterior() evaluation invokes it with resample_weights=False":
    the claim as the specification words it, read of the calls that reach
    the base model, whatever the evaluations are. *)
Definition later_evaluations_keep_weights : Prop :=
  forall (es : list (tensor * bool * transform MVN)) (gp : BotorchGP B),
    exists bases,
      calls (evaluate_each es (snd (resample_weights gp))) = calls gp ++ EResample :: bases
      /\ base_flags bases = frozen_flags (length bases).

(** Whatever strategy drives the client, the calls that reach the base
    model carry the current flag first and a cleared flag afterwards. *)
Lemma run_query_flags (acq : tensor -> M (BotorchGP B) tensor) {R : Type} (m : query R) :
  posterior_client acq ->
  forall gp : BotorchGP B,
  exists bases,
    calls (snd (run_query acq m gp)) = calls gp ++ bases
    /\ Forall is_base bases
    /\ base_flags bases =
         if _resample_weights gp then frozen_flags (length bases)
         else repeat false (length bases).
Proof.
  intros Hacq. induction m as [r|e|X k IH]; intros gp; simpl.
  - exists []. rewrite app_nil_r. repeat split; [constructor|]. destruct (_resample_weights gp); reflexivity.
  - exists []. rewrite app_nil_r. repeat split; [constructor|]. destruct (_resample_weights gp); reflexivity.
  - unfold bindM. specialize (Hacq X gp). simpl in Hacq.
    destruct (acq X gp) as [[v|e] gp1]; simpl in *.
    + destruct Hacq as [[Hr _]|(X' & mth & Hc & Hf)]; [discriminate|].
      specialize (Hf eq_refl).
      destruct (IH v gp1) as (bases & Hb & Hall & Hflags).
      rewrite Hf in Hflags.
      exists (EBase X' mth (_resample_weights gp) :: bases).
      split; [rewrite Hb, Hc, <- app_assoc; reflexivity|].
      split; [constructor; [exact I|assumption]|].
      change (base_flags (EBase X' mth (_resample_weights gp) :: bases))
        with (_resample_weights gp :: base_flags bases).
      rewrite Hflags. destruct (_resample_weights gp); reflexivity.
    + destruct Hacq as [(_ & Hc & _)|(X' & mth & Hc & _)].
      * exists []. rewrite app_nil_r. repeat split; [assumption|constructor|].
        destruct (_resample_weights gp); reflexivity.
      * exists [EBase X' mth (_resample_weights gp)].
        repeat split; [assumption|constructor; [exact I|constructor]|].
        change (base_flags [EBase X' mth (_resample_weights gp)])
          with [_resample_weights gp].
        destruct (_resample_weights gp); reflexivity.
Qed.

(** [resample_weights] records itself and raises the flag. *)
Lemma resample_weights_spec (gp : BotorchGP B) :
  resample_weights gp
  = (Ok tt, MkBotorchGP (base_model gp) (posterior_sample_method gp) true (training gp)
                        (calls gp ++ [EResample])).
Proof. reflexivity. Qed.

(** C9. [BotorchGP.forward] on an input whose dimension -2 has size one
    calls the base model on the input without that dimension (the same
    elements, the shape without its last-but-one entry); on an input whose
    dimension -2 has any other size it calls the base model on the input
    itself. *)
Theorem forward_squeezes_singleton (X : tensor) (pre : list nat) (n d : nat)
    (sample_hidden : string) (resample : bool) (gp : BotorchGP B) :
  shape X = pre ++ [n; d] ->
  (n = 1 ->
     forward X sample_hidden resample gp
       = call_base (Tensor (pre ++ [d]) (data X)) sample_hidden resample gp
     /\ calls (snd (forward X sample_hidden resample gp))
        = calls gp ++ [EBase (Tensor (pre ++ [d]) (data X)) sample_hidden resample])
  /\ (n <> 1 ->
        forward X sample_hidden resample gp = call_base X sample_hidden resample gp
        /\ calls (snd (forward X sample_hidden resample gp))
           = calls gp ++ [EBase X sample_hidden resample]).
Proof.
  intros Hs.
  assert (Hf : forward X sample_hidden resample gp
               = call_base (if Nat.eqb n 1 then Tensor (pre ++ [d]) (data X) else X)
                           sample_hidden resample gp).
  { unfold forward. unfold_monad.
    rewrite (TorchFacts.shape_at_minus2 X pre n d Hs).
    destruct (Nat.eqb n 1) eqn:E; [|reflexivity].
    rewrite (TorchFacts.squeeze_minus2 X pre n d Hs), E. reflexivity. }
  split; intros Hn.
  - subst n. simpl in Hf. rewrite Hf. split; [reflexivity|]. apply call_base_calls.
  - apply Nat.eqb_neq in Hn. rewrite Hn in Hf. rewrite Hf.
    split; [reflexivity|]. apply call_base_calls.
Qed.

End Wrapper.

End BotorchFacts.

(* ===================================================================== *)
(** ** Facts about the resolvers and the acquisition optimiser *)
(* ===================================================================== *)

Module BoFacts.

Lemma acqf_class_from_name_ok (name : string) (c : acqf_class) :
  acqf_class_from_name name = Ok c <->
  (name = "log_expected_improvement" /\ c = LogExpectedImprovement)
  \/ (name = "expected_improvement" /\ c = ExpectedImprovement).
Proof.
  unfold acqf_class_from_name.
  destruct (String.eqb_spec name "log_expected_improvement") as [->|N1].
  - split; [intros [= <-]; auto | intros [[_ ->]|[E _]]; [reflexivity|discriminate]].
  - destruct (String.eqb_spec name "expected_improvement") as [->|N2].
    + split; [intros [= <-]; auto | intros [[E _]|[_ ->]]; [discriminate|reflexivity]].
    + split; [discriminate | intros [[E _]|[E _]]; contradiction].
Qed.

Lemma acqf_class_from_name_unknown (name : string) :
  name <> "log_expected_improvement" -> name <> "expected_improvement" ->
  acqf_class_from_name name = Raise (ValueError ("Unknown acquisition function " +:+ name)).
Proof.
  intros N1 N2. unfold acqf_class_from_name.
  destruct (String.eqb_spec name "log_expected_improvement"); [contradiction|].
  destruct (String.eqb_spec name "expected_improvement"); [contradiction|]. reflexivity.
Qed.

Lemma manifold_class_from_name_spec (name : string) :
  (name = "sphere" /\ manifold_class_from_name name = Ok Sphere)
  \/ (name <> "sphere"
      /\ manifold_class_from_name name = Raise (ValueError ("Unknown manifold " +:+ name))).
Proof.
  unfold manifold_class_from_name.
  destruct (String.eqb_spec name "sphere"); [left|right]; auto.
Qed.

Lemma optimizer_class_from_name_spec (name : string) :
  (name = "steepest_descent" /\ optimizer_class_from_name name = Ok SteepestDescent)
  \/ (name <> "steepest_descent"
      /\ optimizer_class_from_name name = Raise (ValueError ("Unknown optimizer " +:+ name))).
Proof.
  unfold optimizer_class_from_name.
  destruct (String.eqb_spec name "steepest_descent"); [left|right]; auto.
Qed.

Section Optimise.
Context {HO : Optim} {St : Type}.

Lemma run_query_qbind {R R' : Type} (acq : tensor -> M St tensor)
    (m : query R) (f : R -> query R') (s : St) :
  run_query acq (qbind m f) s
  = match run_query acq m s with
    | (Ok a, s') => run_query acq (f a) s'
    | (Raise e, s') => (Raise e, s')
    end.
Proof.
  revert s. induction m as [r|e|X k IH]; intros s; simpl; try reflexivity.
  unfold bindM. destruct (acq X s) as [[v|e] s']; [apply IH|reflexivity].
Qed.

Lemma evaluations_qbind {R R' : Type} (acq : tensor -> M St tensor)
    (m : query R) (f : R -> query R') (s : St) :
  evaluations acq (qbind m f) s
  = evaluations acq m s
    + match run_query acq m s with
      | (Ok a, s') => evaluations acq (f a) s'
      | (Raise _, _) => 0
      end.
Proof.
  revert s. induction m as [r|e|X k IH]; intros s; simpl; try reflexivity.
  unfold bindM. destruct (acq X s) as [[v|e] s']; [rewrite IH|]; reflexivity.
Qed.

(** An unknown manifold name surfaces when the optimiser is called, before
    it does anything else. *)
Lemma optimize_acqf_manifold_unknown_manifold (acq : tensor -> M St tensor)
    (bo_args : BOArguments) (e : exn) (s : St) :
  manifold_class_from_name (manifold_name bo_args) = Raise e ->
  optimize_acqf_manifold acq bo_args s = (Raise e, s).
Proof.
  intros Hm. unfold optimize_acqf_manifold, optimize_acqf_manifold_query,
    initial_conditions_stage, manifold. rewrite Hm. reflexivity.
Qed.

(** C4. When the initial conditions that were generated hold a NaN in any
    coordinate, [optimize_acqf_manifold] raises the assertion error in the
    state the generation left: nothing of the refinement has run and the
    acquisition function has not been evaluated again.  When no coordinate
    is NaN it goes on with the refinement from these initial conditions. *)
Theorem nan_initial_conditions_abort (acq : tensor -> M St tensor) (bo_args : BOArguments)
    (s s1 : St) (batch_initial_conditions : tensor) :
  run_query acq (initial_conditions_stage bo_args) s = (Ok batch_initial_conditions, s1) ->
  ((exists i v, data batch_initial_conditions !! i = Some v /\ isnan v = true) ->
     optimize_acqf_manifold acq bo_args s = (Raise (AssertionError nan_message), s1)
     /\ evaluations acq (optimize_acqf_manifold_query bo_args) s
        = evaluations acq (initial_conditions_stage bo_args) s)
  /\ ((forall i v, data batch_initial_conditions !! i = Some v -> isnan v = false) ->
        optimize_acqf_manifold acq bo_args s
        = run_query acq (refinement_stage bo_args batch_initial_conditions) s1).
Proof.
  intros Hgen. unfold optimize_acqf_manifold, optimize_acqf_manifold_query. split.
  - intros Hnan. apply TorchFacts.isnan_any_true in Hnan.
    rewrite run_query_qbind, evaluations_qbind, Hgen, Hnan. simpl. split; [reflexivity|lia].
  - intros Hnum.
    assert (Hf : isnan_any batch_initial_conditions = false).
    { destruct (isnan_any batch_initial_conditions) eqn:E; [|reflexivity].
      apply TorchFacts.isnan_any_true in E as (i & v & Hi & Hv).
      rewrite (Hnum i v Hi) in Hv. discriminate. }
    rewrite run_query_qbind, Hgen, Hf. reflexivity.
Qed.

End Optimise.

End BoFacts.

(* ===================================================================== *)
(** ** Facts about model construction *)
(* ===================================================================== *)

Module ModelFacts.
Import Model.

Section Create.
Variable sphere_uniform_grid : Z -> tensor.

Lemma get_outputscale_prior_ok (m : float) :
  is_zero m = false -> exists p, get_outputscale_prior m = Ok p.
Proof.
  intros Hz. unfold get_outputscale_prior, py_div. rewrite Hz. simpl. eauto.
Qed.

(** The division [1 / outputscale_mean] comes before the names are
    looked at. *)
Lemma create_model_zero_mean (a : ModelArguments) :
  is_zero (outputscale_mean a) = true ->
  create_model sphere_uniform_grid a = Raise ZeroDivisionError.
Proof.
  intros Hz. unfold create_model, get_outputscale_prior, py_div. rewrite Hz. reflexivity.
Qed.

Lemma create_model_names (a : ModelArguments) :
  is_zero (outputscale_mean a) = false ->
  (is_ok (create_model sphere_uniform_grid a) = true <-> In (model_name a) model_names)
  /\ (~ In (model_name a) model_names ->
      create_model sphere_uniform_grid a
      = Raise (ValueError (unknown_model_message (model_name a)))).
Proof.
  intros Hz. destruct (get_outputscale_prior_ok _ Hz) as [p Hp].
  unfold create_model. rewrite Hp. simpl. unfold model_names.
  destruct (String.eqb_spec (model_name a) "geometric_manifold") as [E1|N1].
  { simpl. split; [split; auto|]. intros N. exfalso. apply N. auto. }
  destruct (String.eqb_spec (model_name a) "euclidean_manifold") as [E2|N2].
  { simpl. split; [split; auto|]. intros N. exfalso. apply N. auto. }
  destruct (String.eqb_spec (model_name a) "euclidean") as [E3|N3].
  { simpl. split; [split; auto|]. intros N. exfalso. apply N. auto. }
  simpl. split; [|reflexivity].
  split; [discriminate|]. intros [E|[E|[E|[]]]]; congruence.
Qed.

(** "constructs every model on Hypersphere(dim=2) with inducing points
    from sphere_uniform_grid(num_inducing)": the claim as the specification
    words it. *)
Definition every_model_on_hypersphere : Prop :=
  forall (a : ModelArguments) (m : DeepGP),
    create_model sphere_uniform_grid a = Ok m ->
    space_of m = Some (Hypersphere 2)
    /\ inducing_points_of m = sphere_uniform_grid (num_inducing a).

(** The space a model of each family is constructed on: the call of
    [EuclideanDeepGP] has no [space] argument. *)
Definition space_of_family (model_name : string) : option Space :=
  if String.eqb model_name "euclidean" then None else Some (Hypersphere 2).

(** C8 (as amended). [create_model] never reads the fields [space_name]
    and [space_dim]: replacing them leaves the constructed model (or the
    error) the same.  Whenever the output-scale prior can be built (the
    [outputscale_mean] is not zero) and the model name is one of the three
    names, a model is constructed, whatever the two fields hold: with the
    inducing points [sphere_uniform_grid(num_inducing)], on the space
    [Hypersphere(dim=2)] for "geometric_manifold" and "euclidean_manifold",
    and with no space at all for "euclidean".  Every model that is
    constructed is of this kind. *)
Theorem create_model_ignores_space (a : ModelArguments) (name : string) (dim : Z) :
  create_model sphere_uniform_grid (with_space name dim a) = create_model sphere_uniform_grid a
  /\ (is_zero (outputscale_mean a) = false -> In (model_name a) model_names ->
      exists m,
        create_model sphere_uniform_grid (with_space name dim a) = Ok m
        /\ inducing_points_of m = sphere_uniform_grid (num_inducing a)
        /\ space_of m = space_of_family (model_name a))
  /\ (forall m, create_model sphere_uniform_grid (with_space name dim a) = Ok m ->
        is_zero (outputscale_mean a) = false /\ In (model_name a) model_names
        /\ inducing_points_of m = sphere_uniform_grid (num_inducing a)
        /\ space_of m = space_of_family (model_name a)).
Proof.
  split; [reflexivity|].
  change (create_model sphere_uniform_grid (with_space name dim a))
    with (create_model sphere_uniform_grid a).
  unfold create_model, get_outputscale_prior, py_div, space_of_family, model_names.
  destruct (is_zero (outputscale_mean a)); simpl.
  { split; [discriminate|]. intros m Hm. discriminate Hm. }
  destruct (String.eqb_spec (model_name a) "geometric_manifold") as [E1|N1].
  { rewrite E1. simpl. split; [intros _ _; eexists; repeat split|].
    intros m [= <-]. simpl. auto. }
  destruct (String.eqb_spec (model_name a) "euclidean_manifold") as [E2|N2].
  { rewrite E2. simpl. split; [intros _ _; eexists; repeat split|].
    intros m [= <-]. simpl. auto 6. }
  destruct (String.eqb_spec (model_name a) "euclidean") as [E3|N3].
  { split; [intros _ _; eexists; repeat split|].
    intros m [= <-]. simpl. auto 6. }
  split; [|intros m Hm; discriminate Hm].
  intros _ [E|[E|[E|[]]]]; congruence.
Qed.

End Create.

End ModelFacts.

(* ===================================================================== *)
(** ** Facts about the acquisition function on a deep GP *)
(* ===================================================================== *)

Module SurrogateFacts.
Import Surrogate.

Section Repeat.
Context {W G MVN : Type} {HSa : Sampler W G MVN}.
Context {HS : Surrogate (deep_gp W G) MVN}.

(** The last event of a model object. *)
Definition last_call (gp : BotorchGP (deep_gp W G)) : option event := last (calls gp).

(** C7. An acquisition function built for a best value and evaluated at
    some points, then built again for the same best value and evaluated at
    the same points with no [resample_weights()] in between, gives the
    score of the first evaluation again: the second evaluation calls the
    base model with [resample_weights=False] and with the weights the first
    evaluation used, which it leaves in place. *)
Theorem acquisition_scores_repeat (best_f : float) (X : tensor)
    (gp gp1 : BotorchGP (deep_gp W G)) (score : tensor) :
  acq_function best_f X gp = (Ok score, gp1) ->
  exists gp2 X',
    acq_function best_f X gp1 = (Ok score, gp2)
    /\ last_call gp2 = Some (EBase X' (posterior_sample_method gp) false)
    /\ weights (base_model gp2) = weights (base_model gp1)
    /\ source (base_model gp2) = source (base_model gp1)
    /\ _resample_weights gp1 = false /\ _resample_weights gp2 = false.
Proof.
  intros Hrun.
  assert (Hlast : forall (l : list event) (e : event), last (l ++ [e]) = Some e)
    by (intros; apply last_snoc).
  unfold acq_function in *. unfold bindM, ret in *.
  rewrite BotorchFacts.posterior_unfold in Hrun. rewrite BotorchFacts.posterior_unfold.
  destruct (BotorchFacts.base_input X) as [X'|e]; [|discriminate Hrun].
  unfold call_base in *. destruct gp as [b method flag tr cs].
  simpl in Hrun. unfold deep_gp_call in Hrun.
  unfold BotorchFacts.finish_posterior in *. simpl in Hrun.
  destruct flag; simpl in Hrun.
  - destruct (draw (source b)) as [w g] eqn:Ed. simpl in Hrun.
    destruct (predict X' method false w) as [m|e] eqn:Ep; [|discriminate Hrun].
    destruct (as_posterior m) as [[]|e] eqn:Ea; simpl in Hrun; [|discriminate Hrun].
    destruct tr; simpl in Hrun; injection Hrun as <- <-; simpl;
      unfold deep_gp_call; simpl; rewrite Ep; simpl; rewrite Ea; simpl;
      do 2 eexists; (split; [reflexivity|]); unfold last_call; simpl;
      rewrite Hlast; auto.
  - destruct (predict X' method false (weights b)) as [m|e] eqn:Ep; [|discriminate Hrun].
    destruct (as_posterior m) as [[]|e] eqn:Ea; simpl in Hrun; [|discriminate Hrun].
    destruct tr; simpl in Hrun; injection Hrun as <- <-; simpl;
      unfold deep_gp_call; simpl; rewrite Ep; simpl; rewrite Ea; simpl;
      do 2 eexists; (split; [reflexivity|]); unfold last_call; simpl;
      rewrite Hlast; auto.
Qed.

End Repeat.

End SurrogateFacts.

(* ===================================================================== *)
(** ** Facts about the optimisation loop *)
(* ===================================================================== *)

Module RunFacts.
Import BotorchFacts.

(** The state with some events added to its trace. *)
Definition with_events (st : bo_state) (evs : list event) : bo_state :=
  MkState (bo_x st) (bo_y st) (best_x st) (best_y st) (Run.model_name st) (trace st ++ evs).

Definition with_name (st : bo_state) (name : string) : bo_state :=
  MkState (bo_x st) (bo_y st) (best_x st) (best_y st) name (trace st).

(** The events of the acquisition step of an iteration on a model of the
    given family: one resampling for the deep family, then base-model
    calls with fresh weights first and frozen weights afterwards. *)
Definition acquisition_events (name : string) (evs : list event) : Prop :=
  exists bases,
    evs = (if String.eqb name "deep" then [EResample] else []) ++ bases
    /\ Forall is_base bases
    /\ base_flags bases = frozen_flags (length bases).

(** *** The best observation *)

(** Two values that the order of the reductions does not tell apart:
    neither comes before the other.  Both are NaN, or both are numbers
    that compare equal (the two zeros do). *)
Definition same_value (a b : float) : Prop := tlt a b = false /\ tlt b a = false.

(** [(bx, by_)] is the first minimal observation: [by_] is one of the
    observed values and no observed value is below it; [bx] is the point
    at an index whose value equals [by_], and every value at an earlier
    index is strictly above it. *)
Definition first_min (xs : list point) (ys : list float) (bx : point) (by_ : float) : Prop :=
  by_ ∈ ys
  /\ (forall j v, ys !! j = Some v -> flt v by_ = false)
  /\ exists i v,
       xs !! i = Some bx /\ ys !! i = Some v /\ same_value v by_
       /\ (forall j w, j < i -> ys !! j = Some w -> flt by_ w = true).

(** The mirror image, for a maximising loop. *)
Definition first_max (xs : list point) (ys : list float) (bx : point) (by_ : float) : Prop :=
  by_ ∈ ys
  /\ (forall j v, ys !! j = Some v -> flt by_ v = false)
  /\ exists i v,
       xs !! i = Some bx /\ ys !! i = Some v /\ same_value v by_
       /\ (forall j w, j < i -> ys !! j = Some w -> flt w by_ = true).

(** The best observation "per orientation". *)
Definition first_best (maximize : bool) : list point -> list float -> point -> float -> Prop :=
  if maximize then first_max else first_min.

Definition no_nan (ys : list float) : Prop := Forall (fun v => isnan v = false) ys.

Lemma no_nan_lookup (ys : list float) (i : nat) (v : float) :
  no_nan ys -> ys !! i = Some v -> isnan v = false.
Proof. intros Hn Hi. eapply Forall_lookup_1 in Hn; eauto. Qed.

Lemma no_nan_elem (ys : list float) (v : float) :
  no_nan ys -> v ∈ ys -> isnan v = false.
Proof. intros Hn Hi. unfold no_nan in Hn. rewrite Forall_forall in Hn. auto. Qed.

Lemma tlt_flt (a b : float) : isnan a = false -> tlt a b = flt a b.
Proof. intros Ha. unfold tlt. rewrite Ha. reflexivity. Qed.

Lemma tlt_irrefl (a : float) : tlt a a = false.
Proof.
  unfold tlt. rewrite TorchFacts.flt_irrefl. destruct (isnan a); reflexivity.
Qed.

Lemma same_value_refl (a : float) : same_value a a.
Proof. split; apply tlt_irrefl. Qed.

(** A value that comes before [b] comes before everything that [b] does
    not come after. *)
Lemma tlt_below (v b w : float) :
  tlt v b = true -> tlt w b = false -> tlt w v = false.
Proof.
  unfold tlt. intros Hvb Hwb.
  destruct (isnan v) eqn:Hv.
  - destruct v; try discriminate Hv.
    rewrite TorchFacts.flt_nan_r. destruct (isnan w); reflexivity.
  - simpl in Hvb.
    assert (Hb : isnan b = false).
    { destruct b; try reflexivity. rewrite TorchFacts.flt_nan_r in Hvb. discriminate. }
    rewrite Hb in Hwb. apply orb_false_iff in Hwb as [Hw Hwb].
    assert (Hwn : isnan w = false) by (destruct (isnan w); [discriminate Hw|reflexivity]).
    rewrite Hwn. simpl.
    destruct (flt w v) eqn:E; [|reflexivity].
    rewrite <- Hwb. symmetry. apply (TorchFacts.flt_trans w v b); assumption.
Qed.

(** Values that the order does not tell apart are both NaN or both
    numbers. *)
Lemma same_value_nan (a b : float) : same_value a b -> isnan a = isnan b.
Proof.
  unfold same_value, tlt. intros [Hab Hba].
  apply orb_false_iff in Hab as [Hab _]. apply orb_false_iff in Hba as [Hba _].
  destruct (isnan a), (isnan b); simpl in *; congruence.
Qed.

(** Extending a list whose first minimum is known by one more value. *)
Lemma snoc_min (ys : list float) (i : nat) (b y : float) :
  no_nan (ys ++ [y]) ->
  ys !! i = Some b ->
  (forall j v, ys !! j = Some v -> flt v b = false) ->
  (forall j v, j < i -> ys !! j = Some v -> flt b v = true) ->
  let i' := if flt y b then length ys else i in
  let b' := if flt y b then y else b in
  (ys ++ [y]) !! i' = Some b'
  /\ (forall j v, (ys ++ [y]) !! j = Some v -> flt v b' = false)
  /\ (forall j v, j < i' -> (ys ++ [y]) !! j = Some v -> flt b' v = true).
Proof.
  intros Hnan Hy Hle Hlt.
  apply Forall_app in Hnan as [Hnan Hy1]. apply Forall_inv in Hy1.
  pose proof (no_nan_lookup _ _ _ Hnan Hy) as Hby.
  pose proof (lookup_lt_Some _ _ _ Hy) as Hi.
  destruct (flt y b) eqn:E; simpl.
  - split; [|split].
    + rewrite lookup_app_r by lia. replace (length ys - length ys) with 0 by lia. reflexivity.
    + intros j v Hj.
      destruct (decide (j < length ys)) as [Hlt'|Hge].
      * rewrite lookup_app_l in Hj by assumption.
        destruct (flt v y) eqn:Ev; [|reflexivity].
        pose proof (no_nan_lookup _ _ _ Hnan Hj) as Hv.
        rewrite <- (Hle j v Hj). symmetry.
        apply (TorchFacts.flt_trans v y b); assumption.
      * rewrite lookup_app_r in Hj by lia.
        destruct (j - length ys) as [|n] eqn:En; simpl in Hj; [|destruct n; discriminate].
        inversion Hj; subst v. apply TorchFacts.flt_irrefl.
    + intros j v Hj Hv. rewrite lookup_app_l in Hv by assumption.
      pose proof (no_nan_lookup _ _ _ Hnan Hv) as Hvn.
      destruct (TorchFacts.flt_cotrans y b v Hy1 Hby Hvn E) as [L|L]; [assumption|].
      rewrite (Hle j v Hv) in L. discriminate.
  - split; [|split].
    + rewrite lookup_app_l by assumption. assumption.
    + intros j v Hj.
      destruct (decide (j < length ys)) as [Hlt'|Hge].
      * rewrite lookup_app_l in Hj by assumption. eauto.
      * rewrite lookup_app_r in Hj by lia.
        destruct (j - length ys) as [|n] eqn:En; simpl in Hj; [|destruct n; discriminate].
        inversion Hj; subst v. assumption.
    + intros j v Hj Hv. rewrite lookup_app_l in Hv by lia. eauto.
Qed.

Lemma first_min_snoc (xs : list point) (ys : list float) (bx : point) (by_ : float)
    (x : point) (y : float) :
  length xs = length ys ->
  no_nan (ys ++ [y]) ->
  first_min xs ys bx by_ ->
  first_min (xs ++ [x]) (ys ++ [y])
            (if flt y by_ then x else bx) (if flt y by_ then y else by_).
Proof.
  intros Hlen Hnan (Hin & Hle & i & v & Hx & Hy & Hsame & Hlt).
  pose proof Hnan as Hnan2.
  apply Forall_app in Hnan2 as [Hnan1 Hy1]. apply Forall_inv in Hy1.
  pose proof (no_nan_elem _ _ Hnan1 Hin) as Hby.
  pose proof (lookup_lt_Some _ _ _ Hy) as Hi.
  assert (Hnew : forall j w, (ys ++ [y]) !! j = Some w ->
                   (j < length ys /\ ys !! j = Some w) \/ (j = length ys /\ w = y)).
  { intros j w Hj. destruct (decide (j < length ys)) as [Hl|Hg].
    - rewrite lookup_app_l in Hj by assumption. auto.
    - rewrite lookup_app_r in Hj by lia.
      destruct (j - length ys) as [|n] eqn:En; simpl in Hj; [|destruct n; discriminate].
      inversion Hj. right. split; [lia|reflexivity]. }
  destruct (flt y by_) eqn:E.
  - split; [apply elem_of_app; right; apply elem_of_cons; left; reflexivity|].
    split.
    + intros j w Hj. destruct (Hnew j w Hj) as [[_ Hw]|[_ ->]]; [|apply TorchFacts.flt_irrefl].
      destruct (flt w y) eqn:Ew; [|reflexivity].
      pose proof (no_nan_lookup _ _ _ Hnan1 Hw) as Hwn.
      rewrite <- (Hle j w Hw). symmetry. apply (TorchFacts.flt_trans w y by_); assumption.
    + exists (length ys), y.
      split; [rewrite lookup_app_r, Hlen, Nat.sub_diag by lia; reflexivity|].
      split; [rewrite lookup_app_r, Nat.sub_diag by lia; reflexivity|].
      split; [apply same_value_refl|].
      intros j w Hj Hw. rewrite lookup_app_l in Hw by assumption.
      pose proof (no_nan_lookup _ _ _ Hnan1 Hw) as Hwn.
      destruct (TorchFacts.flt_cotrans y by_ w Hy1 Hby Hwn E) as [L|L]; [assumption|].
      rewrite (Hle j w Hw) in L. discriminate.
  - split; [apply elem_of_app; left; assumption|].
    split.
    + intros j w Hj. destruct (Hnew j w Hj) as [[_ Hw]|[_ ->]]; eauto.
    + exists i, v.
      split; [apply lookup_app_l_Some; assumption|].
      split; [apply lookup_app_l_Some; assumption|].
      split; [assumption|].
      intros j w Hj Hw. rewrite lookup_app_l in Hw by lia. eauto.
Qed.

(** [argmin_from] continues a scan whose first minimum so far is known. *)
Lemma argmin_from_first_min (l seen : list float) (bi : nat) (b : float) :
  no_nan (seen ++ l) ->
  seen !! bi = Some b ->
  (forall j v, seen !! j = Some v -> flt v b = false) ->
  (forall j v, j < bi -> seen !! j = Some v -> flt b v = true) ->
  (seen ++ l) !! fst (argmin_from bi b (length seen) l)
    = Some (snd (argmin_from bi b (length seen) l))
  /\ (forall j v, (seen ++ l) !! j = Some v ->
                 flt v (snd (argmin_from bi b (length seen) l)) = false)
  /\ (forall j v, j < fst (argmin_from bi b (length seen) l) ->
                 (seen ++ l) !! j = Some v ->
                 flt (snd (argmin_from bi b (length seen) l)) v = true).
Proof.
  revert seen bi b. induction l as [|v l IH]; intros seen bi b Hnan Hb Hle Hlt; simpl.
  - rewrite app_nil_r. auto.
  - assert (Hnan' : no_nan ((seen ++ [v]) ++ l)) by (rewrite <- app_assoc; exact Hnan).
    assert (Hs : no_nan (seen ++ [v])) by (apply Forall_app in Hnan'; tauto).
    assert (Hv : isnan v = false).
    { apply Forall_app in Hs as [_ Hs]. apply Forall_inv in Hs. exact Hs. }
    rewrite (tlt_flt v b Hv).
    destruct (snoc_min seen bi b v Hs Hb Hle Hlt) as (H1 & H2 & H3).
    replace (S (length seen)) with (length (seen ++ [v])) by (rewrite length_app; simpl; lia).
    replace (seen ++ v :: l) with ((seen ++ [v]) ++ l) by (rewrite <- app_assoc; reflexivity).
    destruct (flt v b); apply IH; assumption.
Qed.

(** *** The surrogate family of each iteration *)

(** The families the loop asked for, with the iteration that asked. *)
Definition created (evs : list event) : list (nat * string) :=
  omap (fun e => match e with ECreate i n => Some (i, n) | _ => None end) evs.

(** A schedule that switches at iteration [k]: the first family before
    [k], the second from [k] on. *)
Definition family_at (k : Z) (i : nat) : string :=
  if (Z.of_nat i <? k)%Z then "exact" else "deep".

Lemma created_app (a b : list event) : created (a ++ b) = created a ++ created b.
Proof. apply omap_app. Qed.

Lemma created_bases (bases : list event) : Forall is_base bases -> created bases = [].
Proof.
  induction 1 as [|e l He _ IH]; [reflexivity|].
  destruct e; try contradiction. exact IH.
Qed.

Lemma created_acquisition (name : string) (evs : list event) :
  acquisition_events name evs -> created evs = [].
Proof.
  intros (bases & -> & Hall & _). rewrite created_app, (created_bases bases Hall).
  destruct (String.eqb name "deep"); reflexivity.
Qed.

Lemma switch_model_deep (k : Z) (i : nat) (current : string) :
  switch_model (Some k) "deep" (Z.of_nat i) current = family_at k i.
Proof. reflexivity. Qed.

(** *** The events of an iteration *)

Lemma trace_with_events (st : bo_state) (evs : list event) :
  trace (with_events st evs) = trace st ++ evs.
Proof. reflexivity. Qed.

Lemma trace_with_name (st : bo_state) (name : string) :
  trace (with_name st name) = trace st.
Proof. reflexivity. Qed.

Lemma trace_append_observation (x : point) (y : float) (st : bo_state) :
  trace (append_observation x y st) = trace st.
Proof. unfold append_observation. destruct (flt y (best_y st)); reflexivity. Qed.

Section Loop.
Context {B MVN : Type} {HB : BaseModel B MVN} {HS : Surrogate B MVN} {HO : Optim}.
Context {HR : Reductions}.

Lemma acq_function_client (best_f : float) : posterior_client (acq_function best_f).
Proof. unfold acq_function. apply scored_posterior_client. Qed.

Lemma acquire_spec (name : string) (best_f : float) (bo_args : BOArguments)
    (base : B) (st : bo_state) :
  exists evs,
    acquisition_events name evs
    /\ snd (acquire name best_f bo_args base st) = with_events st evs.
Proof.
  unfold acquire, acquisition_events, optimize_acqf_manifold.
  destruct (String.eqb name "deep").
  - unfold bindM at 1. rewrite resample_weights_spec.
    set (gp0 := MkBotorchGP _ _ _ _ _).
    destruct (run_query_flags (acq_function best_f) (optimize_acqf_manifold_query bo_args)
                (acq_function_client best_f) gp0) as (bases & Hc & Hall & Hfl).
    destruct (run_query (acq_function best_f) (optimize_acqf_manifold_query bo_args) gp0)
      as [r gp] eqn:E. simpl in *.
    exists ([EResample] ++ bases). split; [exists bases; auto|].
    unfold with_events. rewrite Hc. reflexivity.
  - unfold bindM at 1. unfold ret at 1.
    set (gp0 := init base sample_method).
    destruct (run_query_flags (acq_function best_f) (optimize_acqf_manifold_query bo_args)
                (acq_function_client best_f) gp0) as (bases & Hc & Hall & Hfl).
    destruct (run_query (acq_function best_f) (optimize_acqf_manifold_query bo_args) gp0)
      as [r gp] eqn:E. simpl in *.
    exists ([] ++ bases). split; [exists bases; auto|].
    unfold with_events. rewrite Hc. reflexivity.
Qed.

Lemma fit_model_spec (name : string) (fit_args : FitArguments) (iteration : nat)
    (optimizer : optimizer_t) (mll : mll_t) (xs : list point) (ys : list float)
    (base : B) (st : bo_state) :
  exists fits,
    (fits = [] \/ exists n, fits = [EFit name n])
    /\ snd (fit_model name fit_args iteration optimizer mll xs ys base st)
       = with_events st fits.
Proof.
  unfold fit_model, emit. unfold_monad. destruct st as [x y bx by_ nm tr].
  destruct (String.eqb name "exact").
  - exists [EFit name None]. split; [right; eauto|].
    simpl. destruct (fit_gpytorch_mll mll base); reflexivity.
  - destruct (String.eqb name "deep").
    + destruct (deep_num_steps fit_args iteration) as [n|e]; simpl.
      * exists [EFit name (Some n)]. split; [right; eauto|].
        destruct (fit optimizer mll xs ys fit_args n base); reflexivity.
      * exists []. split; [left; reflexivity|]. unfold with_events. simpl.
        rewrite app_nil_r. reflexivity.
    + exists []. split; [left; reflexivity|]. unfold with_events. simpl.
      rewrite app_nil_r. reflexivity.
Qed.

(** One iteration: the family it asks for, the events it adds, and what
    it does to the observations. *)
Lemma bo_iteration_spec (target_function : point -> res float) (bo_args : BOArguments)
    (sched : Schedule) (fit_args : FitArguments) (start : string)
    (iteration : nat) (st : bo_state) :
  let name := switch_model (switch_to_deep_iter sched) start (Z.of_nat iteration)
                           (Run.model_name st) in
  let r := fst (bo_iteration target_function bo_args sched fit_args start iteration st) in
  let st' := snd (bo_iteration target_function bo_args sched fit_args start iteration st) in
  exists fits acq_evs,
    (fits = [] \/ exists n, fits = [EFit name n])
    /\ (acq_evs = [] \/ acquisition_events name acq_evs)
    /\ ((is_ok r = false
         /\ st' = with_events (with_name st name) (ECreate iteration name :: fits ++ acq_evs))
        \/ (exists new_x new_y,
              r = Ok tt /\ target_function new_x = Ok new_y
              /\ acquisition_events name acq_evs
              /\ let s1 := append_observation new_x new_y (with_name st name) in
                 st' = with_events s1
                         (ECreate iteration name :: fits ++ acq_evs
                            ++ [EObserve new_x new_y; ELog (best_x s1) (best_y s1)]))).
Proof.
  intros name. cbv zeta.
  destruct (bo_iteration target_function bo_args sched fit_args start iteration st)
    as [r st'] eqn:E.
  simpl. unfold bo_iteration in E.
  unfold bindM at 1 in E. unfold get at 1 in E.
  unfold bindM at 1 in E. unfold set_model_name at 1 in E. unfold modify at 1 in E.
  unfold bindM at 1 in E. unfold emit at 1 in E. unfold modify at 1 in E.
  simpl in E. fold name in E. clearbody name.
  change (MkState (bo_x st) (bo_y st) (best_x st) (best_y st) name
                  (trace st ++ [ECreate iteration name]))
    with (with_events (with_name st name) [ECreate iteration name]) in E.
  set (st1 := with_events (with_name st name) [ECreate iteration name]) in E.
  unfold bindM at 1 in E. unfold lift at 1 in E.
  destruct (create_base name (bo_x st) (bo_y st) _) as [base|e].
  2:{ inversion E; subst r st'. exists [], []. split; [auto|]. split; [auto|].
      left. split; [reflexivity|]. reflexivity. }
  unfold bindM at 1 in E. unfold lift at 1 in E.
  destruct (optimizer_factory base (lr fit_args)) as [optimizer|e].
  2:{ inversion E; subst r st'. exists [], []. split; [auto|]. split; [auto|].
      left. split; [reflexivity|]. reflexivity. }
  unfold bindM at 1 in E. unfold lift at 1 in E.
  destruct (mll_factory base (bo_y st)) as [mll|e].
  2:{ inversion E; subst r st'. exists [], []. split; [auto|]. split; [auto|].
      left. split; [reflexivity|]. reflexivity. }
  unfold bindM at 1 in E.
  destruct (fit_model_spec name fit_args iteration optimizer mll (bo_x st) (bo_y st) base st1)
    as (fits & Hfits & Hst2).
  destruct (fit_model name fit_args iteration optimizer mll (bo_x st) (bo_y st) base st1)
    as [[base'|e] st2]; simpl in Hst2; subst st2.
  2:{ inversion E; subst r st'. exists fits, []. split; [assumption|]. split; [auto|].
      left. split; [reflexivity|].
      subst st1. unfold with_events, with_name. simpl.
      rewrite app_nil_r, <- app_assoc. reflexivity. }
  unfold bindM at 1 in E.
  destruct (acquire_spec name (best_y st) bo_args base' (with_events st1 fits))
    as (acq_evs & Hacq & Hst3).
  destruct (acquire name (best_y st) bo_args base' (with_events st1 fits))
    as [[cand|e] st3]; simpl in Hst3; subst st3.
  2:{ inversion E; subst r st'. exists fits, acq_evs. split; [assumption|]. split; [auto|].
      left. split; [reflexivity|].
      subst st1. unfold with_events, with_name. simpl.
      rewrite <- !app_assoc. reflexivity. }
  unfold bindM at 1 in E. unfold lift at 1 in E.
  destruct (target_function (data (fst cand))) as [new_y|e] eqn:Ht.
  2:{ inversion E; subst r st'. exists fits, acq_evs. split; [assumption|]. split; [auto|].
      left. split; [reflexivity|].
      subst st1. unfold with_events, with_name. simpl.
      rewrite <- !app_assoc. reflexivity. }
  unfold emit in E. unfold_monad. simpl in E. inversion E; subst r st'. clear E.
  exists fits, acq_evs. split; [assumption|]. split; [auto|]. right.
  exists (data (fst cand)), new_y. split; [reflexivity|]. split; [assumption|].
  split; [assumption|].
  subst st1. unfold with_events, with_name, append_observation. simpl.
  destruct (flt new_y (best_y st)); simpl; rewrite <- !app_assoc; reflexivity.
Qed.

(** *** The loop as a whole *)

Lemma for_each_invariant (P : bo_state -> Prop) (body : nat -> M bo_state unit) :
  (forall i st, P st -> P (snd (body i st))) ->
  forall its st, P st -> P (snd (for_each its body st)).
Proof.
  intros Hstep. induction its as [|i its IH]; intros st HP; simpl; [assumption|].
  unfold bindM. specialize (Hstep i st HP).
  destruct (body i st) as [[[]|e] st1]; simpl in *; [apply IH|]; assumption.
Qed.

Lemma observe_all_spec (target_function : point -> res float) (x : list point) (y : list float) :
  observe_all target_function x = Ok y ->
  Forall2 (fun p v => target_function p = Ok v) x y.
Proof.
  revert y. induction x as [|p x IH]; intros y; simpl.
  - intros [= <-]. constructor.
  - destruct (target_function p) as [v|e] eqn:Hp; simpl; [|discriminate].
    destruct (observe_all target_function x) as [vs|e]; simpl; [|discriminate].
    intros [= <-]. constructor; [assumption|]. apply IH. reflexivity.
Qed.

(** What the loop keeps true of its observations. *)
Definition observations_ok (target_function : point -> res float) (st : bo_state) : Prop :=
  Forall2 (fun p v => target_function p = Ok v) (bo_x st) (bo_y st)
  /\ (no_nan (bo_y st) -> first_min (bo_x st) (bo_y st) (best_x st) (best_y st)).

Lemma run_bo_init_spec (initial_data : list point) (target_function : point -> res float)
    (name : string) (st0 : bo_state) :
  run_bo_init initial_data target_function name = Ok st0 ->
  bo_x st0 = initial_data /\ Run.model_name st0 = name /\ trace st0 = []
  /\ observations_ok target_function st0.
Proof.
  unfold run_bo_init.
  destruct (observe_all target_function initial_data) as [y|e] eqn:Hy; simpl; [|discriminate].
  apply observe_all_spec in Hy.
  destruct y as [|v y]; simpl; [discriminate|].
  destruct (row initial_data (fst (argmin_from 0 v 1 y))) as [bx|e] eqn:Hrow; simpl; [|discriminate].
  destruct (tmin_least v y) as (m & Hm & Hin & Hleast). rewrite Hm. simpl.
  intros [= <-]. simpl.
  split; [reflexivity|]. split; [reflexivity|]. split; [reflexivity|].
  split; [exact Hy|]. simpl. intros Hnan.
  pose proof (argmin_from_first_min y [v] 0 v) as Hmin. simpl in Hmin.
  destruct Hmin as (M1 & M2 & M3); try assumption.
  { reflexivity. }
  { intros [|[|j]] w Hj; simpl in Hj; try discriminate. inversion Hj; subst w.
    apply TorchFacts.flt_irrefl. }
  { intros j w Hj. lia. }
  set (i := fst (argmin_from 0 v 1 y)) in *.
  set (a := snd (argmin_from 0 v 1 y)) in *.
  pose proof (no_nan_elem _ _ Hnan Hin) as Hmn.
  pose proof (no_nan_lookup _ _ _ Hnan M1) as Han.
  assert (Ham : flt a m = false).
  { rewrite <- (tlt_flt a m Han).
    rewrite Forall_forall in Hleast. apply Hleast.
    apply list_elem_of_lookup. exists i. exact M1. }
  assert (Hma : flt m a = false).
  { apply list_elem_of_lookup in Hin as [j Hj]. exact (M2 j m Hj). }
  split; [exact Hin|]. split.
  - intros j w Hj. rewrite <- (tlt_flt w m (no_nan_lookup _ _ _ Hnan Hj)).
    rewrite Forall_forall in Hleast. apply Hleast.
    apply list_elem_of_lookup. exists j. exact Hj.
  - exists i, a. split.
    { unfold row in Hrow. destruct (initial_data !! i); [congruence|discriminate]. }
    split; [exact M1|]. split.
    { split; [rewrite (tlt_flt a m Han)|rewrite (tlt_flt m a Hmn)]; assumption. }
    intros j w Hj Hw.
    pose proof (no_nan_lookup _ _ _ Hnan Hw) as Hwn.
    destruct (TorchFacts.flt_cotrans a w m Han Hwn Hmn (M3 j w Hj Hw)) as [L|L];
      [rewrite Ham in L; discriminate|exact L].
Qed.

Lemma bo_iteration_observations (target_function : point -> res float) (bo_args : BOArguments)
    (sched : Schedule) (fit_args : FitArguments) (start : string)
    (iteration : nat) (st : bo_state) :
  observations_ok target_function st ->
  observations_ok target_function
    (snd (bo_iteration target_function bo_args sched fit_args start iteration st)).
Proof.
  intros [Hobs Hmin].
  destruct (bo_iteration_spec target_function bo_args sched fit_args start iteration st)
    as (fits & acq_evs & _ & _ & [[_ ->]|(new_x & new_y & _ & Ht & _ & ->)]).
  - split; assumption.
  - unfold observations_ok, append_observation. simpl.
    destruct (flt new_y (best_y st)) eqn:E; simpl.
    + split; [apply Forall2_app; [assumption|repeat constructor; assumption]|].
      intros Hnan.
      pose proof (first_min_snoc (bo_x st) (bo_y st) (best_x st) (best_y st) new_x new_y) as F.
      rewrite E in F. apply F; try assumption.
      * eapply Forall2_length; eassumption.
      * apply Hmin. apply Forall_app in Hnan. tauto.
    + split; [apply Forall2_app; [assumption|repeat constructor; assumption]|].
      intros Hnan.
      pose proof (first_min_snoc (bo_x st) (bo_y st) (best_x st) (best_y st) new_x new_y) as F.
      rewrite E in F. apply F; try assumption.
      * eapply Forall2_length; eassumption.
      * apply Hmin. apply Forall_app in Hnan. tauto.
Qed.

(** The loop never reads the orientation flag of [bo_args]: after [run_bo]
    has appended its observations the tracked best value is the minimum of
    all observed values, at its earliest index, and the tracked best point
    is the point observed at that index (the values being numbers, not
    NaN). *)
Lemma run_bo_first_minimum (initial_data : list point)
    (target_function : point -> res float) (bo_args : BOArguments) (sched : Schedule)
    (start : string) (fit_args : FitArguments) (r : res unit) (st : bo_state) :
  run_bo initial_data target_function bo_args sched start fit_args = Finished r st ->
  no_nan (bo_y st) ->
  length (bo_x st) = length (bo_y st)
  /\ Forall2 (fun p v => target_function p = Ok v) (bo_x st) (bo_y st)
  /\ first_min (bo_x st) (bo_y st) (best_x st) (best_y st).
Proof.
  unfold run_bo. intros Hrun Hnan.
  destruct (run_bo_init initial_data target_function start) as [st0|e] eqn:Hinit; [|discriminate].
  apply run_bo_init_spec in Hinit as (_ & _ & _ & Hok).
  pose proof (for_each_invariant (observations_ok target_function)
                (bo_iteration target_function bo_args sched fit_args start)
                (fun i s => bo_iteration_observations target_function bo_args sched fit_args
                              start i s)
                (seq 0 (Z.to_nat (num_iter bo_args))) st0 Hok) as Hinv.
  destruct (for_each _ _ st0) as [r' st'] eqn:E. inversion Hrun; subst r' st'.
  destruct Hinv as [Hobs Hmin]. simpl in *.
  split; [eapply Forall2_length; eassumption|]. split; [assumption|]. apply Hmin, Hnan.
Qed.

Lemma bo_iteration_created (target_function : point -> res float) (bo_args : BOArguments)
    (sched : Schedule) (fit_args : FitArguments) (start : string)
    (iteration : nat) (st : bo_state) :
  created (trace (snd (bo_iteration target_function bo_args sched fit_args start iteration st)))
  = created (trace st)
      ++ [(iteration, switch_model (switch_to_deep_iter sched) start (Z.of_nat iteration)
                                   (Run.model_name st))].
Proof.
  destruct (bo_iteration_spec target_function bo_args sched fit_args start iteration st)
    as (fits & acq_evs & Hfits & Hacq & Hst).
  assert (Hf : created fits = []) by (destruct Hfits as [->|[n ->]]; reflexivity).
  assert (Ha : created acq_evs = []).
  { destruct Hacq as [->|Hacq]; [reflexivity|]. eapply created_acquisition; eassumption. }
  destruct Hst as [[_ ->]|(new_x & new_y & _ & _ & _ & ->)].
  - rewrite trace_with_events, trace_with_name.
    change (ECreate iteration ?n :: ?l) with ([ECreate iteration n] ++ l).
    rewrite !created_app, Hf, Ha. reflexivity.
  - rewrite trace_with_events, trace_append_observation, trace_with_name.
    change (ECreate iteration ?n :: ?l) with ([ECreate iteration n] ++ l).
    rewrite !created_app, Hf, Ha. reflexivity.
Qed.

Lemma for_each_created (target_function : point -> res float) (bo_args : BOArguments)
    (sched : Schedule) (fit_args : FitArguments) (k : Z) (its : list nat) (st : bo_state) :
  switch_to_deep_iter sched = Some k ->
  let run := for_each its (bo_iteration target_function bo_args sched fit_args "deep") st in
  exists n,
    n <= length its
    /\ created (trace (snd run))
       = created (trace st) ++ map (fun i => (i, family_at k i)) (take n its)
    /\ (is_ok (fst run) = true -> n = length its).
Proof.
  intros Hk. revert st. induction its as [|i its IH]; intros st; simpl.
  - exists 0. rewrite app_nil_r. auto.
  - unfold bindM.
    pose proof (bo_iteration_created target_function bo_args sched fit_args "deep" i st) as Hc.
    rewrite Hk, switch_model_deep in Hc.
    destruct (bo_iteration target_function bo_args sched fit_args "deep" i st)
      as [[[]|e] st1]; simpl in *.
    + destruct (IH st1) as (n & Hn & Hcr & Hok).
      exists (S n). split; [lia|]. split; [|intros Hr; f_equal; auto].
      rewrite Hcr, Hc, <- app_assoc. reflexivity.
    + exists 1. split; [lia|]. split; [|discriminate].
      rewrite Hc. reflexivity.
Qed.

(** C2 (as amended). When [model_args.model_name] is "deep" at the call
    and the schedule switches at iteration [k], the loop asks for the
    "exact" family at every iteration before [k] and for the "deep" family
    from [k] on, for every objective function and every initial data: the
    families are those of [family_at], one per iteration that started, and
    one per iteration of the loop when the loop returns. *)
Theorem run_bo_switches_at_schedule (initial_data : list point)
    (target_function : point -> res float) (bo_args : BOArguments) (sched : Schedule)
    (fit_args : FitArguments) (k : Z) (r : res unit) (st : bo_state) :
  switch_to_deep_iter sched = Some k ->
  run_bo initial_data target_function bo_args sched "deep" fit_args = Finished r st ->
  exists n,
    n <= Z.to_nat (num_iter bo_args)
    /\ created (trace st) = map (fun i => (i, family_at k i)) (seq 0 n)
    /\ (is_ok r = true -> n = Z.to_nat (num_iter bo_args)).
Proof.
  intros Hk. unfold run_bo.
  destruct (run_bo_init initial_data target_function "deep") as [st0|e] eqn:Hinit; [|discriminate].
  apply run_bo_init_spec in Hinit as (_ & _ & Htr & _).
  destruct (for_each_created target_function bo_args sched fit_args k
              (seq 0 (Z.to_nat (num_iter bo_args))) st0 Hk) as (n & Hn & Hcr & Hok).
  destruct (for_each _ _ st0) as [r' st'] eqn:E. intros [= <- <-].
  simpl in *. rewrite length_seq in *.
  exists n. split; [assumption|]. split; [|assumption].
  rewrite Hcr, Htr. simpl. f_equal.
  rewrite take_seq. f_equal. lia.
Qed.

(** Lines 32-61 of an iteration: the name of the family is assigned, the
    model of the iteration is created and fitted. *)
Definition fitted_model (sched : Schedule) (fit_args : FitArguments)
    (start_model_name : string) (iteration : nat) : M bo_state B :=
  st <~ get ;;
  let name := switch_model (switch_to_deep_iter sched) start_model_name
                           (Z.of_nat iteration) (Run.model_name st) in
  set_model_name name ;;;
  let inducing_points :=
    if (kmeans_inducing sched && (kmeans_inducing_num sched <? last_dim (bo_x st))%Z)%bool
    then sphere_kmeans_centers (bo_x st) (kmeans_inducing_num sched)
    else bo_x st in
  emit [ECreate iteration name] ;;;
  base <~ lift (create_base name (bo_x st) (bo_y st) inducing_points) ;;
  optimizer <~ lift (optimizer_factory base (lr fit_args)) ;;
  mll <~ lift (mll_factory base (bo_y st)) ;;
  fit_model name fit_args iteration optimizer mll (bo_x st) (bo_y st) base.

(** Lines 64-92 of an iteration, on the fitted model. *)
Definition acquire_and_observe (target_function : point -> res float) (bo_args : BOArguments)
    (name : string) (best_f : float) (base : B) : M bo_state unit :=
  cand <~ acquire name best_f bo_args base ;;
  let new_x := data (fst cand) in
  new_y <~ lift (target_function new_x) ;;
  modify (append_observation new_x new_y) ;;;
  st' <~ get ;;
  emit [EObserve new_x new_y; ELog (best_x st') (best_y st')].

(** An iteration is these two stages, one after the other. *)
Lemma bo_iteration_stages (target_function : point -> res float) (bo_args : BOArguments)
    (sched : Schedule) (fit_args : FitArguments) (start : string)
    (iteration : nat) (st : bo_state) :
  bo_iteration target_function bo_args sched fit_args start iteration st
  = match fitted_model sched fit_args start iteration st with
    | (Ok base, st1) =>
        acquire_and_observe target_function bo_args
          (switch_model (switch_to_deep_iter sched) start (Z.of_nat iteration)
                        (Run.model_name st))
          (best_y st) base st1
    | (Raise e, st1) => (Raise e, st1)
    end.
Proof.
  unfold bo_iteration, fitted_model, acquire_and_observe, emit, set_model_name.
  unfold_monad. simpl.
  destruct (create_base _ _ _ _) as [base|e]; [|reflexivity].
  destruct (optimizer_factory base (lr fit_args)) as [optimizer|e]; [|reflexivity].
  destruct (mll_factory base (bo_y st)) as [mll|e]; [|reflexivity].
  destruct (fit_model _ _ _ _ _ _ _ _ _) as [[base'|e] st2]; reflexivity.
Qed.

Lemma fitted_model_spec (sched : Schedule) (fit_args : FitArguments) (start : string)
    (iteration : nat) (st : bo_state) :
  let name := switch_model (switch_to_deep_iter sched) start (Z.of_nat iteration)
                           (Run.model_name st) in
  exists fits,
    (fits = [] \/ exists n, fits = [EFit name n])
    /\ snd (fitted_model sched fit_args start iteration st)
       = with_events (with_name st name) (ECreate iteration name :: fits).
Proof.
  intros name. unfold fitted_model.
  unfold bindM at 1. unfold get at 1.
  unfold bindM at 1. unfold set_model_name at 1. unfold modify at 1.
  unfold bindM at 1. unfold emit at 1. unfold modify at 1.
  simpl. fold name.
  change (MkState (bo_x st) (bo_y st) (best_x st) (best_y st) name
                  (trace st ++ [ECreate iteration name]))
    with (with_events (with_name st name) [ECreate iteration name]).
  set (st1 := with_events (with_name st name) [ECreate iteration name]).
  unfold bindM at 1. unfold lift at 1.
  destruct (create_base name (bo_x st) (bo_y st) _) as [base|e].
  2:{ exists []. split; [auto|reflexivity]. }
  unfold bindM at 1. unfold lift at 1.
  destruct (optimizer_factory base (lr fit_args)) as [optimizer|e].
  2:{ exists []. split; [auto|reflexivity]. }
  unfold bindM at 1. unfold lift at 1.
  destruct (mll_factory base (bo_y st)) as [mll|e].
  2:{ exists []. split; [auto|reflexivity]. }
  destruct (fit_model_spec name fit_args iteration optimizer mll (bo_x st) (bo_y st) base st1)
    as (fits & Hfits & Hst2).
  exists fits. split; [exact Hfits|]. rewrite Hst2.
  subst st1. unfold with_events, with_name. simpl. rewrite <- app_assoc. reflexivity.
Qed.

(** The second stage on the deep family: one [resample_weights()], then
    the calls of the base model, then the observation and the log when the
    stage returns. *)
Lemma acquire_and_observe_deep (target_function : point -> res float) (bo_args : BOArguments)
    (best_f : float) (base : B) (st1 : bo_state) :
  exists bases post,
    trace (snd (acquire_and_observe target_function bo_args "deep" best_f base st1))
    = trace st1 ++ EResample :: bases ++ post
    /\ Forall is_base bases
    /\ base_flags bases = frozen_flags (length bases)
    /\ Forall quiet post.
Proof.
  unfold acquire_and_observe. unfold bindM at 1.
  destruct (acquire_spec "deep" best_f bo_args base st1) as (evs & (bases & -> & Hall & Hfl) & Hst).
  simpl in Hst.
  destruct (acquire "deep" best_f bo_args base st1) as [[cand|e] st2]; simpl in Hst; subst st2.
  2:{ exists bases, []. rewrite app_nil_r. simpl. auto. }
  unfold bindM at 1. unfold lift at 1.
  destruct (target_function (data (fst cand))) as [new_y|e].
  2:{ exists bases, []. rewrite app_nil_r. simpl. auto. }
  unfold emit. unfold_monad. simpl.
  eexists bases, _. split.
  { rewrite trace_append_observation. simpl. rewrite <- app_assoc. reflexivity. }
  split; [assumption|]. split; [assumption|]. repeat constructor.
Qed.

(** C3 (as amended). An iteration of [run_bo] on the deep family first
    creates and fits its model, with no call of the base model and no
    resampling; when that stage raises the iteration raises with it.  When
    the model is fitted the iteration calls [resample_weights()] exactly
    once, before the acquisition function is optimised, whether or not the
    optimisation then raises: the events that follow are that one call,
    then the calls of the base model, of which the first carries
    [resample_weights=True] and all later ones [resample_weights=False],
    then events that neither call the base model nor resample.  Of the
    wrapper alone: evaluations of [posterior], made one after the other
    after [resample_weights()], pass [True] until the [forward] call of
    one of them has returned and [False] from then on (no [True] follows a
    [False]); an evaluation whose [forward] raises leaves the flag as it
    was, so the next evaluation passes [True] again; an evaluation whose
    [forward] returns clears the flag, whatever the rest of it does.  A
    strategy, which stops at the first exception, makes base-model calls
    with [True] first and [False] afterwards. *)
Theorem deep_iteration_resamples_once (target_function : point -> res float)
    (bo_args : BOArguments) (sched : Schedule) (fit_args : FitArguments) (start : string)
    (iteration : nat) (st : bo_state) :
  switch_model (switch_to_deep_iter sched) start (Z.of_nat iteration) (Run.model_name st)
    = "deep" ->
  let run := bo_iteration target_function bo_args sched fit_args start iteration st in
  let model := fitted_model sched fit_args start iteration st in
  (exists pre, trace (snd model) = trace st ++ pre /\ Forall quiet pre)
  /\ (forall e, fst model = Raise e -> run = (Raise e, snd model))
  /\ (forall base, fst model = Ok base ->
        exists bases post,
          trace (snd run) = trace (snd model) ++ EResample :: bases ++ post
          /\ Forall is_base bases
          /\ base_flags bases = frozen_flags (length bases)
          /\ Forall quiet post)
  /\ (forall (es : list (tensor * bool * transform MVN)) (gp : BotorchGP B),
        exists bases n k,
          calls (evaluate_each es (snd (resample_weights gp))) = calls gp ++ EResample :: bases
          /\ Forall is_base bases
          /\ base_flags bases = repeat true n ++ repeat false k
          /\ (_resample_weights (evaluate_each es (snd (resample_weights gp))) = true
              -> k = 0))
  /\ (forall (X : tensor) (noise : bool) (tr : transform MVN) (gp : BotorchGP B),
        let fw := forward X (posterior_sample_method gp) (_resample_weights gp)
                          (set_mode false gp) in
        let gp' := snd (posterior X noise tr gp) in
        calls gp' = calls (snd fw)
        /\ (is_ok (fst fw) = true -> _resample_weights gp' = false)
        /\ (is_ok (fst fw) = false ->
            is_ok (fst (posterior X noise tr gp)) = false
            /\ _resample_weights gp' = _resample_weights gp))
  /\ (forall (R : Type) (acq : tensor -> M (BotorchGP B) tensor) (m : query R)
             (gp : BotorchGP B),
        posterior_client acq ->
        exists bases,
          calls (snd ((resample_weights ;;; run_query acq m) gp))
            = calls gp ++ EResample :: bases
          /\ Forall is_base bases
          /\ base_flags bases = frozen_flags (length bases)).
Proof.
  intros Hname run model.
  pose proof (bo_iteration_stages target_function bo_args sched fit_args start iteration st)
    as Hstages. rewrite Hname in Hstages. fold run model in Hstages.
  split.
  { destruct (fitted_model_spec sched fit_args start iteration st) as (fits & Hfits & Hst).
    fold model in Hst. rewrite Hst, trace_with_events, trace_with_name.
    eexists. split; [reflexivity|].
    constructor; [exact I|]. destruct Hfits as [->|[n ->]]; repeat constructor. }
  split.
  { intros e He. rewrite Hstages. destruct model as [r st1]. simpl in He. subst r. reflexivity. }
  split.
  { intros base Hb. rewrite Hstages. destruct model as [r st1]. simpl in Hb. subst r. simpl.
    apply acquire_and_observe_deep. }
  split.
  { intros es gp. rewrite resample_weights_spec. simpl.
    set (gp0 := MkBotorchGP _ _ _ _ _).
    destruct (evaluate_each_flags es gp0) as (bases & n & k & Hc & Hall & Hfl & _ & Hk).
    exists bases, n, k. rewrite Hc. subst gp0. simpl. rewrite <- app_assoc.
    split; [reflexivity|]. split; [assumption|]. split; [assumption|].
    intros He. apply Hk. exact He. }
  split.
  { intros X noise tr gp. apply posterior_flag. }
  intros R acq m gp Hacq. unfold bindM. rewrite resample_weights_spec.
  set (gp0 := MkBotorchGP _ _ _ _ _).
  destruct (run_query_flags acq m Hacq gp0) as (bases & Hc & Hall & Hfl).
  exists bases. rewrite Hc. subst gp0. simpl. rewrite <- app_assoc.
  repeat split; assumption.
Qed.

(** *** An unknown manifold name *)

Lemma acquire_unknown_manifold (name : string) (best_f : float) (bo_args : BOArguments)
    (base : B) (st : bo_state) (e : exn) :
  manifold_class_from_name (manifold_name bo_args) = Raise e ->
  fst (acquire name best_f bo_args base st) = Raise e.
Proof.
  intros Hm. unfold acquire.
  destruct (String.eqb name "deep").
  - unfold bindM at 1. rewrite resample_weights_spec.
    rewrite (BoFacts.optimize_acqf_manifold_unknown_manifold _ _ e _ Hm). reflexivity.
  - unfold bindM at 1. unfold ret at 1.
    rewrite (BoFacts.optimize_acqf_manifold_unknown_manifold _ _ e _ Hm). reflexivity.
Qed.

Lemma bo_iteration_unknown_manifold (target_function : point -> res float)
    (bo_args : BOArguments) (sched : Schedule) (fit_args : FitArguments) (start : string)
    (iteration : nat) (st : bo_state) (e : exn) :
  manifold_class_from_name (manifold_name bo_args) = Raise e ->
  is_ok (fst (bo_iteration target_function bo_args sched fit_args start iteration st)) = false.
Proof.
  intros Hm. unfold bo_iteration, emit, set_model_name. unfold_monad. simpl.
  destruct (create_base _ _ _ _) as [base|x]; [|reflexivity].
  destruct (optimizer_factory _ _) as [optimizer|x]; [|reflexivity].
  destruct (mll_factory _ _) as [mll|x]; [|reflexivity].
  destruct (fit_model _ _ _ _ _ _ _ _ _) as [[base'|x] st2]; [|reflexivity].
  pose proof (acquire_unknown_manifold
                (switch_model (switch_to_deep_iter sched) start (Z.of_nat iteration)
                              (Run.model_name st))
                (best_y st) bo_args base' st2 e Hm) as Ha.
  destruct (acquire _ _ _ _ _) as [[cand|x] st3]; simpl in Ha; [discriminate|reflexivity].
Qed.

(** With an unknown manifold name the run gets as far as its first
    iteration: a family is asked for, then the iteration raises, and the
    observations are the initial ones. *)
Lemma run_bo_unknown_manifold (initial_data : list point)
    (target_function : point -> res float) (bo_args : BOArguments) (sched : Schedule)
    (start : string) (fit_args : FitArguments) (e : exn) (r : res unit) (st : bo_state) :
  manifold_class_from_name (manifold_name bo_args) = Raise e ->
  (0 < num_iter bo_args)%Z ->
  run_bo initial_data target_function bo_args sched start fit_args = Finished r st ->
  is_ok r = false
  /\ bo_x st = initial_data
  /\ created (trace st)
     = [(0, switch_model (switch_to_deep_iter sched) start 0 start)].
Proof.
  intros Hm Hn. unfold run_bo.
  destruct (run_bo_init initial_data target_function start) as [st0|x] eqn:Hinit; [|discriminate].
  apply run_bo_init_spec in Hinit as (Hx & Hname & Htr & _).
  destruct (Z.to_nat (num_iter bo_args)) as [|n] eqn:En; [lia|].
  simpl. unfold bindM.
  pose proof (bo_iteration_unknown_manifold target_function bo_args sched fit_args start 0 st0 e Hm)
    as Hfail.
  pose proof (bo_iteration_created target_function bo_args sched fit_args start 0 st0) as Hc.
  destruct (bo_iteration_spec target_function bo_args sched fit_args start 0 st0)
    as (fits & acq_evs & _ & _ & Hst).
  destruct (bo_iteration target_function bo_args sched fit_args start 0 st0)
    as [[[]|x] st1]; simpl in *; [discriminate|].
  intros [= <- <-]. split; [reflexivity|].
  destruct Hst as [[_ ->]|(? & ? & ? & _)]; [|discriminate].
  split; [assumption|].
  rewrite Hc, Htr, Hname. reflexivity.
Qed.

(** *** The claims as the specification words them *)

(** "best_value equals the true min/max (per orientation)": the tracked
    best observation follows the orientation flag. *)
Definition best_follows_orientation : Prop :=
  forall initial_data target_function bo_args sched start fit_args r st,
    run_bo initial_data target_function bo_args sched start fit_args = Finished r st ->
    no_nan (bo_y st) ->
    first_best (maximize bo_args) (bo_x st) (bo_y st) (best_x st) (best_y st).

(** "first family at every iteration before [k], second family from [k]
    on": whatever name the run starts with. *)
Definition switches_from_any_start : Prop :=
  forall initial_data target_function bo_args sched start fit_args k r st,
    switch_to_deep_iter sched = Some k ->
    run_bo initial_data target_function bo_args sched start fit_args = Finished r st ->
    forall i name, In (i, name) (created (trace st)) -> name = family_at k i.

(** "raises for any other name, before any iteration runs": an unknown
    manifold name leaves no event of an iteration. *)
Definition resolved_before_the_loop : Prop :=
  forall initial_data target_function bo_args sched start fit_args e r st,
    manifold_class_from_name (manifold_name bo_args) = Raise e ->
    run_bo initial_data target_function bo_args sched start fit_args = Finished r st ->
    trace st = [].

End Loop.

End RunFacts.

(* ===================================================================== *)
(** ** The family resolvers, together *)
(* ===================================================================== *)

Module ResolverFacts.
Import Model.

Section Resolvers.
Context {B MVN : Type} {HB : BaseModel B MVN} {HS : Surrogate B MVN} {HO : Optim}.
Context {HR : Reductions}.
Variable sphere_uniform_grid : Z -> tensor.

(** C5 (as amended). Each resolver returns a class for exactly the names
    of its closed set and raises the [ValueError] that names the unknown
    name for every other name, when it is called: [acqf_class_from_name]
    for the two improvement names, [manifold_class_from_name] for "sphere",
    [optimizer_class_from_name] for "steepest_descent".  [create_model]
    builds the output-scale prior first; when that prior is built (the
    [outputscale_mean] is not zero) it returns a model exactly for the
    three model names and raises the [ValueError] for any other.  The
    manifold name is resolved when
    [optimize_acqf_manifold] is called, that is inside an iteration of the
    loop: a run with an unknown manifold name starts its first iteration,
    raises in it, and appends no observation. *)
Theorem resolvers_closed_sets :
  acqf_class_from_name "log_expected_improvement" = Ok LogExpectedImprovement
  /\ acqf_class_from_name "expected_improvement" = Ok ExpectedImprovement
  /\ (forall name,
        name <> "log_expected_improvement" -> name <> "expected_improvement" ->
        acqf_class_from_name name
        = Raise (ValueError ("Unknown acquisition function " +:+ name)))
  /\ manifold_class_from_name "sphere" = Ok Sphere
  /\ (forall name,
        name <> "sphere" ->
        manifold_class_from_name name = Raise (ValueError ("Unknown manifold " +:+ name)))
  /\ optimizer_class_from_name "steepest_descent" = Ok SteepestDescent
  /\ (forall name,
        name <> "steepest_descent" ->
        optimizer_class_from_name name = Raise (ValueError ("Unknown optimizer " +:+ name)))
  /\ (forall a,
        is_zero (outputscale_mean a) = false ->
        (is_ok (create_model sphere_uniform_grid a) = true <-> In (model_name a) model_names)
        /\ (~ In (model_name a) model_names ->
            create_model sphere_uniform_grid a
            = Raise (ValueError (unknown_model_message (model_name a)))))
  /\ (forall (St : Type) (acq : tensor -> M St tensor) (bo_args : BOArguments)
             (e : exn) (s : St),
        manifold_class_from_name (manifold_name bo_args) = Raise e ->
        optimize_acqf_manifold acq bo_args s = (Raise e, s))
  /\ (forall initial_data target_function bo_args sched start fit_args e r st,
        manifold_class_from_name (manifold_name bo_args) = Raise e ->
        (0 < num_iter bo_args)%Z ->
        run_bo initial_data target_function bo_args sched start fit_args = Finished r st ->
        is_ok r = false
        /\ bo_x st = initial_data
        /\ RunFacts.created (trace st)
           = [(0, switch_model (switch_to_deep_iter sched) start 0 start)]).
Proof.
  split; [reflexivity|]. split; [reflexivity|].
  split; [apply BoFacts.acqf_class_from_name_unknown|].
  split; [reflexivity|].
  split.
  { intros name Hn. destruct (BoFacts.manifold_class_from_name_spec name) as [[E _]|[_ E]];
      [contradiction|exact E]. }
  split; [reflexivity|].
  split.
  { intros name Hn. destruct (BoFacts.optimizer_class_from_name_spec name) as [[E _]|[_ E]];
      [contradiction|exact E]. }
  split; [apply ModelFacts.create_model_names|].
  split.
  { intros St acq bo_args e s. apply BoFacts.optimize_acqf_manifold_unknown_manifold. }
  intros initial_data target_function bo_args sched start fit_args e r st.
  apply RunFacts.run_bo_unknown_manifold.
Qed.

End Resolvers.

End ResolverFacts.

(* ===================================================================== *)
(** ** Facts about configurations on disk and the reader *)
(* ===================================================================== *)

Module ReproFacts.
Import Model Reproducibility.

(** *** Paths *)

Lemma append_nil (b : string) : EmptyString +:+ b = b.
Proof. reflexivity. Qed.

Lemma append_cons (c : ascii) (a b : string) : String c a +:+ b = String c (a +:+ b).
Proof. reflexivity. Qed.

Lemma append_assoc (a b c : string) : (a +:+ b) +:+ c = a +:+ (b +:+ c).
Proof.
  induction a as [|x a IH]; [reflexivity|].
  rewrite !append_cons, IH. reflexivity.
Qed.

Lemma rsplit_sep_none (f : string) : has_sep f = false -> rsplit_sep f = None.
Proof.
  induction f as [|c f IH]; simpl; [reflexivity|].
  intros Hs. apply orb_false_iff in Hs as [Hc Hf]. rewrite (IH Hf), Hc. reflexivity.
Qed.

Lemma rsplit_sep_app (a f : string) :
  has_sep f = false ->
  rsplit_sep (a +:+ f)
  = match rsplit_sep a with
    | Some (h, t) => Some (h, t +:+ f)
    | None => None
    end.
Proof.
  intros Hf. induction a as [|c a IH].
  - rewrite append_nil. apply rsplit_sep_none, Hf.
  - rewrite append_cons. simpl. rewrite IH.
    destruct (rsplit_sep a) as [[h t]|]; [reflexivity|].
    destruct (Ascii.eqb c sep); reflexivity.
Qed.

Lemma rsplit_sep_endswith (a : string) :
  endswith_sep a = true -> rsplit_sep a = Some (a, EmptyString).
Proof.
  induction a as [|c a IH]; simpl; [discriminate|].
  destruct a as [|c' a'].
  - intros ->. reflexivity.
  - intros Ha. rewrite (IH Ha). reflexivity.
Qed.

Lemma endswith_sep_app (a f : string) :
  f <> EmptyString -> endswith_sep (a +:+ f) = endswith_sep f.
Proof.
  intros Hf. induction a as [|c a IH]; [reflexivity|].
  rewrite append_cons. simpl.
  destruct (a +:+ f) as [|c' r] eqn:E; [|exact IH].
  destruct a; [rewrite append_nil in E; contradiction|discriminate].
Qed.

Lemma endswith_sep_has_sep (f : string) : endswith_sep f = true -> has_sep f = true.
Proof.
  induction f as [|c f IH]; simpl; [discriminate|].
  destruct f as [|c' f'].
  - intros ->. reflexivity.
  - intros Hf. rewrite (IH Hf). apply orb_true_r.
Qed.

Lemma is_empty_app (a f : string) : f <> EmptyString -> is_empty (a +:+ f) = false.
Proof.
  intros Hf. destruct a; [|reflexivity].
  rewrite append_nil. destruct f; [contradiction|reflexivity].
Qed.

(** The name of a file in a directory is recovered from the joined path
    when the name itself holds no separator. *)
Lemma basename_join (d f : string) :
  has_sep f = false -> os_path_basename (os_path_join d f) = f.
Proof.
  intros Hf. unfold os_path_join, os_path_basename.
  assert (Hstart : startswith_sep f = false).
  { destruct f as [|c f]; [reflexivity|]. simpl in *. apply orb_false_iff in Hf. tauto. }
  rewrite Hstart.
  destruct (is_empty d || endswith_sep d) eqn:E.
  - rewrite (rsplit_sep_app d f Hf).
    apply orb_true_iff in E as [E|E].
    + destruct d; [|discriminate]. reflexivity.
    + rewrite (rsplit_sep_endswith d E). reflexivity.
  - rewrite <- append_assoc, (rsplit_sep_app (d +:+ "/") f Hf).
    rewrite (rsplit_sep_endswith (d +:+ "/")); [reflexivity|].
    rewrite endswith_sep_app by discriminate. reflexivity.
Qed.

Lemma open_w_join (d f : string) :
  has_sep f = false -> f <> EmptyString -> open_w (os_path_join d f) = Ok tt.
Proof.
  intros Hf Hne. unfold open_w, os_path_join.
  assert (Hstart : startswith_sep f = false).
  { destruct f as [|c f]; [reflexivity|]. simpl in *. apply orb_false_iff in Hf. tauto. }
  assert (Hend : endswith_sep f = false).
  { destruct (endswith_sep f) eqn:E; [|reflexivity].
    apply endswith_sep_has_sep in E. congruence. }
  rewrite Hstart.
  destruct (is_empty d || endswith_sep d).
  - rewrite is_empty_app, endswith_sep_app, Hend by assumption. reflexivity.
  - rewrite <- append_assoc.
    rewrite is_empty_app, endswith_sep_app, Hend by assumption. reflexivity.
Qed.

(** *** Dictionaries *)

Lemma dict_get_set (k : string) (v : json) (d : dict) :
  dict_get k (dict_set k v d) = Some v.
Proof.
  induction d as [|[k' v'] d IH]; simpl.
  - rewrite String.eqb_refl. reflexivity.
  - destruct (String.eqb k k') eqn:E; simpl; rewrite ?E, ?String.eqb_refl; [reflexivity|exact IH].
Qed.

Lemma ModelArguments_rebuilds (a : ModelArguments) :
  ModelArguments_of (ModelArguments_asdict a) = Ok a.
Proof. destruct a. reflexivity. Qed.

Lemma status_rebuilds (s : ExperimentStatus) :
  status_of_value (JStr (status_value s)) = Ok s.
Proof. destruct s; reflexivity. Qed.

Section Config.
Context {DataArguments TrainingArguments : Type}.
Context {HD : Dataclass DataArguments} {HT : Dataclass TrainingArguments}.
Context {RD : Rebuilds DataArguments} {RT : Rebuilds TrainingArguments}.

Abbreviation Config := (ExperimentConfig DataArguments TrainingArguments).

Definition set_file_name (f : string) (c : Config) : Config :=
  MkExperimentConfig (model_arguments c) (data_arguments c) (training_arguments c)
                     (run c) (status c) f.

(** The dictionary of a configuration, completed with a file name, builds
    the configuration with that file name. *)
Lemma from_dict_to_dict (c : Config) (f : string) :
  from_dict (dict_set "file_name" (JStr f) (to_dict c)) = Ok (set_file_name f c).
Proof.
  set (d := dict_set "file_name" (JStr f) (to_dict c)).
  assert (H1 : dict_item "status" d = Ok (JStr (status_value (status c)))) by reflexivity.
  assert (H2 : dict_item "model_arguments" d
               = Ok (ModelArguments_asdict (model_arguments c))) by reflexivity.
  assert (H3 : dict_item "data_arguments" d = Ok (asdict (data_arguments c))) by reflexivity.
  assert (H4 : dict_item "training_arguments" d = Ok (asdict (training_arguments c)))
    by reflexivity.
  assert (H5 : check_keywords ExperimentConfig_fields d = Ok tt) by reflexivity.
  assert (H6 : kw_int "run" 0 d = Ok (run c)) by reflexivity.
  assert (H7 : kw_str "file_name" "config.json" d = Ok f) by reflexivity.
  unfold from_dict.
  rewrite H1; cbn [res_bind]. rewrite status_rebuilds; cbn [res_bind].
  rewrite H2; cbn [res_bind]. rewrite ModelArguments_rebuilds; cbn [res_bind].
  rewrite H3; cbn [res_bind]. rewrite (rebuilds (data_arguments c)); cbn [res_bind].
  rewrite H4; cbn [res_bind]. rewrite (rebuilds (training_arguments c)); cbn [res_bind].
  rewrite H5, H6, H7; cbn [res_bind]. reflexivity.
Qed.

Lemma set_file_name_same (c : Config) : set_file_name (file_name c) c = c.
Proof. destruct c. reflexivity. Qed.

(** Reading what [to_json] wrote at a path. *)
Lemma from_json_written (c : Config) (path : string) (fs : files) :
  from_json path (<[path := JObj (to_dict c)]> fs)
  = (Ok (set_file_name (os_path_basename path) c), <[path := JObj (to_dict c)]> fs).
Proof.
  unfold from_json, files. unfold_monad. rewrite lookup_insert_eq.
  unfold as_dict. rewrite from_dict_to_dict. reflexivity.
Qed.

(** C10 (as amended). A configuration whose [file_name] is a plain file
    name (not empty, no path separator) is written by [to_json] into a
    directory and read back by [from_json] from that file as a
    configuration equal to it in every field; the dataclasses
    [DataArguments] and [TrainingArguments] are assumed to be rebuilt from
    their own dictionaries. *)
Theorem to_json_from_json_roundtrip (c : Config) (dir_path : string) (fs : files) :
  has_sep (file_name c) = false ->
  file_name c <> EmptyString ->
  exists fs',
    to_json c dir_path fs = (Ok tt, fs')
    /\ from_json (os_path_join dir_path (file_name c)) fs' = (Ok c, fs').
Proof.
  intros Hsep Hne.
  exists (<[os_path_join dir_path (file_name c) := JObj (to_dict c)]> fs).
  split.
  - unfold to_json. unfold_monad. rewrite (open_w_join _ _ Hsep Hne). reflexivity.
  - rewrite from_json_written, (basename_join _ _ Hsep), set_file_name_same. reflexivity.
Qed.

(** "the round-trip is the identity on ExperimentConfig": for every
    configuration. *)
Definition roundtrip_for_every_config : Prop :=
  forall (c : Config) (dir_path : string) (fs : files),
  exists fs',
    to_json c dir_path fs = (Ok tt, fs')
    /\ from_json (os_path_join dir_path (file_name c)) fs' = (Ok c, fs').

(** *** The reader *)

Lemma from_dict_file_name (d : dict) (f : string) (c : Config) :
  from_dict (dict_set "file_name" (JStr f) d) = Ok c -> file_name c = f.
Proof.
  unfold from_dict.
  repeat match goal with
         | |- context [res_bind ?x _] =>
             match x with
             | kw_str _ _ _ => fail 1
             | _ => destruct x; cbn [res_bind]; [|discriminate]
             end
         end.
  unfold kw_str. rewrite dict_get_set. cbn [res_bind]. intros [= <-]. reflexivity.
Qed.

Lemma from_json_spec (path : string) (fs fs' : files) (c : Config) :
  from_json path fs = (Ok c, fs') -> fs' = fs /\ file_name c = os_path_basename path.
Proof.
  unfold from_json. unfold_monad. intros Hj.
  repeat case_match; try discriminate.
  injection Hj as Hd <-. split; [reflexivity|]. eapply from_dict_file_name, Hd.
Qed.

Lemma update_status_spec (path : string) (st : ExperimentStatus) (c : Config) (fs : files) :
  os_path_join (os_path_dirname path) (os_path_basename path) = path ->
  open_w path = Ok tt ->
  file_name c = os_path_basename path ->
  _update_status path st (c, fs)
  = (Ok tt, (set_status st c, <[path := JObj (to_dict (set_status st c))]> fs)).
Proof.
  intros Hnorm Hopen Hname. unfold _update_status, to_json. unfold_monad.
  simpl. rewrite Hname, Hnorm, Hopen. reflexivity.
Qed.

Section Reader.
Context {E : Type} {HE : @Experiment DataArguments TrainingArguments E}.

(** [run_experiment] leaves the configuration object as it was given. *)
Lemma run_experiment_config (c c0 : Config) (dir_path : string) (fs : files) (e : E) :
  fst (fst (snd (run_experiment c dir_path (c0, fs, e)))) = c0.
Proof.
  unfold run_experiment, in_world. unfold_monad.
  destruct (get_data (data_arguments c) (fs, e)) as [[sets|x] [fs1 e1]]; [|reflexivity].
  destruct (create_model sphere_uniform_grid (model_arguments c)) as [m|x]; [|reflexivity].
  destruct (train_and_test m sets c dir_path (fs1, e1)) as [r [fs2 e2]]. reflexivity.
Qed.

(** C6. For a run whose configuration file is read with status READY,
    FAILED, or COMPLETED under [overwrite], the experiment runs with the
    status RUNNING, in the object and in the file; after the block the file
    records FAILED exactly when the block raised and COMPLETED otherwise,
    and the exception of the block is the outcome of [main].  The recorded
    configuration reads back with that status, so that a later call finds a
    FAILED run eligible again, and skips a COMPLETED run (nothing runs,
    nothing is written) unless [overwrite] is set. *)
Theorem reader_records_outcome (dir_path config_file_name : string) (overwrite : bool)
    (fs : files) (e : E) (c : Config) :
  let file_path := os_path_join dir_path config_file_name in
  os_path_join (os_path_dirname file_path) (os_path_basename file_path) = file_path ->
  open_w file_path = Ok tt ->
  from_json file_path fs = (Ok c, fs) ->
  (may_start (status c) overwrite = true ->
     let c_run := set_status RUNNING c in
     let fs_run := <[file_path := JObj (to_dict c_run)]> fs in
     let '(r, (_, fs2, e2)) :=
       run_experiment c_run dir_path (c_run, fs_run, seed_everything (seed c) e) in
     let final := if is_ok r then COMPLETED else FAILED in
     let fs3 := <[file_path := JObj (to_dict (set_status final c))]> fs2 in
     main dir_path overwrite config_file_name (fs, e) = (r, (fs3, e2))
     /\ from_json file_path fs3 = (Ok (set_status final c), fs3)
     /\ (final = FAILED <-> is_ok r = false))
  /\ (status c = COMPLETED -> overwrite = false ->
      main dir_path overwrite config_file_name (fs, e) = (Ok tt, (fs, e)))
  /\ (forall ow, may_start FAILED ow = true)
  /\ may_start COMPLETED false = false
  /\ may_start COMPLETED true = true.
Proof.
  intros file_path Hnorm Hopen Hread.
  destruct (from_json_spec _ _ _ _ Hread) as [_ Hname].
  split; [|split; [|repeat split]].
  - intros Hstart c_run fs_run.
    pose proof (run_experiment_config c_run c_run dir_path fs_run (seed_everything (seed c) e))
      as Hcfg.
    destruct (run_experiment c_run dir_path (c_run, fs_run, seed_everything (seed c) e))
      as [r [[c2 fs2] e2]] eqn:Hrun.
    simpl in Hcfg. subst c2.
    assert (Hback : forall st,
               from_json file_path (<[file_path := JObj (to_dict (set_status st c))]> fs2)
               = (Ok (set_status st c), <[file_path := JObj (to_dict (set_status st c))]> fs2)).
    { intros st. rewrite from_json_written. do 2 f_equal.
      rewrite <- Hname. destruct c; reflexivity. }
    split; [|split; [apply Hback|destruct r; simpl; split; congruence]].
    unfold main, with_reader, enter. fold file_path.
    unfold bindM at 1. rewrite Hread, Hstart.
    rewrite (update_status_spec file_path RUNNING c fs Hnorm Hopen Hname).
    cbn [res_bind]. fold c_run fs_run.
    unfold bindM at 1. unfold get at 1. cbn [fst].
    replace (status_eqb (status c_run) RUNNING) with true by reflexivity.
    unfold bindM at 1. unfold set_experiment_seed at 1. unfold modify at 1.
    replace (seed c_run) with (seed c) by reflexivity.
    rewrite Hrun. unfold exit.
    replace (status_eqb (status c_run) RUNNING) with true by reflexivity.
    rewrite (update_status_spec file_path _ c_run fs2 Hnorm Hopen Hname).
    destruct r; reflexivity.
  - intros Hst Hov. unfold main, with_reader, enter. fold file_path.
    unfold bindM at 1. rewrite Hread, Hst, Hov. simpl.
    unfold bindM, get, ret. cbn [fst]. rewrite Hst. simpl. rewrite Hst. reflexivity.
Qed.

End Reader.

End Config.

End ReproFacts.

(* ===================================================================== *)
(** ** More facts about the wrapper (model/botorch.py) *)
(* ===================================================================== *)

Module WrapperFacts.
Import TorchFacts BotorchFacts.

Section Wrapper.
Context {B MVN : Type} {HB : BaseModel B MVN}.

Lemma base_input_short (X : tensor) : ndim X < 2 -> base_input X = Raise IndexError.
Proof.
  intros Hn. unfold base_input, shape_at.
  change (-2)%Z with (- Z.of_nat 2)%Z.
  rewrite py_index_short by exact Hn. reflexivity.
Qed.

(** X1 (botorch.py, [posterior]): when [posterior] returns, the module is
    back in the mode it was called in and the resampling flag is cleared;
    when it raises, the module is left in evaluation mode (nothing restores
    the mode on that path).  The flag follows [forward]: when [forward]
    raises, [posterior] raises and the flag is as it was; when [forward]
    returns, the flag is cleared at once, and [posterior] returns or raises
    as the likelihood, the constructor of the posterior and the transform
    do, which run after the flag is cleared.  The sampling method is never
    changed. *)
Theorem posterior_mode_and_flag (X : tensor) (noise : bool) (tr : transform MVN)
    (gp : BotorchGP B) :
  let r := fst (posterior X noise tr gp) in
  let gp' := snd (posterior X noise tr gp) in
  let fw := fst (forward X (posterior_sample_method gp) (_resample_weights gp)
                         (set_mode false gp)) in
  (is_ok r = true -> training gp' = training gp /\ _resample_weights gp' = false)
  /\ (is_ok r = false -> training gp' = false)
  /\ (forall e, fw = Raise e ->
        r = Raise e /\ _resample_weights gp' = _resample_weights gp)
  /\ (forall m, fw = Ok m ->
        r = finish_posterior noise tr m /\ _resample_weights gp' = false)
  /\ posterior_sample_method gp' = posterior_sample_method gp.
Proof.
  cbv zeta. rewrite posterior_unfold, forward_base_input.
  destruct (base_input X) as [X'|e].
  2:{ simpl. split; [discriminate|]. split; [reflexivity|].
      split; [intros e0 [= <-]; auto|]. split; [discriminate|reflexivity]. }
  pose proof (call_base_calls X' (posterior_sample_method gp) (_resample_weights gp)
                (set_mode false gp)) as (_ & Hf & Hm & Ht).
  destruct (call_base X' (posterior_sample_method gp) (_resample_weights gp)
              (set_mode false gp)) as [[m|e] gp2]; simpl in *.
  - destruct (finish_posterior noise tr m) as [p|e] eqn:Hp; simpl.
    + split; [intros _; destruct (training gp); simpl; auto|].
      split; [discriminate|]. split; [discriminate|].
      split; [intros m0 [= <-]; rewrite Hp; destruct (training gp); auto|].
      destruct (training gp); simpl; exact Hm.
    + split; [discriminate|]. split; [intros _; exact Ht|]. split; [discriminate|].
      split; [intros m0 [= <-]; rewrite Hp; auto|exact Hm].
  - split; [discriminate|]. split; [intros _; exact Ht|].
    split; [intros e0 [= <-]; auto|]. split; [discriminate|exact Hm].
Qed.

(** X2 (botorch.py, [forward] and [posterior]): a tensor of fewer than two
    dimensions has no dimension -2; [forward] raises IndexError without
    calling the base model, and [posterior] raises it after it has put the
    module in evaluation mode, with no event recorded and the resampling
    flag still set as before. *)
Theorem short_input_raises (X : tensor) (m : string) (f noise : bool)
    (tr : transform MVN) (gp : BotorchGP B) :
  ndim X < 2 ->
  forward X m f gp = (Raise IndexError, gp)
  /\ posterior X noise tr gp = (Raise IndexError, set_mode false gp)
  /\ calls (snd (posterior X noise tr gp)) = calls gp
  /\ _resample_weights (snd (posterior X noise tr gp)) = _resample_weights gp.
Proof.
  intros Hn. split; [apply forward_short; exact Hn|].
  rewrite posterior_unfold, (base_input_short X Hn). repeat split.
Qed.

End Wrapper.

End WrapperFacts.

(* ===================================================================== *)
(** ** More facts about the acquisition optimiser (bo/bo.py) *)
(* ===================================================================== *)

Module OptimiseFacts.
Import TorchFacts BoFacts.

Lemma shape_at_minus1 (X : tensor) (pre : list nat) (d : nat) :
  shape X = pre ++ [d] -> shape_at X (-1) = Ok d.
Proof.
  intros Hs. unfold shape_at, ndim. rewrite Hs.
  change (-1)%Z with (- Z.of_nat 1)%Z.
  rewrite py_index_from_end by (try rewrite length_app; simpl; lia).
  simpl. rewrite length_app. simpl.
  replace (length pre + 1 - 1) with (length pre + 0) by lia.
  rewrite lookup_app_r by lia.
  replace (length pre + 0 - length pre) with 0 by lia. reflexivity.
Qed.

Lemma squeeze_short (X : tensor) : ndim X < 2 -> squeeze X (-2) = Raise IndexError.
Proof.
  intros Hn. unfold squeeze.
  change (-2)%Z with (- Z.of_nat 2)%Z.
  rewrite py_index_short by exact Hn. reflexivity.
Qed.

Section Optimise.
Context {HO : Optim}.

(** X3 (bo.py, [optimize_acqf_manifold], lines 90-100): seeds of fewer than
    two dimensions stop the refinement with IndexError before
    [optimize_acqf] is called; otherwise [optimize_acqf] receives the
    seeds with dimension -2 dropped when it has size one, and placeholder
    bounds whose width is the last dimension of the seeds, squeezed or
    not. *)
Theorem refinement_stage_shapes (bo_args : BOArguments) (bic : tensor) :
  (ndim bic < 2 -> refinement_stage bo_args bic = QRaise IndexError)
  /\ (forall (pre : list nat) (n d : nat),
        shape bic = pre ++ [n; d] ->
        refinement_stage bo_args bic
        = optimize_acqf (q bo_args) d (num_restarts bo_args) (raw_samples bo_args)
            (ManifoldGenCandidates bo_args)
            (if Nat.eqb n 1 then Tensor (pre ++ [d]) (data bic) else bic)).
Proof.
  split.
  - intros Hn. unfold refinement_stage. rewrite (squeeze_short bic Hn). reflexivity.
  - intros pre n d Hs. unfold refinement_stage.
    rewrite (squeeze_minus2 bic pre n d Hs). simpl.
    destruct (Nat.eqb n 1).
    + rewrite (shape_at_minus1 (Tensor (pre ++ [d]) (data bic)) pre d eq_refl). reflexivity.
    + rewrite (shape_at_minus1 bic (pre ++ [n]) d).
      * reflexivity.
      * rewrite Hs, <- app_assoc. reflexivity.
Qed.

End Optimise.

End OptimiseFacts.

(* ===================================================================== *)
(** ** More facts about model construction (experiment_utils/model.py) *)
(* ===================================================================== *)

Module CreateFacts.
Import Model ModelFacts.

(** The arguments with the two frame options replaced. *)
Definition with_frames (parametrised rotated : bool) (a : ModelArguments) : ModelArguments :=
  MkModelArguments (space_name a) (space_dim a) (model_name a) (num_hidden a) (num_inducing a)
    (num_eigenfunctions a) (learn_inducing_locations a) (optimize_nu a) (nu a)
    (tangent_to_manifold a) (project_to_tangent a) parametrised rotated (outputscale_mean a).

(** The arguments with the options of the geometric kernel replaced. *)
Definition with_kernel_options (num_eigenfunctions : Z) (optimize_nu : bool)
    (a : ModelArguments) : ModelArguments :=
  MkModelArguments (space_name a) (space_dim a) (model_name a) (num_hidden a) (num_inducing a)
    num_eigenfunctions (learn_inducing_locations a) optimize_nu (nu a)
    (tangent_to_manifold a) (project_to_tangent a) (parametrised_frame a) (rotated_frame a)
    (outputscale_mean a).

(** The arguments with the two maps between manifold and tangent space
    replaced. *)
Definition with_tangent_maps (tangent_to_manifold project_to_tangent : string)
    (a : ModelArguments) : ModelArguments :=
  MkModelArguments (space_name a) (space_dim a) (model_name a) (num_hidden a) (num_inducing a)
    (num_eigenfunctions a) (learn_inducing_locations a) (optimize_nu a) (nu a)
    tangent_to_manifold project_to_tangent (parametrised_frame a) (rotated_frame a)
    (outputscale_mean a).

Section Create.
Variable sphere_uniform_grid : Z -> tensor.

(** X4 (model.py, [create_model]): the options [parametrised_frame] and
    [rotated_frame] are never read; the options of the geometric kernel
    ([num_eigenfunctions], [optimize_nu]) are read for 'geometric_manifold'
    only; the maps between manifold and tangent space are not read for
    'euclidean'. *)
Theorem create_model_unread_options (a : ModelArguments) :
  (forall p r,
     create_model sphere_uniform_grid (with_frames p r a)
     = create_model sphere_uniform_grid a)
  /\ (model_name a <> "geometric_manifold" ->
      forall n o,
        create_model sphere_uniform_grid (with_kernel_options n o a)
        = create_model sphere_uniform_grid a)
  /\ (model_name a = "euclidean" ->
      forall t p,
        create_model sphere_uniform_grid (with_tangent_maps t p a)
        = create_model sphere_uniform_grid a).
Proof.
  split; [|split].
  - intros p r. reflexivity.
  - intros Hname n o. unfold create_model. simpl.
    destruct (String.eqb (model_name a) "geometric_manifold") eqn:E.
    + apply String.eqb_eq in E. contradiction.
    + reflexivity.
  - intros Hname t p. unfold create_model. simpl. rewrite Hname. reflexivity.
Qed.

(** X5 (model.py, [get_outputscale_prior] and [create_model]): the prior of
    the output scale is built before the model name is looked at, so an
    output-scale mean of zero (of either sign) raises ZeroDivisionError for
    every model name, known or not. *)
Theorem create_model_zero_outputscale (a : ModelArguments) :
  is_zero (outputscale_mean a) = true ->
  create_model sphere_uniform_grid a = Raise ZeroDivisionError
  /\ get_outputscale_prior (outputscale_mean a) = Raise ZeroDivisionError.
Proof.
  intros Hz. split.
  - apply create_model_zero_mean. exact Hz.
  - unfold get_outputscale_prior, py_div. rewrite Hz. reflexivity.
Qed.

(** X6 (model.py, the property [space] and [get_inducing_points]): the
    inducing points of the declared space exist exactly for the
    hypersphere of dimension two, and they are then the uniform grid of
    [num_inducing] points, the points that [create_model] gives every
    model it builds. *)
Theorem inducing_points_of_declared_space (a : ModelArguments) (t : tensor) :
  (res_bind (space a) (get_inducing_points sphere_uniform_grid (num_inducing a)) = Ok t
   <-> space_name a = "hypersphere" /\ space_dim a = 2%Z
       /\ t = sphere_uniform_grid (num_inducing a))
  /\ (forall m, create_model sphere_uniform_grid a = Ok m ->
        inducing_points_of m = sphere_uniform_grid (num_inducing a)).
Proof.
  split.
  - unfold space, get_inducing_points.
    destruct (String.eqb (space_name a) "hypersphere") eqn:En; simpl.
    + apply String.eqb_eq in En.
      destruct (Z.eqb (space_dim a) 2) eqn:Ed.
      * apply Z.eqb_eq in Ed. split.
        -- intros [= <-]. auto.
        -- intros (_ & _ & ->). reflexivity.
      * apply Z.eqb_neq in Ed. split; [discriminate|]. intros (_ & Hd & _). contradiction.
    + apply String.eqb_neq in En. split; [discriminate|]. intros (Hn & _). contradiction.
  - intros m Hm.
    unfold create_model in Hm.
    destruct (get_outputscale_prior (outputscale_mean a)) as [prior|e]; simpl in Hm;
      [|discriminate Hm].
    repeat match type of Hm with
           | context [String.eqb ?x ?y] => destruct (String.eqb x y)
           end;
      try discriminate Hm; injection Hm as <-; reflexivity.
Qed.

End Create.

End CreateFacts.

(* ===================================================================== *)
(** ** More facts about the optimisation loop (notebooks/bo_experiment/run.py) *)
(* ===================================================================== *)

Module LoopFacts.
Import TorchFacts BotorchFacts RunFacts.

(** The observations and the logged best values of a trace, in order. *)
Definition observed (evs : list event) : list (point * float) :=
  omap (fun e => match e with EObserve x y => Some (x, y) | _ => None end) evs.

Definition logged (evs : list event) : list (point * float) :=
  omap (fun e => match e with ELog x y => Some (x, y) | _ => None end) evs.

(** Each value of the list is the value before it or a value strictly
    below the value before it, starting from [b]. *)
Fixpoint improves (b : float) (l : list float) : Prop :=
  match l with
  | [] => True
  | b' :: l' => (b' = b \/ flt b' b = true) /\ improves b' l'
  end.

(** The family every iteration of a run asks for when the run does not
    start on "deep". *)
Definition family_without_deep (switch : option Z) (start : string) : string :=
  match switch with
  | Some k => if (0 <? k)%Z then "exact" else start
  | None => start
  end.

(** The schedule with the k-means option switched off. *)
Definition without_kmeans (sched : Schedule) : Schedule :=
  MkSchedule (switch_to_deep_iter sched) false (kmeans_inducing_num sched).

Lemma observed_app (a b : list event) : observed (a ++ b) = observed a ++ observed b.
Proof. apply omap_app. Qed.

Lemma logged_app (a b : list event) : logged (a ++ b) = logged a ++ logged b.
Proof. apply omap_app. Qed.

Lemma omap_bases {A : Type} (f : event -> option A) (bases : list event) :
  (forall X m b, f (EBase X m b) = None) ->
  Forall is_base bases -> omap f bases = [].
Proof.
  intros Hf. induction 1 as [|e l He _ IH]; [reflexivity|].
  destruct e; try contradiction. simpl. rewrite Hf. exact IH.
Qed.

Lemma omap_acquisition {A : Type} (f : event -> option A) (name : string) (evs : list event) :
  (forall X m b, f (EBase X m b) = None) -> f EResample = None ->
  evs = [] \/ acquisition_events name evs -> omap f evs = [].
Proof.
  intros Hb Hr [->|(bases & -> & Hall & _)]; [reflexivity|].
  rewrite omap_app, (omap_bases f bases Hb Hall), app_nil_r.
  destruct (String.eqb name "deep"); simpl; [rewrite Hr|]; reflexivity.
Qed.

Lemma omap_fits {A : Type} (f : event -> option A) (name : string) (fits : list event) :
  (forall n s, f (EFit n s) = None) ->
  fits = [] \/ (exists n, fits = [EFit name n]) -> omap f fits = [].
Proof.
  intros Hf [->|[n ->]]; [reflexivity|]. simpl. rewrite Hf. reflexivity.
Qed.

(** The index and the value that [argmin_from] returns belong together,
    NaN or not. *)
Lemma argmin_from_lookup (l seen : list float) (bi : nat) (b : float) :
  seen !! bi = Some b ->
  (seen ++ l) !! fst (argmin_from bi b (length seen) l)
  = Some (snd (argmin_from bi b (length seen) l)).
Proof.
  revert seen bi b. induction l as [|v l IH]; intros seen bi b Hb; simpl.
  - rewrite app_nil_r. exact Hb.
  - replace (seen ++ v :: l) with ((seen ++ [v]) ++ l) by (rewrite <- app_assoc; reflexivity).
    replace (S (length seen)) with (length (seen ++ [v])) by (rewrite length_app; simpl; lia).
    destruct (tlt v b).
    + apply IH. rewrite lookup_app_r by lia. rewrite Nat.sub_diag. reflexivity.
    + apply IH. rewrite lookup_app_l by (apply lookup_lt_Some in Hb; exact Hb). exact Hb.
Qed.

(** The value that [argmin_from] returns is a least value of the scan in
    the order of the reductions, NaN or not. *)
Lemma argmin_from_least (l seen : list float) (bi : nat) (b : float) :
  Forall (fun w => tlt w b = false) seen ->
  Forall (fun w => tlt w (snd (argmin_from bi b (length seen) l)) = false) (seen ++ l).
Proof.
  revert seen bi b. induction l as [|v l IH]; intros seen bi b Hb; simpl.
  - rewrite app_nil_r. exact Hb.
  - replace (seen ++ v :: l) with ((seen ++ [v]) ++ l) by (rewrite <- app_assoc; reflexivity).
    replace (S (length seen)) with (length (seen ++ [v])) by (rewrite length_app; simpl; lia).
    destruct (tlt v b) eqn:E.
    + apply IH. apply Forall_app. split.
      * eapply Forall_impl; [exact Hb|]. intros w Hw. exact (tlt_below v b w E Hw).
      * constructor; [apply tlt_irrefl|constructor].
    + apply IH. apply Forall_app. split; [exact Hb|]. constructor; [exact E|constructor].
Qed.

Lemma observe_all_raises (target_function : point -> res float) (x : list point) :
  is_ok (observe_all target_function x) = false
  <-> exists p, In p x /\ is_ok (target_function p) = false.
Proof.
  induction x as [|p x IH]; simpl.
  - split; [discriminate|]. intros (p & [] & _).
  - destruct (target_function p) as [v|e] eqn:Hp; simpl.
    + destruct (observe_all target_function x) as [vs|e]; simpl in *.
      * split; [discriminate|]. intros (p' & [<-|Hin] & Hr).
        -- rewrite Hp in Hr. discriminate.
        -- apply (proj2 IH). eauto.
      * split; [|reflexivity]. intros _. destruct (proj1 IH eq_refl) as (p' & Hin & Hr). eauto.
    + split; [|reflexivity]. intros _. exists p. rewrite Hp. auto.
Qed.

Lemma observe_all_length (target_function : point -> res float) (x : list point)
    (y : list float) :
  observe_all target_function x = Ok y -> length y = length x.
Proof.
  intros Hy. apply observe_all_spec in Hy. symmetry. eapply Forall2_length; eassumption.
Qed.

(** The state before the first iteration: the best value is the result
    of [y.min()], one of the initial values; the best point is the row at
    [y.argmin()], whose value the order of the reductions does not tell
    apart from the best value. *)
Lemma run_bo_init_ok {HR : Reductions} (initial_data : list point)
    (target_function : point -> res float) (name : string) (st0 : bo_state) :
  run_bo_init initial_data target_function name = Ok st0 ->
  bo_x st0 = initial_data /\ initial_data <> []
  /\ observe_all target_function initial_data = Ok (bo_y st0)
  /\ tmin (bo_y st0) = Ok (best_y st0)
  /\ Run.model_name st0 = name /\ trace st0 = []
  /\ best_y st0 ∈ bo_y st0
  /\ exists i v, bo_x st0 !! i = Some (best_x st0) /\ bo_y st0 !! i = Some v
                 /\ same_value v (best_y st0).
Proof.
  unfold run_bo_init.
  destruct (observe_all target_function initial_data) as [y|e] eqn:Hy; simpl; [|discriminate].
  destruct y as [|v y]; simpl; [discriminate|].
  destruct (row initial_data (fst (argmin_from 0 v 1 y))) as [bx|e] eqn:Hrow; simpl;
    [|discriminate].
  destruct (tmin_least v y) as (m & Hm & Hin & Hleast). rewrite Hm. simpl.
  intros [= <-]. simpl.
  split; [reflexivity|]. split; [intros ->; discriminate Hy|].
  split; [reflexivity|]. split; [exact Hm|]. split; [reflexivity|]. split; [reflexivity|].
  split; [exact Hin|].
  pose proof (argmin_from_lookup y [v] 0 v eq_refl) as Hi. simpl in Hi.
  pose proof (argmin_from_least y [v] 0 v) as Hl. simpl in Hl.
  exists (fst (argmin_from 0 v 1 y)), (snd (argmin_from 0 v 1 y)).
  split.
  { unfold row in Hrow.
    destruct (initial_data !! fst (argmin_from 0 v 1 y)); [congruence|discriminate]. }
  split; [exact Hi|].
  split.
  - rewrite Forall_forall in Hleast. apply Hleast.
    apply list_elem_of_lookup. eexists. exact Hi.
  - assert (Hall : Forall (fun w => tlt w (snd (argmin_from 0 v 1 y)) = false) (v :: y)).
    { apply Hl. constructor; [apply tlt_irrefl|constructor]. }
    rewrite Forall_forall in Hall. apply Hall. exact Hin.
Qed.

Lemma run_bo_init_returns {HR : Reductions} (initial_data : list point)
    (target_function : point -> res float) (name : string) (y : list float) :
  initial_data <> [] ->
  observe_all target_function initial_data = Ok y ->
  is_ok (run_bo_init initial_data target_function name) = true.
Proof.
  intros Hne Hy. unfold run_bo_init. rewrite Hy. simpl.
  pose proof (observe_all_length _ _ _ Hy) as Hlen.
  destruct y as [|v y]; [destruct initial_data; [contradiction|discriminate]|]. simpl.
  pose proof (argmin_from_lookup y [v] 0 v eq_refl) as Hi.
  apply lookup_lt_Some in Hi. simpl in Hi, Hlen.
  unfold row.
  destruct (initial_data !! fst (argmin_from 0 v 1 y)) as [p|] eqn:Hp.
  - simpl. destruct (tmin_least v y) as (m & Hm & _). rewrite Hm. reflexivity.
  - apply lookup_ge_None in Hp. lia.
Qed.

Section Loop.
Context {B MVN : Type} {HB : BaseModel B MVN} {HS : Surrogate B MVN} {HO : Optim}.
Context {HR : Reductions}.

(** One iteration, seen from the loop: the name it leaves in [model_args],
    its events, and what it does to the observations and to the best
    one. *)
Lemma bo_iteration_summary (target_function : point -> res float) (bo_args : BOArguments)
    (sched : Schedule) (fit_args : FitArguments) (start : string)
    (iteration : nat) (st : bo_state) :
  let name := switch_model (switch_to_deep_iter sched) start (Z.of_nat iteration)
                           (Run.model_name st) in
  let r := fst (bo_iteration target_function bo_args sched fit_args start iteration st) in
  let st' := snd (bo_iteration target_function bo_args sched fit_args start iteration st) in
  Run.model_name st' = name
  /\ exists evs,
       trace st' = trace st ++ ECreate iteration name :: evs
       /\ ((is_ok r = false
            /\ bo_x st' = bo_x st /\ bo_y st' = bo_y st
            /\ best_x st' = best_x st /\ best_y st' = best_y st
            /\ observed evs = [] /\ logged evs = [])
           \/ (exists new_x new_y,
                 r = Ok tt /\ target_function new_x = Ok new_y
                 /\ bo_x st' = bo_x st ++ [new_x] /\ bo_y st' = bo_y st ++ [new_y]
                 /\ best_x st' = (if flt new_y (best_y st) then new_x else best_x st)
                 /\ best_y st' = (if flt new_y (best_y st) then new_y else best_y st)
                 /\ observed evs = [(new_x, new_y)]
                 /\ logged evs = [(best_x st', best_y st')])).
Proof.
  cbv zeta.
  pose proof (bo_iteration_spec target_function bo_args sched fit_args start iteration st)
    as Hspec. cbv zeta in Hspec.
  set (name := switch_model (switch_to_deep_iter sched) start (Z.of_nat iteration)
                            (Run.model_name st)) in *.
  destruct Hspec
    as (fits & acq_evs & Hfits & Hacq & [[Hr ->]|(new_x & new_y & Hr & Ht & _ & ->)]).
  - split; [reflexivity|]. exists (fits ++ acq_evs). split; [reflexivity|]. left.
    repeat split; try assumption.
    + unfold observed. rewrite omap_app, (omap_fits _ name fits), (omap_acquisition _ name acq_evs);
        auto.
    + unfold logged. rewrite omap_app, (omap_fits _ name fits), (omap_acquisition _ name acq_evs);
        auto.
  - split; [unfold append_observation; simpl; destruct (flt new_y (best_y st)); reflexivity|].
    eexists. split.
    { rewrite trace_with_events, trace_append_observation, trace_with_name. reflexivity. }
    right. exists new_x, new_y.
    assert (Ho : forall tail, observed (fits ++ acq_evs ++ tail) = observed tail).
    { intros tail. unfold observed.
      rewrite !omap_app, (omap_fits _ name fits), (omap_acquisition _ name acq_evs); auto. }
    assert (Hl : forall tail, logged (fits ++ acq_evs ++ tail) = logged tail).
    { intros tail. unfold logged.
      rewrite !omap_app, (omap_fits _ name fits), (omap_acquisition _ name acq_evs); auto. }
    rewrite Ho, Hl.
    unfold append_observation. simpl.
    destruct (flt new_y (best_y st)); simpl; repeat split; assumption.
Qed.

Lemma base_flags_bases (bases : list event) :
  Forall is_base bases -> length (base_flags bases) = length bases.
Proof.
  induction 1 as [|e l He _ IH]; [reflexivity|].
  destruct e; try contradiction. simpl. rewrite IH. reflexivity.
Qed.

Lemma bases_never_resample (bases : list event) :
  Forall is_base bases -> ~ In EResample bases.
Proof.
  intros Hall Hin. rewrite Forall_forall in Hall.
  apply list_elem_of_In in Hin. exact (Hall _ Hin).
Qed.

(** X7 (run.py, lines 64-73, with [BotorchGP.__init__]): an iteration on a
    family other than "deep" never calls [resample_weights()]; all the
    same the first call of the base model in it is made with
    [resample_weights=True], the value the constructor of the wrapper
    leaves in the flag, and every later call of the iteration with
    [False]. *)
Theorem other_families_never_resample (target_function : point -> res float)
    (bo_args : BOArguments) (sched : Schedule) (fit_args : FitArguments) (start : string)
    (iteration : nat) (st : bo_state) :
  switch_model (switch_to_deep_iter sched) start (Z.of_nat iteration) (Run.model_name st)
    <> "deep" ->
  let run := bo_iteration target_function bo_args sched fit_args start iteration st in
  exists evs,
    trace (snd run) = trace st ++ evs
    /\ ~ In EResample evs
    /\ base_flags evs = frozen_flags (length (base_flags evs)).
Proof.
  intros Hname. cbv zeta.
  pose proof (bo_iteration_spec target_function bo_args sched fit_args start iteration st)
    as Hspec. cbv zeta in Hspec.
  set (name := switch_model (switch_to_deep_iter sched) start (Z.of_nat iteration)
                            (Run.model_name st)) in *.
  assert (Hnd : String.eqb name "deep" = false) by (apply String.eqb_neq; exact Hname).
  assert (Hacq_shape : forall acq_evs,
             acq_evs = [] \/ acquisition_events name acq_evs ->
             ~ In EResample acq_evs
             /\ base_flags acq_evs = frozen_flags (length (base_flags acq_evs))).
  { intros acq_evs [->|(bases & -> & Hall & Hfl)]; [split; [intros []|reflexivity]|].
    rewrite Hnd. simpl. split; [apply bases_never_resample; exact Hall|].
    rewrite (base_flags_bases bases Hall). exact Hfl. }
  assert (Hfit_shape : forall fits,
             fits = [] \/ (exists n, fits = [EFit name n]) ->
             ~ In EResample fits /\ base_flags fits = []).
  { intros fits [->|[n ->]]; (split; [|reflexivity]); simpl; intuition discriminate. }
  destruct Hspec
    as (fits & acq_evs & Hfits & Hacq & [[Hr ->]|(new_x & new_y & Hr & Ht & _ & ->)]).
  - exists (ECreate iteration name :: fits ++ acq_evs).
    destruct (Hacq_shape acq_evs Hacq) as [Ha1 Ha2].
    destruct (Hfit_shape fits Hfits) as [Hf1 Hf2].
    split; [reflexivity|]. split.
    + intros [Hin|Hin]; [discriminate|]. apply in_app_or in Hin. tauto.
    + change (base_flags (ECreate iteration name :: fits ++ acq_evs))
        with (base_flags (fits ++ acq_evs)).
      unfold base_flags in *. rewrite omap_app, Hf2. simpl. exact Ha2.
  - eexists. split.
    { rewrite trace_with_events, trace_append_observation, trace_with_name. reflexivity. }
    destruct (Hacq_shape acq_evs Hacq) as [Ha1 Ha2].
    destruct (Hfit_shape fits Hfits) as [Hf1 Hf2].
    split.
    + intros [Hin|Hin]; [discriminate|].
      apply in_app_or in Hin as [Hin|Hin]; [tauto|].
      apply in_app_or in Hin as [Hin|Hin]; [tauto|].
      simpl in Hin. intuition discriminate.
    + match goal with
      | |- base_flags (ECreate _ _ :: ?l) = _ =>
          change (base_flags (ECreate iteration name :: l)) with (base_flags l)
      end.
      unfold base_flags in *. rewrite !omap_app, Hf2. simpl. rewrite app_nil_r. exact Ha2.
Qed.

(** The loop, seen from outside: the observations it appends and the best
    values it logs. *)
Lemma for_each_observations (target_function : point -> res float) (bo_args : BOArguments)
    (sched : Schedule) (fit_args : FitArguments) (start : string)
    (its : list nat) (st : bo_state) :
  let run := for_each its (bo_iteration target_function bo_args sched fit_args start) st in
  exists evs,
    trace (snd run) = trace st ++ evs
    /\ bo_x (snd run) = bo_x st ++ map fst (observed evs)
    /\ bo_y (snd run) = bo_y st ++ map snd (observed evs)
    /\ Forall (fun xy => target_function (fst xy) = Ok (snd xy)) (observed evs)
    /\ length (observed evs) <= length its
    /\ (is_ok (fst run) = true -> length (observed evs) = length its)
    /\ (is_ok (fst run) = false -> length (observed evs) < length its)
    /\ length (logged evs) = length (observed evs)
    /\ improves (best_y st) (map snd (logged evs))
    /\ last (best_y st :: map snd (logged evs)) = Some (best_y (snd run)).
Proof.
  cbv zeta. revert st. induction its as [|i its IH]; intros st.
  - exists []. simpl. rewrite !app_nil_r. repeat split; auto; discriminate.
  - simpl. unfold bindM.
    pose proof (bo_iteration_summary target_function bo_args sched fit_args start i st) as Hs.
    cbv zeta in Hs.
    destruct (bo_iteration target_function bo_args sched fit_args start i st) as [r1 st1].
    simpl in Hs.
    destruct Hs as (_ & evs1 & Htr & [(Hr & Hx & Hy & _ & Hb & Ho & Hl)
                                    |(nx & ny & Hr & Ht & Hx & Hy & _ & Hb & Ho & Hl)]).
    + destruct r1 as [[]|e]; [discriminate Hr|]. simpl.
      exists (ECreate i (switch_model (switch_to_deep_iter sched) start (Z.of_nat i)
                          (Run.model_name st)) :: evs1).
      change (observed (ECreate ?a ?b :: evs1)) with (observed evs1).
      change (logged (ECreate ?a ?b :: evs1)) with (logged evs1).
      rewrite Ho, Hl. simpl. rewrite !app_nil_r.
      repeat split; auto; try discriminate; try lia. congruence.
    + subst r1.
      destruct (IH st1) as (evs & Htr' & Hx' & Hy' & Hall & Hle & Hok & Hko & Hlen & Himp & Hlast).
      destruct (for_each its (bo_iteration target_function bo_args sched fit_args start) st1)
        as [r st2]. simpl in *.
      exists ((ECreate i (switch_model (switch_to_deep_iter sched) start (Z.of_nat i)
                          (Run.model_name st)) :: evs1) ++ evs).
      rewrite observed_app, logged_app.
      change (observed (ECreate ?a ?b :: evs1)) with (observed evs1).
      change (logged (ECreate ?a ?b :: evs1)) with (logged evs1).
      rewrite Ho, Hl. simpl.
      rewrite Htr', Htr, Hx', Hx, Hy', Hy, <- !app_assoc. simpl.
      split; [reflexivity|]. split; [reflexivity|]. split; [reflexivity|].
      split; [constructor; assumption|]. split; [lia|].
      split; [intros H; specialize (Hok H); lia|].
      split; [intros H; specialize (Hko H); lia|].
      split; [lia|]. split; [split; [|exact Himp]|].
      * rewrite Hb. destruct (flt ny (best_y st)) eqn:E; auto.
      * destruct (map snd (logged evs)); exact Hlast.
Qed.

(** X8 (run.py, [run_bo]): the initial data stay the prefix of the
    observations; every completed iteration appends exactly one point and
    the objective value at it, in the order of the [EObserve] events; a run
    that returns has appended [num_iter] observations, and a run that
    raises has kept the observations of the iterations that completed, which
    are fewer. *)
Theorem run_bo_appends_observations (initial_data : list point)
    (target_function : point -> res float) (bo_args : BOArguments) (sched : Schedule)
    (start : string) (fit_args : FitArguments) (r : res unit) (st : bo_state) :
  run_bo initial_data target_function bo_args sched start fit_args = Finished r st ->
  exists y0,
    observe_all target_function initial_data = Ok y0
    /\ bo_x st = initial_data ++ map fst (observed (trace st))
    /\ bo_y st = y0 ++ map snd (observed (trace st))
    /\ Forall (fun xy => target_function (fst xy) = Ok (snd xy)) (observed (trace st))
    /\ (is_ok r = true -> length (observed (trace st)) = Z.to_nat (num_iter bo_args))
    /\ (is_ok r = false -> length (observed (trace st)) < Z.to_nat (num_iter bo_args)).
Proof.
  unfold run_bo. intros Hrun.
  destruct (run_bo_init initial_data target_function start) as [st0|e] eqn:Hinit;
    [|discriminate].
  apply run_bo_init_ok in Hinit as (Hx0 & _ & Hy0 & _ & _ & Ht0 & _).
  pose proof (for_each_observations target_function bo_args sched fit_args start
                (seq 0 (Z.to_nat (num_iter bo_args))) st0) as Hloop. cbv zeta in Hloop.
  destruct (for_each _ _ st0) as [r' st'] eqn:E. inversion Hrun; subst r' st'. simpl in Hloop.
  destruct Hloop as (evs & Htr & Hx & Hy & Hall & _ & Hok & Hko & _).
  rewrite Ht0 in Htr. simpl in Htr. rewrite length_seq in Hok, Hko.
  rewrite Hx0 in Hx. exists (bo_y st0). rewrite Htr. tauto.
Qed.

(** X9 (run.py, lines 23-26): [run_bo] fails before its first iteration
    exactly when there are no initial data (the reductions of an empty
    tensor raise) or the objective raises on one of the initial points. *)
Theorem run_bo_init_failure (initial_data : list point)
    (target_function : point -> res float) (bo_args : BOArguments) (sched : Schedule)
    (start : string) (fit_args : FitArguments) :
  (exists e, run_bo initial_data target_function bo_args sched start fit_args = InitFailed e)
  <-> initial_data = []
      \/ exists p, In p initial_data /\ is_ok (target_function p) = false.
Proof.
  unfold run_bo. split.
  - intros [e He].
    destruct (run_bo_init initial_data target_function start) as [st0|e0] eqn:Hinit.
    { destruct (for_each _ _ st0). discriminate He. }
    destruct initial_data as [|p0 x]; [left; reflexivity|right].
    apply observe_all_raises.
    destruct (observe_all target_function (p0 :: x)) as [y|e1] eqn:Hy; [|reflexivity].
    assert (Hne : p0 :: x <> []) by discriminate.
    pose proof (run_bo_init_returns (p0 :: x) target_function start y Hne Hy) as Hok.
    rewrite Hinit in Hok. discriminate Hok.
  - intros Hbad.
    destruct (run_bo_init initial_data target_function start) as [st0|e0] eqn:Hinit; [|eauto].
    apply run_bo_init_ok in Hinit as (_ & Hne & Hy & _).
    destruct Hbad as [->|Hbad]; [contradiction|].
    apply observe_all_raises in Hbad. rewrite Hy in Hbad. discriminate Hbad.
Qed.

(** The tracked best value is one of the observed values, and the tracked
    best point is an observed point whose value the order of the
    reductions does not tell apart from the best value. *)
Definition best_is_observed (s : bo_state) : Prop :=
  length (bo_x s) = length (bo_y s)
  /\ best_y s ∈ bo_y s
  /\ exists i v, bo_x s !! i = Some (best_x s) /\ bo_y s !! i = Some v
                 /\ same_value v (best_y s).

Lemma bo_iteration_best_is_observed (target_function : point -> res float)
    (bo_args : BOArguments) (sched : Schedule) (fit_args : FitArguments) (start : string)
    (iteration : nat) (s : bo_state) :
  best_is_observed s ->
  best_is_observed (snd (bo_iteration target_function bo_args sched fit_args start iteration s)).
Proof.
  intros (Hlen & Hin & j & v & Hjx & Hjy & Hsame). unfold best_is_observed.
  pose proof (bo_iteration_summary target_function bo_args sched fit_args start iteration s)
    as Hs. cbv zeta in Hs.
  destruct Hs as (_ & evs1 & _ & [(_ & Hx & Hy & Hbx & Hby & _)
                                 |(nx & ny & _ & _ & Hx & Hy & Hbx & Hby & _)]);
    rewrite Hx, Hy, Hbx, Hby.
  - split; [exact Hlen|]. split; [exact Hin|]. exists j, v. auto.
  - split; [rewrite !length_app, Hlen; reflexivity|].
    destruct (flt ny (best_y s)).
    + split; [apply elem_of_app; right; apply elem_of_cons; left; reflexivity|].
      exists (length (bo_x s)), ny. split.
      * rewrite lookup_app_r, Nat.sub_diag by lia. reflexivity.
      * split; [rewrite Hlen, lookup_app_r, Nat.sub_diag by lia; reflexivity|].
        apply same_value_refl.
    + split; [apply elem_of_app; left; exact Hin|].
      exists j, v. split; [apply lookup_app_l_Some; assumption|].
      split; [apply lookup_app_l_Some; assumption|exact Hsame].
Qed.

(** X10 (run.py, lines 25-26 and 83-85): whatever the observed values are,
    NaN included, the run starts from the result of [y.min()] as its best
    value and the row at [y.argmin()] as its best point; the logged best
    value only ever changes to a strictly smaller value; one best value is
    logged per observation, and the last logged value is the best value the
    run ends with.  That value is one of the observed values, and the best
    point is an observed point whose value equals it: both are NaN, or
    they are numbers that compare equal.  (The two need not stand at one
    index: [y.min()] and [y.argmin()] are separate reductions, and of the
    two zeros, which compare equal, each may return another.) *)
Theorem best_value_never_worsens (initial_data : list point)
    (target_function : point -> res float) (bo_args : BOArguments) (sched : Schedule)
    (start : string) (fit_args : FitArguments) (r : res unit) (st : bo_state) :
  run_bo initial_data target_function bo_args sched start fit_args = Finished r st ->
  exists y0 b0,
    observe_all target_function initial_data = Ok y0 /\ tmin y0 = Ok b0
    /\ improves b0 (map snd (logged (trace st)))
    /\ last (b0 :: map snd (logged (trace st))) = Some (best_y st)
    /\ length (logged (trace st)) = length (observed (trace st))
    /\ best_y st ∈ bo_y st
    /\ exists i v, bo_x st !! i = Some (best_x st) /\ bo_y st !! i = Some v
                   /\ same_value v (best_y st).
Proof.
  unfold run_bo. intros Hrun.
  destruct (run_bo_init initial_data target_function start) as [st0|e] eqn:Hinit;
    [|discriminate].
  apply run_bo_init_ok in Hinit as (Hx0 & _ & Hy0 & Hb0 & _ & Ht0 & Hin0 & Hbest0).
  assert (Hp0 : best_is_observed st0).
  { split; [|split; [exact Hin0|exact Hbest0]].
    rewrite Hx0. symmetry. eapply observe_all_length; eassumption. }
  pose proof (for_each_observations target_function bo_args sched fit_args start
                (seq 0 (Z.to_nat (num_iter bo_args))) st0) as Hloop. cbv zeta in Hloop.
  pose proof (for_each_invariant best_is_observed
                (bo_iteration target_function bo_args sched fit_args start)
                (fun i s => bo_iteration_best_is_observed target_function bo_args sched
                              fit_args start i s)
                (seq 0 (Z.to_nat (num_iter bo_args))) st0 Hp0) as Hinv.
  destruct (for_each _ _ st0) as [r' st'] eqn:E. inversion Hrun; subst r' st'.
  simpl in Hloop, Hinv.
  destruct Hloop as (evs & Htr & _ & _ & _ & _ & _ & _ & Hlen & Himp & Hlast).
  rewrite Ht0 in Htr. simpl in Htr. rewrite Htr.
  exists (bo_y st0), (best_y st0). destruct Hinv as (_ & Hin & Hbest). tauto.
Qed.

Lemma for_each_agree (P : bo_state -> Prop) (body1 body2 : nat -> M bo_state unit) :
  (forall i st, P st -> body1 i st = body2 i st) ->
  (forall i st, P st -> P (snd (body1 i st))) ->
  forall its st, P st -> for_each its body1 st = for_each its body2 st.
Proof.
  intros Heq Hstep. induction its as [|i its IH]; intros st HP; simpl; [reflexivity|].
  unfold bindM. rewrite <- (Heq i st HP). specialize (Hstep i st HP).
  destruct (body1 i st) as [[[]|e] st1]; simpl in *; [apply IH; assumption|reflexivity].
Qed.

Lemma last_dim_app (x : list point) (p : point) :
  x <> [] -> last_dim (x ++ [p]) = last_dim x.
Proof. destruct x; [contradiction|reflexivity]. Qed.

(** X11 (run.py, line 42): the k-means centres are used by the width of a
    point, [x.shape[-1]], not by the number of observations: when the
    points are no wider than [kmeans_inducing_num], a run with
    [kmeans_inducing] set is the run without it, however many observations
    it accumulates. *)
Theorem kmeans_by_point_width (initial_data : list point)
    (target_function : point -> res float) (bo_args : BOArguments) (sched : Schedule)
    (start : string) (fit_args : FitArguments) :
  (last_dim initial_data <= kmeans_inducing_num sched)%Z ->
  run_bo initial_data target_function bo_args sched start fit_args
  = run_bo initial_data target_function bo_args (without_kmeans sched) start fit_args.
Proof.
  intros Hw. unfold run_bo.
  destruct (run_bo_init initial_data target_function start) as [st0|e] eqn:Hinit;
    [|reflexivity].
  apply run_bo_init_ok in Hinit as (Hx0 & Hne & _).
  rewrite (for_each_agree
             (fun s => bo_x s <> [] /\ last_dim (bo_x s) = last_dim initial_data)
             (bo_iteration target_function bo_args sched fit_args start)
             (bo_iteration target_function bo_args (without_kmeans sched) fit_args start)).
  - reflexivity.
  - intros i s [_ Hd]. unfold bo_iteration, without_kmeans. unfold bindM at 1 3.
    unfold get at 1 2. simpl.
    replace (kmeans_inducing_num sched <? last_dim (bo_x s))%Z with false
      by (symmetry; apply Z.ltb_ge; rewrite Hd; exact Hw).
    rewrite andb_false_r. reflexivity.
  - intros i s [Hn Hd].
    pose proof (bo_iteration_summary target_function bo_args sched fit_args start i s) as Hs.
    cbv zeta in Hs.
    destruct Hs as (_ & evs1 & _ & [(_ & Hx & _)|(nx & ny & _ & _ & Hx & _)]); rewrite Hx.
    + split; assumption.
    + split; [intros Happ; apply app_eq_nil in Happ as [_ Hnil]; discriminate Hnil|].
      rewrite last_dim_app by exact Hn. exact Hd.
  - rewrite Hx0. split; [exact Hne|reflexivity].
Qed.

Lemma switch_model_without_deep (switch : option Z) (start : string) (i : nat) :
  start <> "deep" ->
  switch_model switch start (Z.of_nat i)
    (if Nat.eqb i 0 then start else family_without_deep switch start)
  = family_without_deep switch start.
Proof.
  intros Hs. apply String.eqb_neq in Hs. unfold switch_model, family_without_deep.
  rewrite Hs. destruct switch as [k|].
  - destruct (Z.of_nat i <? k)%Z eqn:Ei.
    + destruct (0 <? k)%Z eqn:Ek; [reflexivity|].
      apply Z.ltb_lt in Ei. apply Z.ltb_ge in Ek. lia.
    + destruct (Nat.eqb i 0) eqn:E0; [|reflexivity].
      apply Nat.eqb_eq in E0. subst i.
      destruct (0 <? k)%Z eqn:Ek; [|reflexivity].
      change (Z.of_nat 0) with 0%Z in Ei. congruence.
  - destruct (Nat.eqb i 0); reflexivity.
Qed.

Lemma for_each_without_deep (target_function : point -> res float) (bo_args : BOArguments)
    (sched : Schedule) (fit_args : FitArguments) (start : string) (n i0 : nat)
    (st : bo_state) :
  start <> "deep" ->
  Run.model_name st
  = (if Nat.eqb i0 0 then start else family_without_deep (switch_to_deep_iter sched) start) ->
  let run :=
    for_each (seq i0 n) (bo_iteration target_function bo_args sched fit_args start) st in
  exists m,
    m <= n
    /\ created (trace (snd run))
       = created (trace st)
           ++ map (fun i => (i, family_without_deep (switch_to_deep_iter sched) start))
                  (seq i0 m)
    /\ (is_ok (fst run) = true -> m = n)
    /\ Run.model_name (snd run)
       = (if Nat.eqb n 0 then Run.model_name st
          else family_without_deep (switch_to_deep_iter sched) start).
Proof.
  intros Hs. cbv zeta. revert i0 st. induction n as [|n IH]; intros i0 st Hname.
  - exists 0. simpl. rewrite app_nil_r. repeat split; auto.
  - simpl. unfold bindM.
    pose proof (bo_iteration_summary target_function bo_args sched fit_args start i0 st) as Hsum.
    pose proof (bo_iteration_created target_function bo_args sched fit_args start i0 st) as Hc.
    cbv zeta in Hsum. rewrite Hname, (switch_model_without_deep _ _ _ Hs) in Hsum, Hc.
    destruct (bo_iteration target_function bo_args sched fit_args start i0 st) as [r1 st1].
    simpl in Hsum, Hc. destruct Hsum as (Hn1 & _).
    destruct r1 as [[]|e]; simpl.
    + destruct (IH (S i0) st1) as (m & Hle & Hcr & Hok & Hnm); [exact Hn1|].
      destruct (for_each (seq (S i0) n) _ st1) as [r st2]. simpl in *.
      exists (S m). split; [lia|]. split.
      { rewrite Hcr, Hc, <- app_assoc. reflexivity. }
      split; [intros H; specialize (Hok H); lia|].
      rewrite Hnm. destruct (Nat.eqb n 0); [exact Hn1|reflexivity].
    + exists 1. split; [lia|]. split; [exact Hc|]. split; [discriminate|exact Hn1].
Qed.

(** X12 (run.py, lines 28-39): a run that does not start on "deep" never
    asks for "deep"; it asks for one family at every iteration: "exact"
    when the schedule switches at an iteration after the first one,
    whatever the start name is, and the start name otherwise; after the
    first iteration [model_args.model_name] holds that family. *)
Theorem run_without_deep_start (initial_data : list point)
    (target_function : point -> res float) (bo_args : BOArguments) (sched : Schedule)
    (start : string) (fit_args : FitArguments) (r : res unit) (st : bo_state) :
  start <> "deep" ->
  run_bo initial_data target_function bo_args sched start fit_args = Finished r st ->
  let family := family_without_deep (switch_to_deep_iter sched) start in
  exists n,
    n <= Z.to_nat (num_iter bo_args)
    /\ created (trace st) = map (fun i => (i, family)) (seq 0 n)
    /\ (is_ok r = true -> n = Z.to_nat (num_iter bo_args))
    /\ ((0 < num_iter bo_args)%Z -> Run.model_name st = family).
Proof.
  intros Hs Hrun. cbv zeta. unfold run_bo in Hrun.
  destruct (run_bo_init initial_data target_function start) as [st0|e] eqn:Hinit;
    [|discriminate].
  apply run_bo_init_ok in Hinit as (_ & _ & _ & _ & Hn0 & Ht0 & _).
  pose proof (for_each_without_deep target_function bo_args sched fit_args start
                (Z.to_nat (num_iter bo_args)) 0 st0 Hs Hn0) as Hloop. cbv zeta in Hloop.
  destruct (for_each _ _ st0) as [r' st'] eqn:E. inversion Hrun; subst r' st'.
  simpl in Hloop. destruct Hloop as (m & Hle & Hcr & Hok & Hnm).
  rewrite Ht0 in Hcr. simpl in Hcr.
  exists m. split; [exact Hle|]. split; [exact Hcr|]. split; [exact Hok|].
  intros Hpos. rewrite Hnm.
  destruct (Nat.eqb (Z.to_nat (num_iter bo_args)) 0) eqn:E0; [|reflexivity].
  apply Nat.eqb_eq in E0. lia.
Qed.

(** An iteration on a family that is neither "exact" nor "deep": the model
    is created, and the fitting step raises. *)
Lemma bo_iteration_unknown_family (target_function : point -> res float)
    (bo_args : BOArguments) (sched : Schedule) (fit_args : FitArguments) (start : string)
    (iteration : nat) (st : bo_state) :
  let name := switch_model (switch_to_deep_iter sched) start (Z.of_nat iteration)
                           (Run.model_name st) in
  name <> "exact" -> name <> "deep" ->
  exists e,
    bo_iteration target_function bo_args sched fit_args start iteration st
    = (Raise e, with_events (with_name st name) [ECreate iteration name])
    /\ ((forall x y ip, is_ok (create_base name x y ip) = true) ->
        (forall b l, is_ok (optimizer_factory b l) = true) ->
        (forall b y, is_ok (mll_factory b y) = true) ->
        e = ValueError ("Unknown model name: " +:+ name)).
Proof.
  intros name He Hd.
  apply String.eqb_neq in He. apply String.eqb_neq in Hd.
  unfold bo_iteration.
  unfold bindM at 1. unfold get at 1.
  unfold bindM at 1. unfold set_model_name at 1. unfold modify at 1.
  unfold bindM at 1. unfold emit at 1. unfold modify at 1.
  simpl. fold name.
  change (MkState (bo_x st) (bo_y st) (best_x st) (best_y st) name
                  (trace st ++ [ECreate iteration name]))
    with (with_events (with_name st name) [ECreate iteration name]).
  set (st1 := with_events (with_name st name) [ECreate iteration name]).
  unfold bindM at 1. unfold lift at 1.
  destruct (create_base name (bo_x st) (bo_y st) _) as [base|e] eqn:Hc.
  2:{ exists e. split; [reflexivity|]. intros H1 _ _. specialize (H1 (bo_x st) (bo_y st)).
      match type of Hc with create_base _ _ _ ?ip = _ => specialize (H1 ip) end.
      rewrite Hc in H1. discriminate H1. }
  unfold bindM at 1. unfold lift at 1.
  destruct (optimizer_factory base (lr fit_args)) as [optimizer|e] eqn:Ho.
  2:{ exists e. split; [reflexivity|]. intros _ H2 _. specialize (H2 base (lr fit_args)).
      rewrite Ho in H2. discriminate H2. }
  unfold bindM at 1. unfold lift at 1.
  destruct (mll_factory base (bo_y st)) as [mll|e] eqn:Hm.
  2:{ exists e. split; [reflexivity|]. intros _ _ H3. specialize (H3 base (bo_y st)).
      rewrite Hm in H3. discriminate H3. }
  unfold bindM at 1. unfold fit_model. rewrite He, Hd. unfold raise.
  exists (ValueError ("Unknown model name: " +:+ name)). split; reflexivity.
Qed.

(** X13 (run.py, lines 47-61): with a start name that is neither "exact"
    nor "deep" and no schedule that puts "exact" in its place, the first
    iteration creates the model and raises before it fits or queries it;
    the run ends there with the initial data as its only observations, and
    the error is the ValueError of the fitting step whenever the model, the
    optimiser and the likelihood can be built for that name. *)
Theorem run_bo_unknown_family (initial_data : list point)
    (target_function : point -> res float) (bo_args : BOArguments) (sched : Schedule)
    (start : string) (fit_args : FitArguments) (r : res unit) (st : bo_state) :
  start <> "exact" -> start <> "deep" ->
  match switch_to_deep_iter sched with Some k => (k <= 0)%Z | None => True end ->
  (0 < num_iter bo_args)%Z ->
  run_bo initial_data target_function bo_args sched start fit_args = Finished r st ->
  is_ok r = false
  /\ bo_x st = initial_data
  /\ trace st = [ECreate 0 start]
  /\ ((forall x y ip, is_ok (create_base start x y ip) = true) ->
      (forall b l, is_ok (optimizer_factory b l) = true) ->
      (forall b y, is_ok (mll_factory b y) = true) ->
      r = Raise (ValueError ("Unknown model name: " +:+ start))).
Proof.
  intros He Hd Hk Hpos Hrun. unfold run_bo in Hrun.
  destruct (run_bo_init initial_data target_function start) as [st0|e] eqn:Hinit;
    [|discriminate].
  apply run_bo_init_ok in Hinit as (Hx0 & _ & _ & _ & Hn0 & Ht0 & _).
  destruct (Z.to_nat (num_iter bo_args)) as [|n] eqn:En; [lia|].
  simpl in Hrun. unfold bindM in Hrun.
  assert (Hname : switch_model (switch_to_deep_iter sched) start (Z.of_nat 0)
                               (Run.model_name st0) = start).
  { unfold switch_model. rewrite Hn0.
    apply String.eqb_neq in Hd. rewrite Hd.
    destruct (switch_to_deep_iter sched) as [k|]; [|reflexivity].
    replace (Z.of_nat 0 <? k)%Z with false; [reflexivity|].
    symmetry. apply Z.ltb_ge. simpl. exact Hk. }
  pose proof (bo_iteration_unknown_family target_function bo_args sched fit_args start 0 st0)
    as Hit. cbv zeta in Hit. rewrite Hname in Hit.
  destruct (Hit He Hd) as (e & Heq & Herr). rewrite Heq in Hrun.
  inversion Hrun; subst r st. simpl.
  rewrite Ht0. repeat split; try assumption.
  intros H1 H2 H3. rewrite (Herr H1 H2 H3). reflexivity.
Qed.

End Loop.

End LoopFacts.

(* ===================================================================== *)
(** ** More facts about configurations and the reader
       (experiment_utils/reproducibility.py,
       notebooks/experiments/run_experiments.py) *)
(* ===================================================================== *)

Module ConfigFacts.
Import Model Reproducibility ModelFacts ReproFacts.

Lemma dict_set_twice (k : string) (v v' : json) (d : dict) :
  dict_set k v (dict_set k v' d) = dict_set k v d.
Proof.
  induction d as [|[k' w] d IH]; simpl.
  - rewrite String.eqb_refl. reflexivity.
  - destruct (String.eqb k k') eqn:E; simpl.
    + rewrite String.eqb_refl. reflexivity.
    + rewrite E, IH. reflexivity.
Qed.

Lemma check_keywords_ok (fields : list string) (d : dict) :
  check_keywords fields d = Ok tt -> Forall (fun kv => In (fst kv) fields) d.
Proof.
  unfold check_keywords.
  destruct (List.find _ d) as [[k v]|] eqn:Hf; [discriminate|]. intros _.
  apply Forall_forall. intros kv Hin. apply list_elem_of_In in Hin.
  pose proof (find_none _ _ Hf kv Hin) as Hn. simpl in Hn.
  apply negb_false_iff, existsb_exists in Hn as (f & Hfin & Heq).
  apply String.eqb_eq in Heq. rewrite Heq. exact Hfin.
Qed.

Lemma dict_item_ok (k : string) (d : dict) (v : json) :
  dict_item k d = Ok v -> dict_get k d = Some v.
Proof. unfold dict_item. destruct (dict_get k d); [intros [= <-]; reflexivity|discriminate]. Qed.

Lemma status_of_value_ok (j : json) (s : ExperimentStatus) :
  status_of_value j = Ok s -> j = JStr (status_value s).
Proof.
  destruct j as [| | | |v| |]; simpl; try discriminate.
  destruct (String.eqb v "ready") eqn:E1;
    [apply String.eqb_eq in E1; subst v; intros [= <-]; reflexivity|].
  destruct (String.eqb v "running") eqn:E2;
    [apply String.eqb_eq in E2; subst v; intros [= <-]; reflexivity|].
  destruct (String.eqb v "failed") eqn:E3;
    [apply String.eqb_eq in E3; subst v; intros [= <-]; reflexivity|].
  destruct (String.eqb v "completed") eqn:E4;
    [apply String.eqb_eq in E4; subst v; intros [= <-]; reflexivity|].
  discriminate.
Qed.

(** X14 (reproducibility.py, [ExperimentStatus]): a status is looked up by
    its value; the lookup accepts exactly the four strings that
    [status.value] produces, each for its own status, and nothing else. *)
Theorem status_values_exact (j : json) (s : ExperimentStatus) :
  status_of_value j = Ok s <-> j = JStr (status_value s).
Proof.
  split.
  - apply status_of_value_ok.
  - intros ->. apply status_rebuilds.
Qed.

Section Config.
Context {DataArguments TrainingArguments : Type}.
Context {HD : Dataclass DataArguments} {HT : Dataclass TrainingArguments}.

Abbreviation Config := (ExperimentConfig DataArguments TrainingArguments).

(** X15 (reproducibility.py, [ExperimentConfig.from_dict]): the status is
    looked up first, so a dictionary without it raises KeyError('status')
    whatever else it holds; a dictionary that builds a configuration has
    the status as one of the four status strings, has the three argument
    dictionaries, each accepted by its dataclass, and has no key that is
    not a field; without the keys 'run' and 'file_name' the configuration
    gets run 0 and the file name 'config.json'. *)
Theorem from_dict_requirements (d : dict) :
  (dict_get "status" d = None -> @from_dict DataArguments TrainingArguments _ _ d
                                 = Raise (KeyError "status"))
  /\ (forall c : Config,
        from_dict d = Ok c ->
        dict_get "status" d = Some (JStr (status_value (status c)))
        /\ (exists jm, dict_get "model_arguments" d = Some jm
                       /\ ModelArguments_of jm = Ok (model_arguments c))
        /\ (exists jd, dict_get "data_arguments" d = Some jd
                       /\ of_keywords jd = Ok (data_arguments c))
        /\ (exists jt, dict_get "training_arguments" d = Some jt
                       /\ of_keywords jt = Ok (training_arguments c))
        /\ Forall (fun kv => In (fst kv) ExperimentConfig_fields) d
        /\ (dict_get "run" d = None -> run c = 0%Z)
        /\ (dict_get "file_name" d = None -> file_name c = "config.json")).
Proof.
  split.
  - intros Hs. unfold from_dict, dict_item. rewrite Hs. reflexivity.
  - intros c. unfold from_dict.
    destruct (dict_item "status" d) as [js|] eqn:H1; cbn [res_bind]; [|discriminate].
    destruct (status_of_value js) as [st|] eqn:H2; cbn [res_bind]; [|discriminate].
    destruct (dict_item "model_arguments" d) as [jm|] eqn:H3; cbn [res_bind]; [|discriminate].
    destruct (ModelArguments_of jm) as [ma|] eqn:H4; cbn [res_bind]; [|discriminate].
    destruct (dict_item "data_arguments" d) as [jd|] eqn:H5; cbn [res_bind]; [|discriminate].
    destruct (of_keywords jd) as [da|] eqn:H6; cbn [res_bind]; [|discriminate].
    destruct (dict_item "training_arguments" d) as [jt|] eqn:H7; cbn [res_bind];
      [|discriminate].
    destruct (of_keywords jt) as [ta|] eqn:H8; cbn [res_bind]; [|discriminate].
    destruct (check_keywords ExperimentConfig_fields d) as [[]|] eqn:H9; cbn [res_bind];
      [|discriminate].
    destruct (kw_int "run" 0 d) as [r|] eqn:H10; cbn [res_bind]; [|discriminate].
    destruct (kw_str "file_name" "config.json" d) as [fn|] eqn:H11; cbn [res_bind];
      [|discriminate].
    intros [= <-]. simpl.
    apply status_of_value_ok in H2. subst js.
    apply dict_item_ok in H1, H3, H5, H7.
    split; [exact H1|]. split; [eauto|]. split; [eauto|]. split; [eauto|].
    split; [exact (check_keywords_ok ExperimentConfig_fields d H9)|]. split.
    + intros Hr. unfold kw_int in H10. rewrite Hr in H10. congruence.
    + intros Hf. unfold kw_str in H11. rewrite Hf in H11. congruence.
Qed.

Lemma from_json_files (path : string) (fs : files) :
  snd (@from_json DataArguments TrainingArguments _ _ path fs) = fs.
Proof. unfold from_json. unfold_monad. repeat case_match; reflexivity. Qed.

(** X16 (reproducibility.py, [ExperimentConfig.from_json]): reading never
    changes a file; a path that names no file raises FileNotFoundError; the
    configuration read has the base name of the path as its file name, and
    a 'file_name' entry of the document is overwritten before the
    configuration is built, so it has no effect. *)
Theorem from_json_reads_only (path : string) (fs : files) :
  snd (@from_json DataArguments TrainingArguments _ _ path fs) = fs
  /\ (fs !! path = None ->
      fst (@from_json DataArguments TrainingArguments _ _ path fs)
      = Raise (FileNotFoundError path))
  /\ (forall c : Config,
        fst (from_json path fs) = Ok c -> file_name c = os_path_basename path)
  /\ (forall (d : dict) (v : json),
        fst (@from_json DataArguments TrainingArguments _ _ path
               (<[path := JObj (dict_set "file_name" v d)]> fs))
        = fst (@from_json DataArguments TrainingArguments _ _ path
                 (<[path := JObj d]> fs))).
Proof.
  split; [|split; [|split]].
  - apply from_json_files.
  - intros Hn. unfold from_json, files in *. unfold_monad. rewrite Hn. reflexivity.
  - intros c Hc.
    destruct (from_json path fs) as [r fs'] eqn:E. simpl in Hc. subst r.
    exact (proj2 (from_json_spec _ _ _ _ E)).
  - intros d v. unfold from_json, files. unfold_monad.
    rewrite !lookup_insert_eq. simpl. rewrite dict_set_twice.
    destruct (from_dict _); reflexivity.
Qed.

Section Reader.
Context {E : Type} {HE : @Experiment DataArguments TrainingArguments E}.

(** X17 (run_experiments.py, [main], with [__enter__] and [__exit__]): a
    configuration found with status RUNNING (left by a process that did
    not finish) is not written by [__enter__], yet [main] runs the
    experiment on it, whatever [overwrite] is, and [__exit__] records the
    outcome. *)
Theorem running_status_runs_again (dir_path config_file_name : string) (overwrite : bool)
    (fs : files) (e : E) (c : Config) :
  let file_path := os_path_join dir_path config_file_name in
  os_path_join (os_path_dirname file_path) (os_path_basename file_path) = file_path ->
  open_w file_path = Ok tt ->
  from_json file_path fs = (Ok c, fs) ->
  status c = RUNNING ->
  enter file_path overwrite fs = (Ok c, fs)
  /\ let '(r, (_, fs2, e2)) :=
       run_experiment c dir_path (c, fs, seed_everything (seed c) e) in
     let final := if is_ok r then COMPLETED else FAILED in
     main dir_path overwrite config_file_name (fs, e)
     = (r, (<[file_path := JObj (to_dict (set_status final c))]> fs2, e2)).
Proof.
  intros file_path Hnorm Hopen Hread Hst.
  destruct (from_json_spec _ _ _ _ Hread) as [_ Hname].
  assert (Henter : enter file_path overwrite fs = (Ok c, fs)).
  { unfold enter. unfold bindM at 1. rewrite Hread, Hst. reflexivity. }
  split; [exact Henter|].
  pose proof (run_experiment_config c c dir_path fs (seed_everything (seed c) e)) as Hcfg.
  destruct (run_experiment c dir_path (c, fs, seed_everything (seed c) e))
    as [r [[c2 fs2] e2]] eqn:Hrun.
  simpl in Hcfg. subst c2.
  unfold main, with_reader. fold file_path. rewrite Henter.
  unfold bindM at 1. unfold get at 1. cbn [fst].
  rewrite Hst. replace (status_eqb RUNNING RUNNING) with true by reflexivity.
  unfold bindM at 1. unfold set_experiment_seed at 1. unfold modify at 1.
  rewrite Hrun. unfold exit. rewrite Hst.
  replace (status_eqb RUNNING RUNNING) with true by reflexivity.
  rewrite (update_status_spec file_path _ c fs2 Hnorm Hopen Hname).
  destruct r; reflexivity.
Qed.

(** X18 (run_experiments.py, [main]): when the configuration cannot be
    read (no file at the path, or a document that builds no
    configuration), [main] raises the error of the reading; nothing is
    seeded or run, and no file is written. *)
Theorem unreadable_config_runs_nothing (dir_path config_file_name : string)
    (overwrite : bool) (fs : files) (e : E) (x : exn) :
  fst (@from_json DataArguments TrainingArguments _ _
         (os_path_join dir_path config_file_name) fs) = Raise x ->
  main dir_path overwrite config_file_name (fs, e) = (Raise x, (fs, e)).
Proof.
  intros Hread.
  pose proof (from_json_files (os_path_join dir_path config_file_name) fs) as Hfs.
  destruct (from_json (os_path_join dir_path config_file_name) fs) as [r fs'] eqn:E0.
  simpl in Hread, Hfs. subst r fs'.
  unfold main, with_reader, enter. unfold bindM at 1. rewrite E0. reflexivity.
Qed.

(** X19 (run_experiments.py, [run_experiment] under [main], with
    [create_model]): a configuration with an unknown model name (and an
    output-scale mean that is not zero) is started, its data are loaded,
    and the run stops at [create_model]: nothing is trained, the file
    records FAILED, and [main] raises the ValueError that names the
    model. *)
Theorem unknown_model_is_recorded_failed (dir_path config_file_name : string)
    (overwrite : bool) (fs fs1 : files) (e e1 : E) (c : Config) (sets : data_t) :
  let file_path := os_path_join dir_path config_file_name in
  let c_run := set_status RUNNING c in
  os_path_join (os_path_dirname file_path) (os_path_basename file_path) = file_path ->
  open_w file_path = Ok tt ->
  from_json file_path fs = (Ok c, fs) ->
  may_start (status c) overwrite = true ->
  is_zero (outputscale_mean (model_arguments c)) = false ->
  ~ In (model_name (model_arguments c)) model_names ->
  get_data (data_arguments c)
           (<[file_path := JObj (to_dict c_run)]> fs, seed_everything (seed c) e)
  = (Ok sets, (fs1, e1)) ->
  main dir_path overwrite config_file_name (fs, e)
  = (Raise (ValueError (unknown_model_message (model_name (model_arguments c)))),
     (<[file_path := JObj (to_dict (set_status FAILED c))]> fs1, e1)).
Proof.
  intros file_path c_run Hnorm Hopen Hread Hstart Hz Hname Hdata.
  destruct (from_json_spec _ _ _ _ Hread) as [_ Hfn].
  unfold main, with_reader, enter. fold file_path.
  unfold bindM at 1. rewrite Hread, Hstart.
  rewrite (update_status_spec file_path RUNNING c fs Hnorm Hopen Hfn).
  cbn [res_bind]. fold c_run.
  unfold bindM at 1. unfold get at 1. cbn [fst].
  replace (status_eqb (status c_run) RUNNING) with true by reflexivity.
  unfold bindM at 1. unfold set_experiment_seed at 1. unfold modify at 1.
  replace (seed c_run) with (seed c) by reflexivity.
  unfold run_experiment, in_world. unfold bindM at 1.
  replace (data_arguments c_run) with (data_arguments c) by reflexivity.
  rewrite Hdata.
  unfold bindM at 1. unfold lift at 1.
  replace (model_arguments c_run) with (model_arguments c) by reflexivity.
  rewrite (proj2 (create_model_names sphere_uniform_grid (model_arguments c) Hz) Hname).
  unfold exit.
  replace (status_eqb (status c_run) RUNNING) with true by reflexivity.
  rewrite (update_status_spec file_path FAILED c_run fs1 Hnorm Hopen Hfn).
  reflexivity.
Qed.

End Reader.

End Config.

End ConfigFacts.

(* ===================================================================== *)
(** ** Facts about experiment names (experiment_utils/reproducibility.py) *)
(* ===================================================================== *)

Module NamingFacts.
Import Model Reproducibility Naming ReproFacts.

Definition keys (d : namespace) : list string := map fst d.

(** [k] names a field of the instance whose value is not the default. *)
Definition non_default (dc : list field) (k : string) : Prop :=
  exists f, f ∈ dc /\ field_name f = k /\ differs f = true.

Fixpoint mentions (c : ascii) (s : string) : bool :=
  match s with
  | EmptyString => false
  | String c' s' => Ascii.eqb c c' || mentions c s'
  end.

Lemma set_item_keys (k : string) (v : value) (d : namespace) :
  keys (set_item k v d) = if bool_decide (k ∈ keys d) then keys d else keys d ++ [k].
Proof.
  induction d as [|[k' v'] d IH]; simpl; [reflexivity|].
  destruct (String.eqb k k') eqn:E.
  - apply String.eqb_eq in E. subst k'. rewrite bool_decide_true by (apply elem_of_cons; auto).
    reflexivity.
  - apply String.eqb_neq in E. simpl. rewrite IH.
    destruct (bool_decide (k ∈ keys d)) eqn:Hd.
    + apply bool_decide_eq_true in Hd.
      rewrite bool_decide_true by (apply elem_of_cons; auto). reflexivity.
    + apply bool_decide_eq_false in Hd.
      rewrite bool_decide_false
        by (intros Hin; apply elem_of_cons in Hin as [Heq|Hin]; [congruence|contradiction]).
      reflexivity.
Qed.

Lemma set_item_length (k : string) (v : value) (d : namespace) :
  length (set_item k v d) = if bool_decide (k ∈ keys d) then length d else S (length d).
Proof.
  pose proof (f_equal (@length string) (set_item_keys k v d)) as Hl.
  unfold keys in Hl at 1. rewrite length_map in Hl. rewrite Hl.
  destruct (bool_decide (k ∈ keys d)); unfold keys; rewrite ?length_app, length_map;
    simpl; lia.
Qed.

Lemma set_item_in (k k' : string) (v : value) (d : namespace) :
  k' ∈ keys (set_item k v d) <-> k' = k \/ k' ∈ keys d.
Proof.
  rewrite set_item_keys. destruct (bool_decide (k ∈ keys d)) eqn:Hd.
  - apply bool_decide_eq_true in Hd. split; [auto|]. intros [->|Hin]; assumption.
  - rewrite elem_of_app, list_elem_of_singleton. tauto.
Qed.

Lemma merge_in (a b : namespace) (k : string) :
  k ∈ keys (merge a b) <-> k ∈ keys a \/ k ∈ keys b.
Proof.
  unfold merge. revert a. induction b as [|[k' v'] b IH]; intros a; simpl.
  - rewrite elem_of_nil. tauto.
  - rewrite IH, set_item_in, elem_of_cons. tauto.
Qed.

Lemma merge_length_le (a b : namespace) : length (merge a b) <= length a + length b.
Proof.
  unfold merge. revert a. induction b as [|[k v] b IH]; intros a; simpl; [lia|].
  specialize (IH (set_item k v a)). rewrite set_item_length in IH.
  destruct (bool_decide (k ∈ keys a)); lia.
Qed.

Lemma merge_length_eq (a b : namespace) :
  length (merge a b) = length a + length b
  <-> NoDup (keys b) /\ (forall k, k ∈ keys a -> k ∉ keys b).
Proof.
  revert a. induction b as [|[k v] b IH]; intros a.
  - simpl. split; [intros _; split; [constructor|intros k _; apply not_elem_of_nil]|lia].
  - change (merge a ((k, v) :: b)) with (merge (set_item k v a) b).
    pose proof (merge_length_le (set_item k v a) b) as Hle.
    pose proof (set_item_length k v a) as Hlen.
    specialize (IH (set_item k v a)). simpl.
    destruct (bool_decide (k ∈ keys a)) eqn:Hin.
    + apply bool_decide_eq_true in Hin. split; [lia|].
      intros [_ Hdis]. exfalso. apply (Hdis k Hin). apply elem_of_cons. auto.
    + apply bool_decide_eq_false in Hin.
      rewrite NoDup_cons.
      split.
      * intros Heq. assert (Heq' : length (merge (set_item k v a) b)
                                   = length (set_item k v a) + length b) by lia.
        apply IH in Heq' as [Hnd Hdis]. split; [split; [|exact Hnd]|].
        -- apply (Hdis k). apply set_item_in. left. reflexivity.
        -- intros k' Ha Hb. apply elem_of_cons in Hb as [->|Hb]; [contradiction|].
           apply (Hdis k'); [apply set_item_in; right; exact Ha|exact Hb].
      * intros [[Hk Hnd] Hdis].
        assert (Heq' : length (merge (set_item k v a) b)
                       = length (set_item k v a) + length b).
        { apply IH. split; [exact Hnd|]. intros k' Hk' Hb.
          apply set_item_in in Hk' as [->|Ha]; [contradiction|].
          apply (Hdis k' Ha). apply elem_of_cons. auto. }
        lia.
Qed.

Lemma non_default_fields_from (dc : list field) (acc : namespace) (k : string) :
  k ∈ keys (foldl (fun result f =>
                     if differs f then set_item (field_name f) (field_value f) result
                     else result) acc dc)
  <-> k ∈ keys acc \/ non_default dc k.
Proof.
  revert acc. induction dc as [|f dc IH]; intros acc; simpl.
  - split; [auto|]. intros [H|(f & Hf & _)]; [exact H|]. apply elem_of_nil in Hf. destruct Hf.
  - rewrite IH. unfold non_default. setoid_rewrite elem_of_cons.
    destruct (differs f) eqn:Hd.
    + rewrite set_item_in. split.
      * intros [[->|Ha]|(g & Hg & Hn & Hdg)].
        -- right. exists f. auto.
        -- auto.
        -- right. exists g. auto.
      * intros [Ha|(g & [->|Hg] & Hn & Hdg)].
        -- auto.
        -- left. left. symmetry. exact Hn.
        -- right. exists g. auto.
    + split.
      * intros [Ha|(g & Hg & Hn & Hdg)]; [auto|]. right. exists g. auto.
      * intros [Ha|(g & [->|Hg] & Hn & Hdg)]; [auto|congruence|]. right. exists g. auto.
Qed.

Lemma non_default_fields_keys (dc : list field) (k : string) :
  k ∈ keys (non_default_fields dc) <-> non_default dc k.
Proof.
  unfold non_default_fields. rewrite non_default_fields_from. simpl.
  rewrite elem_of_nil. tauto.
Qed.

Lemma non_default_fields_nodup_from (dc : list field) (acc : namespace) :
  NoDup (keys acc) ->
  NoDup (keys (foldl (fun result f =>
                        if differs f then set_item (field_name f) (field_value f) result
                        else result) acc dc)).
Proof.
  revert acc. induction dc as [|f dc IH]; intros acc Hnd; simpl; [exact Hnd|].
  apply IH. destruct (differs f); [|exact Hnd].
  rewrite set_item_keys. destruct (bool_decide (field_name f ∈ keys acc)) eqn:Hin;
    [exact Hnd|].
  apply bool_decide_eq_false in Hin.
  apply NoDup_app. split; [exact Hnd|]. split; [|apply NoDup_singleton].
  intros k Hk Hk'. apply list_elem_of_singleton in Hk'. subst k. contradiction.
Qed.

Lemma non_default_fields_nodup (dc : list field) : NoDup (keys (non_default_fields dc)).
Proof. apply non_default_fields_nodup_from. constructor. Qed.

Lemma non_default_fields_empty (dc : list field) :
  non_default_fields dc = [] <-> Forall (fun f => differs f = false) dc.
Proof.
  split.
  - intros Hnil. apply Forall_forall. intros f Hf.
    destruct (differs f) eqn:Hd; [|reflexivity].
    assert (Hin : field_name f ∈ keys (non_default_fields dc)).
    { apply non_default_fields_keys. exists f. auto. }
    rewrite Hnil in Hin. apply elem_of_nil in Hin. destruct Hin.
  - intros Hall. unfold non_default_fields.
    induction Hall as [|f dc Hf _ IH]; [reflexivity|]. simpl. rewrite Hf. exact IH.
Qed.

Lemma mentions_app (c : ascii) (a b : string) :
  mentions c (a +:+ b) = mentions c a || mentions c b.
Proof.
  induction a as [|c' a IH]; [reflexivity|].
  rewrite append_cons. simpl. rewrite IH, orb_assoc. reflexivity.
Qed.

Lemma join_mentions (c : ascii) (sep : string) (l : list string) :
  l <> [] -> Forall (fun s => mentions c s = true) l -> mentions c (join sep l) = true.
Proof.
  intros Hne Hall. destruct Hall as [|s l Hs Hl]; [contradiction|].
  destruct l as [|s' l]; [exact Hs|].
  change (join sep (s :: s' :: l)) with (s +:+ sep +:+ join sep (s' :: l)).
  rewrite mentions_app, Hs. reflexivity.
Qed.

Section Names.
Variable float_repr : float -> string.

(** X20 (reproducibility.py, [non_default_fields] and
    [get_experiment_name]): the name of an experiment is 'default' exactly
    when every field of the three argument sets has its default value; a
    name built from fields holds '=' and so is never 'default'. *)
Theorem experiment_name_default (data_arguments training_arguments model_arguments : list field) :
  get_experiment_name float_repr data_arguments training_arguments model_arguments
  = Ok "default"
  <-> Forall (fun f => differs f = false)
             (model_arguments ++ data_arguments ++ training_arguments).
Proof.
  unfold get_experiment_name.
  set (D := non_default_fields data_arguments).
  set (T := non_default_fields training_arguments).
  set (Mo := non_default_fields model_arguments).
  pose proof (merge_length_le Mo D) as H1.
  pose proof (merge_length_le (merge Mo D) T) as H2.
  split.
  - destruct (Nat.eqb (length (merge (merge Mo D) T)) (length D + length T + length Mo))
      eqn:Hlen; simpl; [|discriminate].
    apply Nat.eqb_eq in Hlen.
    destruct (Nat.eqb (length (merge (merge Mo D) T)) 0) eqn:Hz.
    + intros _. apply Nat.eqb_eq in Hz.
      assert (HD : D = []) by (apply length_zero_iff_nil; lia).
      assert (HT : T = []) by (apply length_zero_iff_nil; lia).
      assert (HM : Mo = []) by (apply length_zero_iff_nil; lia).
      rewrite !Forall_app.
      split; [|split]; apply non_default_fields_empty; assumption.
    + apply Nat.eqb_neq in Hz. intros [= Hname]. exfalso.
      assert (Hm : mentions "=" "default" = true).
      { rewrite <- Hname. apply join_mentions.
        - destruct (merge (merge Mo D) T); [contradiction|discriminate].
        - apply Forall_forall. intros s Hs.
          apply list_elem_of_fmap in Hs as ([k v] & -> & _).
          rewrite !mentions_app. simpl. apply orb_true_r. }
      discriminate Hm.
  - rewrite !Forall_app. intros (HM & HD & HT).
    apply non_default_fields_empty in HM, HD, HT.
    subst D T Mo. rewrite HM, HD, HT. reflexivity.
Qed.

(** X21 (reproducibility.py, [get_experiment_name]): the ValueError for
    repeated argument names is raised exactly when one name is the name of
    a field with a value other than its default in two of the three
    argument sets; a name that the sets share goes unnoticed as long as at
    most one of them gives it such a value. *)
Theorem experiment_name_repeated (data_arguments training_arguments model_arguments : list field) :
  get_experiment_name float_repr data_arguments training_arguments model_arguments
  = Raise (ValueError repeated_message)
  <-> exists k,
        (non_default model_arguments k /\ non_default data_arguments k)
        \/ (non_default model_arguments k /\ non_default training_arguments k)
        \/ (non_default data_arguments k /\ non_default training_arguments k).
Proof.
  unfold get_experiment_name.
  set (D := non_default_fields data_arguments).
  set (T := non_default_fields training_arguments).
  set (Mo := non_default_fields model_arguments).
  pose proof (merge_length_le Mo D) as H1.
  pose proof (merge_length_le (merge Mo D) T) as H2.
  pose proof (merge_length_eq Mo D) as E1.
  pose proof (merge_length_eq (merge Mo D) T) as E2.
  pose proof (non_default_fields_nodup data_arguments) as ND. fold D in ND.
  pose proof (non_default_fields_nodup training_arguments) as NT. fold T in NT.
  assert (Hkeys : forall k,
             (k ∈ keys Mo <-> non_default model_arguments k)
             /\ (k ∈ keys D <-> non_default data_arguments k)
             /\ (k ∈ keys T <-> non_default training_arguments k)).
  { intros k. repeat split; apply non_default_fields_keys. }
  destruct (Nat.eqb (length (merge (merge Mo D) T)) (length D + length T + length Mo))
    eqn:Hlen; simpl.
  - apply Nat.eqb_eq in Hlen. split.
    { destruct (Nat.eqb (length (merge (merge Mo D) T)) 0); discriminate. }
    intros (k & Hk). exfalso.
    assert (Hd1 : length (merge Mo D) = length Mo + length D) by lia.
    assert (Hd2 : length (merge (merge Mo D) T) = length (merge Mo D) + length T) by lia.
    apply E1 in Hd1 as [_ Hd1]. apply E2 in Hd2 as [_ Hd2].
    destruct (Hkeys k) as (KM & KD & KT).
    destruct Hk as [[Hm Hd]|[[Hm Ht]|[Hd Ht]]].
    + apply (Hd1 k); [apply KM|apply KD]; assumption.
    + apply (Hd2 k); [apply merge_in; left; apply KM|apply KT]; assumption.
    + apply (Hd2 k); [apply merge_in; right; apply KD|apply KT]; assumption.
  - apply Nat.eqb_neq in Hlen. split; [intros _|reflexivity].
    destruct (decide (length (merge Mo D) = length Mo + length D)) as [Hd1|Hd1].
    + assert (Hd2 : ~ (NoDup (keys T) /\ (forall k, k ∈ keys (merge Mo D) -> k ∉ keys T))).
      { intros Hc. apply E2 in Hc. lia. }
      assert (Hex : exists k, k ∈ keys (merge Mo D) /\ k ∈ keys T).
      { destruct (decide (Exists (fun k => k ∈ keys T) (keys (merge Mo D)))) as [He|He].
        - apply Exists_exists in He as (k & Hk1 & Hk2). eauto.
        - exfalso. apply Hd2. split; [exact NT|]. intros k Hk1 Hk2. apply He.
          apply Exists_exists. exists k. split; assumption. }
      destruct Hex as (k & Hk1 & Hk2). exists k. destruct (Hkeys k) as (KM & KD & KT).
      apply merge_in in Hk1 as [Hm|Hd].
      * right. left. split; [apply KM|apply KT]; assumption.
      * right. right. split; [apply KD|apply KT]; assumption.
    + assert (Hd2 : ~ (NoDup (keys D) /\ (forall k, k ∈ keys Mo -> k ∉ keys D))).
      { intros Hc. apply E1 in Hc. contradiction. }
      assert (Hex : exists k, k ∈ keys Mo /\ k ∈ keys D).
      { destruct (decide (Exists (fun k => k ∈ keys D) (keys Mo))) as [He|He].
        - apply Exists_exists in He as (k & Hk1 & Hk2). eauto.
        - exfalso. apply Hd2. split; [exact ND|]. intros k Hk1 Hk2. apply He.
          apply Exists_exists. exists k. split; assumption. }
      destruct Hex as (k & Hk1 & Hk2). exists k. destruct (Hkeys k) as (KM & KD & KT).
      left. split; [apply KM|apply KD]; assumption.
Qed.

End Names.

End NamingFacts.

(* ===================================================================== *)
(** ** Facts about the experiment tree (experiment_utils/reproducibility.py) *)
(* ===================================================================== *)

Module TreeFacts.
Import Model Reproducibility Naming Tree ReproFacts.

(** The number of combinations of a list of lists. *)
Definition count (ls : list (list json)) : nat :=
  foldr (fun l n => length l * n) 1 ls.

Definition is_list (v : json) : bool :=
  match v with JList _ => true | _ => false end.

Lemma product_length (ls : list (list json)) : length (product ls) = count ls.
Proof.
  induction ls as [|l ls IH]; [reflexivity|]. simpl. rewrite <- IH.
  induction l as [|a l IHl]; [reflexivity|].
  simpl. rewrite length_app, length_map, IHl. reflexivity.
Qed.

Lemma product_elem (ls : list (list json)) (c : list json) :
  c ∈ product ls <-> Forall2 (fun l a => a ∈ l) ls c.
Proof.
  revert c. induction ls as [|l ls IH]; intros c; simpl.
  - rewrite list_elem_of_singleton. split; [intros ->; constructor|].
    intros Hf. inversion Hf. reflexivity.
  - rewrite list_elem_of_In, in_flat_map. split.
    + intros (a & Ha & Hc). apply in_map_iff in Hc as (c' & <- & Hc').
      constructor; [apply list_elem_of_In; exact Ha|].
      apply IH, list_elem_of_In, Hc'.
    + intros Hf. inversion Hf as [|l' a ls' c' Ha Hc']; subst.
      exists a. split; [apply list_elem_of_In; exact Ha|].
      apply in_map_iff. exists c'. split; [reflexivity|].
      apply list_elem_of_In, IH, Hc'.
Qed.

Lemma zip_keys (keys : list string) (vals : list json) :
  length keys = length vals ->
  map fst (zip keys vals) = keys /\ map snd (zip keys vals) = vals.
Proof.
  revert vals. induction keys as [|k keys IH]; intros [|v vals] Hlen; simpl in *;
    try discriminate; [split; reflexivity|].
  injection Hlen as Hlen. destruct (IH vals Hlen) as [-> ->]. split; reflexivity.
Qed.

(** X22 (reproducibility.py, [expand_args]): the combinations are as many
    as the product of the numbers of values of the keys (a value that is
    not a list counts as one); a dictionary is one of them exactly when it
    has the keys of the description, in its order, each with one of the
    values the description gives it.  So a description without lists
    expands to itself alone, and one with an empty list to nothing. *)
Theorem expand_args_combinations (args_dict : dict) :
  length (expand_args args_dict)
  = count (map (fun kv => choices (snd kv)) args_dict)
  /\ (forall c : dict,
        c ∈ expand_args args_dict
        <-> Forall2 (fun kv kv' => fst kv' = fst kv /\ snd kv' ∈ choices (snd kv))
                    args_dict c)
  /\ (Forall (fun kv => is_list (snd kv) = false) args_dict ->
      expand_args args_dict = [args_dict])
  /\ ((exists k, (k, JList []) ∈ args_dict) -> expand_args args_dict = []).
Proof.
  assert (Hlen : length (expand_args args_dict)
                 = count (map (fun kv => choices (snd kv)) args_dict)).
  { unfold expand_args. rewrite length_map. apply product_length. }
  assert (Hmem : forall c : dict,
             c ∈ expand_args args_dict
             <-> Forall2 (fun kv kv' => fst kv' = fst kv /\ snd kv' ∈ choices (snd kv))
                         args_dict c).
  { intros c. unfold expand_args. rewrite list_elem_of_fmap. split.
    - intros (comb & -> & Hc). apply product_elem in Hc.
      clear Hlen. revert comb Hc. induction args_dict as [|[k v] d IH]; intros comb Hc.
      + inversion Hc. constructor.
      + inversion Hc as [|l a ls comb' Ha Hc']; subst. simpl.
        constructor; [split; [reflexivity|exact Ha]|]. apply IH. exact Hc'.
    - intros Hf. exists (map snd c). split.
      + clear Hlen. induction Hf as [|[k v] [k' v'] d c [Hk Hv] _ IH]; [reflexivity|].
        simpl in *. subst k'. rewrite <- IH. reflexivity.
      + apply product_elem. clear Hlen.
        induction Hf as [|[k v] [k' v'] d c [Hk Hv] _ IH]; constructor; assumption. }
  split; [exact Hlen|]. split; [exact Hmem|]. split.
  - intros Hall.
    assert (Hone : length (expand_args args_dict) = 1).
    { rewrite Hlen. clear Hlen Hmem.
      induction Hall as [|[k v] d Hv _ IH]; [reflexivity|]. simpl in *.
      rewrite IH. destruct v; try discriminate; reflexivity. }
    assert (Hin : args_dict ∈ expand_args args_dict).
    { apply Hmem. clear Hlen Hmem Hone.
      induction Hall as [|[k v] d Hv _ IH]; constructor; [|exact IH].
      split; [reflexivity|]. simpl in *. destruct v; try discriminate;
        apply list_elem_of_singleton; reflexivity. }
    destruct (expand_args args_dict) as [|c [|c' l]]; try discriminate Hone.
    apply list_elem_of_singleton in Hin. subst c. reflexivity.
  - intros [k Hk]. apply length_zero_iff_nil. rewrite Hlen. clear Hlen Hmem.
    induction args_dict as [|[k' v'] d IH]; [apply elem_of_nil in Hk; destruct Hk|].
    apply elem_of_cons in Hk as [[= <- <-]|Hk]; simpl; [reflexivity|].
    rewrite (IH Hk). lia.
Qed.

(** The loop keeps what each pass keeps. *)
Lemma each_invariant {S A : Type} (P : S -> Prop) (l : list A) (body : A -> M S unit) :
  (forall a s, a ∈ l -> P s -> P (snd (body a s))) ->
  forall s, P s -> P (snd (each l body s)).
Proof.
  induction l as [|a l IH]; intros Hstep s HP; simpl; [assumption|].
  unfold bindM.
  pose proof (Hstep a s ltac:(apply elem_of_cons; auto) HP) as H1.
  destruct (body a s) as [[[]|e] s1]; simpl in *; [|assumption].
  apply IH; [|assumption]. intros a' s' Ha'. apply Hstep. apply elem_of_cons. auto.
Qed.

Section Tree.
Variable float_repr : float -> string.
Context {DataArguments TrainingArguments : Type}.
Context {HD : Dataclass DataArguments} {HT : Dataclass TrainingArguments}.
Context {FD : Fields DataArguments} {FT : Fields TrainingArguments}.

Abbreviation Config := (ExperimentConfig DataArguments TrainingArguments).
Abbreviation build_config := (@Tree.build_config DataArguments TrainingArguments HD HT).
Abbreviation experiment_name :=
  (@Naming.experiment_name float_repr DataArguments TrainingArguments FD FT).
Abbreviation create_one :=
  (@Tree.create_one float_repr DataArguments TrainingArguments HD HT FD FT).
Abbreviation create_experiment_config_from_json :=
  (@Tree.create_experiment_config_from_json float_repr DataArguments TrainingArguments
     HD HT FD FT).

(** The path of the configuration file of a pass, as [create_one]
    computes it. *)
Definition config_path_of (dir_path : string) (config : Config) : res string :=
  res_bind (experiment_name config) (fun name =>
  Ok (os_path_join (os_path_join (os_path_join dir_path name) (run_name config))
                   (file_name config))).

Lemma build_config_defaults (j : job) (c : Config) :
  build_config j = Ok c -> status c = READY /\ file_name c = "config.json".
Proof.
  unfold Tree.build_config. destruct j as [[[ma da] ta] r].
  destruct (ModelArguments_of (JObj ma)); simpl; [|discriminate].
  destruct (of_keywords (JObj da)); simpl; [|discriminate].
  destruct (of_keywords (JObj ta)); simpl; [|discriminate].
  intros [= <-]. split; reflexivity.
Qed.

Lemma create_one_unfold (dir_path : string) (overwrite : bool) (j : job) (fs : files) :
  create_one dir_path overwrite j fs
  = match build_config j with
    | Raise e => (Raise e, fs)
    | Ok c =>
        match config_path_of dir_path c with
        | Raise e => (Raise e, fs)
        | Ok p =>
            if bool_decide (is_Some (fs !! p)) && negb overwrite then (Ok tt, fs)
            else (Ok tt, <[p := JObj (to_dict c)]> fs)
        end
    end.
Proof.
  unfold Tree.create_one, config_path_of. unfold bindM at 1. unfold lift at 1.
  destruct (build_config j) as [c|e] eqn:Hc; [|reflexivity].
  destruct (build_config_defaults j c Hc) as [_ Hfile].
  unfold bindM at 1. unfold lift at 1.
  destruct (experiment_name c) as [name|e]; [|reflexivity]. simpl.
  unfold bindM at 1. unfold get at 1.
  destruct (bool_decide _ && negb overwrite); [reflexivity|].
  unfold to_json. unfold_monad.
  rewrite Hfile, open_w_join by (reflexivity || discriminate). reflexivity.
Qed.

(** What a pass needs in order to return, and what it leaves when the
    file of its configuration is there. *)
Lemma create_one_returns (dir_path : string) (overwrite : bool) (j : job) (fs fs' : files)
    (r : unit) :
  create_one dir_path overwrite j fs = (Ok r, fs') ->
  exists (c : Config) (p : string),
    build_config j = Ok c /\ config_path_of dir_path c = Ok p /\ is_Some (fs' !! p).
Proof.
  rewrite create_one_unfold.
  destruct (build_config j) as [c|e] eqn:Hc; [|discriminate].
  destruct (config_path_of dir_path c) as [p|e] eqn:Hpath; [|discriminate].
  intros Hrun. exists c, p. split; [reflexivity|]. split; [exact Hpath|].
  destruct (bool_decide (is_Some (fs !! p))) eqn:Hp; simpl in Hrun.
  - apply bool_decide_eq_true in Hp. destruct overwrite; simpl in Hrun;
      injection Hrun as _ <-; [|exact Hp].
    unfold files. rewrite lookup_insert_eq. eauto.
  - injection Hrun as _ <-. unfold files. rewrite lookup_insert_eq. eauto.
Qed.

Lemma create_one_skips (dir_path : string) (j : job) (fs : files) (c : Config) (p : string) :
  build_config j = Ok c -> config_path_of dir_path c = Ok p -> is_Some (fs !! p) ->
  create_one dir_path false j fs = (Ok tt, fs).
Proof.
  intros Hc Hp Hin. rewrite create_one_unfold, Hc, Hp.
  rewrite bool_decide_true by exact Hin. reflexivity.
Qed.

(** Without [overwrite] a pass leaves every file that exists as it is. *)
Lemma create_one_keeps (dir_path : string) (j : job) (fs : files) (q : string) (doc : json) :
  fs !! q = Some doc -> snd (create_one dir_path false j fs) !! q = Some doc.
Proof.
  intros Hq. rewrite create_one_unfold.
  destruct (build_config j) as [c|e]; [|exact Hq].
  destruct (config_path_of dir_path c) as [p|e]; [|exact Hq].
  destruct (bool_decide (is_Some (fs !! p))) eqn:Hp; simpl; [exact Hq|].
  apply bool_decide_eq_false in Hp.
  unfold files. rewrite lookup_insert_ne; [exact Hq|].
  intros ->. apply Hp. rewrite Hq. eauto.
Qed.

(** X23 (reproducibility.py, [create_experiment_config_from_json]):
    without [overwrite] no file that exists is changed or removed, whether
    the function returns or raises on the way. *)
Theorem existing_configs_are_kept (json_config : TreeConfig) (dir_path : string)
    (fs : files) (q : string) (doc : json) :
  fs !! q = Some doc ->
  snd (create_experiment_config_from_json json_config dir_path false fs) !! q = Some doc.
Proof.
  intros Hq. unfold Tree.create_experiment_config_from_json.
  apply (each_invariant (fun s : files => s !! q = Some doc)); [|exact Hq].
  intros j s _ Hs. apply create_one_keeps. exact Hs.
Qed.

Lemma each_keeps (dir_path : string) (l : list job) (fs : files) (q : string) :
  is_Some (fs !! q) -> is_Some (snd (each l (create_one dir_path false) fs) !! q).
Proof.
  intros [doc Hq]. exists doc.
  apply (each_invariant (fun s : files => s !! q = Some doc)); [|exact Hq].
  intros j s _ Hs. apply create_one_keeps. exact Hs.
Qed.

Lemma each_returns (dir_path : string) (l : list job) (fs fs' : files) :
  each l (create_one dir_path false) fs = (Ok tt, fs') ->
  forall j, j ∈ l ->
  exists (c : Config) (p : string),
    build_config j = Ok c /\ config_path_of dir_path c = Ok p /\ is_Some (fs' !! p).
Proof.
  revert fs. induction l as [|j0 l IH]; intros fs Hrun j Hj.
  - apply elem_of_nil in Hj. destruct Hj.
  - simpl in Hrun. unfold bindM in Hrun.
    destruct (create_one dir_path false j0 fs) as [[[]|e] fs1] eqn:H1; [|discriminate].
    apply elem_of_cons in Hj as [->|Hj]; [|exact (IH fs1 Hrun j Hj)].
    destruct (create_one_returns _ _ _ _ _ _ H1) as (c & p & Hc & Hp & Hin).
    exists c, p. split; [exact Hc|]. split; [exact Hp|].
    pose proof (each_keeps dir_path l fs1 p Hin) as Hk. rewrite Hrun in Hk. exact Hk.
Qed.

Lemma each_skips (dir_path : string) (l : list job) (fs : files) :
  (forall j, j ∈ l ->
     exists (c : Config) (p : string),
       build_config j = Ok c /\ config_path_of dir_path c = Ok p /\ is_Some (fs !! p)) ->
  each l (create_one dir_path false) fs = (Ok tt, fs).
Proof.
  induction l as [|j l IH]; intros Hall; [reflexivity|].
  simpl. unfold bindM.
  destruct (Hall j ltac:(apply elem_of_cons; auto)) as (c & p & Hc & Hp & Hin).
  rewrite (create_one_skips dir_path j fs c p Hc Hp Hin).
  apply IH. intros j' Hj'. apply Hall. apply elem_of_cons. auto.
Qed.

(** X24 (reproducibility.py, [create_experiment_config_from_json]): when
    the function has returned without [overwrite], every configuration of
    the tree has its file; calling it again on the result returns and
    writes nothing. *)
Theorem second_pass_writes_nothing (json_config : TreeConfig) (dir_path : string)
    (fs fs' : files) :
  create_experiment_config_from_json json_config dir_path false fs = (Ok tt, fs') ->
  (forall j, j ∈ jobs json_config ->
     exists (c : Config) (p : string),
       build_config j = Ok c /\ config_path_of dir_path c = Ok p /\ is_Some (fs' !! p))
  /\ create_experiment_config_from_json json_config dir_path false fs' = (Ok tt, fs').
Proof.
  unfold Tree.create_experiment_config_from_json. intros Hrun.
  pose proof (each_returns dir_path (jobs json_config) fs fs' Hrun) as Hall.
  split; [exact Hall|]. apply each_skips. exact Hall.
Qed.

Context {RD : Rebuilds DataArguments} {RT : Rebuilds TrainingArguments}.

(** X25 (reproducibility.py, [create_experiment_config_from_json] with
    [ExperimentConfig.from_json] and the condition of [__enter__]): every
    file the function writes or replaces, whether it returns or raises on
    the way, is the configuration of one of the combinations of the tree,
    at the path of that configuration, with the status READY; it reads
    back as that configuration, which the reader will start.  The
    dataclasses [DataArguments] and [TrainingArguments] are assumed to be
    rebuilt from their own dictionaries. *)
Theorem written_configs_are_ready (json_config : TreeConfig) (dir_path : string)
    (overwrite : bool) (fs : files) (q : string) :
  let fs' := snd (create_experiment_config_from_json json_config dir_path overwrite fs) in
  fs' !! q <> fs !! q ->
  exists (c : Config) (j : job),
    j ∈ jobs json_config /\ build_config j = Ok c /\ config_path_of dir_path c = Ok q
    /\ status c = READY
    /\ from_json q fs' = (Ok c, fs')
    /\ (forall ow, may_start (status c) ow = true).
Proof.
  cbv zeta. unfold Tree.create_experiment_config_from_json.
  pose proof (each_invariant
                (fun s : files =>
                   forall q, s !! q <> fs !! q ->
                   exists (c : Config) (j : job),
                     j ∈ jobs json_config /\ build_config j = Ok c
                     /\ config_path_of dir_path c = Ok q
                     /\ s !! q = Some (JObj (to_dict c)))
                (jobs json_config) (create_one dir_path overwrite)) as Hinv.
  intros Hq. destruct (Hinv ltac:(
      intros j s Hj Hs q' Hq'; rewrite create_one_unfold in Hq' |- *;
      destruct (build_config j) as [c|e] eqn:Hc; [|exact (Hs q' Hq')];
      destruct (config_path_of dir_path c) as [p|e] eqn:Hp; [|exact (Hs q' Hq')];
      destruct (bool_decide (is_Some (s !! p)) && negb overwrite); [exact (Hs q' Hq')|];
      simpl in Hq' |- *; unfold files in *;
      destruct (decide (p = q')) as [->|Hne];
      [ exists c, j; rewrite lookup_insert_eq; auto
      | rewrite lookup_insert_ne in Hq' |- * by exact Hne; exact (Hs q' Hq') ])
    fs ltac:(intros q' Hq'; contradiction) q Hq) as (c & j & Hj & Hc & Hp & Hdoc).
  destruct (build_config_defaults j c Hc) as [Hst Hfile].
  exists c, j. split; [exact Hj|]. split; [exact Hc|]. split; [exact Hp|].
  split; [exact Hst|]. split; [|intros ow; rewrite Hst; reflexivity].
  set (fs' := snd (each (jobs json_config) (create_one dir_path overwrite) fs)) in *.
  assert (Hid : <[q := JObj (to_dict c)]> fs' = fs') by (apply insert_id; exact Hdoc).
  rewrite <- Hid at 1. rewrite from_json_written, Hid. do 2 f_equal.
  unfold config_path_of in Hp. destruct (experiment_name c) as [name|e]; [|discriminate].
  simpl in Hp. injection Hp as <-.
  rewrite Hfile, basename_join by reflexivity. rewrite <- Hfile. apply set_file_name_same.
Qed.

End Tree.

End TreeFacts.

(* ===================================================================== *)
(** ** Facts about the crawl (notebooks/experiments/run_experiments.py) *)
(* ===================================================================== *)

Module CrawlFacts.
Import Model Reproducibility Tree Crawl ReproFacts.

(** The entry of a directory that holds a file of the given name. *)
Definition holds (config_file_name : string) (entry : walk_entry) : bool :=
  existsb (String.eqb config_file_name) (snd entry).

Lemma each_app {S A : Type} (l1 l2 : list A) (body : A -> M S unit) (s : S) :
  each (l1 ++ l2) body s
  = match each l1 body s with
    | (Ok _, s') => each l2 body s'
    | (Raise e, s') => (Raise e, s')
    end.
Proof.
  revert s. induction l1 as [|a l1 IH]; intros s; simpl; [reflexivity|].
  unfold bindM. destruct (body a s) as [[[]|e] s1]; [apply IH|reflexivity].
Qed.

Section Crawl.
Context {DataArguments TrainingArguments E : Type}.
Context {HD : Dataclass DataArguments} {HT : Dataclass TrainingArguments}.
Context {HE : @Experiment DataArguments TrainingArguments E}.

Abbreviation Config := (ExperimentConfig DataArguments TrainingArguments).
Abbreviation main := (@Reproducibility.main DataArguments TrainingArguments HD HT E HE).
Abbreviation crawl_and_run :=
  (@Crawl.crawl_and_run DataArguments TrainingArguments E HD HT HE).
Abbreviation script := (@Crawl.script DataArguments TrainingArguments E HD HT HE).

Lemma crawl_cons (entry : walk_entry) (walk : list walk_entry) (config_file_name : string)
    (overwrite : bool) (s : files * E) :
  crawl_and_run (entry :: walk) config_file_name overwrite s
  = if holds config_file_name entry
    then match main (fst (fst entry)) overwrite config_file_name s with
         | (Ok _, s') => crawl_and_run walk config_file_name overwrite s'
         | (Raise e, s') => (Raise e, s')
         end
    else crawl_and_run walk config_file_name overwrite s.
Proof.
  destruct entry as [[d ds] fns]. unfold Crawl.crawl_and_run, holds. simpl.
  unfold bindM. destruct (existsb (String.eqb config_file_name) fns); [reflexivity|].
  reflexivity.
Qed.

(** A configuration that is COMPLETED is left alone without [overwrite]. *)
Lemma main_skips_completed (dir_path config_file_name : string) (fs : files) (e : E)
    (c : Config) :
  from_json (os_path_join dir_path config_file_name) fs = (Ok c, fs) ->
  status c = COMPLETED ->
  main dir_path false config_file_name (fs, e) = (Ok tt, (fs, e)).
Proof.
  intros Hread Hst. unfold Reproducibility.main, with_reader, enter.
  unfold bindM at 1. rewrite Hread, Hst. simpl.
  unfold bindM, get, ret. cbn [fst]. rewrite Hst. simpl. rewrite Hst. reflexivity.
Qed.

(** X26 (run_experiments.py, [crawl_and_run]): directories without a file
    of the configuration name are passed over, so the crawl is the crawl
    of the directories that hold one; the experiments run in the order of
    the walk, and the first one that raises ends the crawl with its
    exception: the directories after it are not visited. *)
Theorem crawl_stops_at_first_error (walk : list walk_entry) (config_file_name : string)
    (overwrite : bool) (s : files * E) :
  crawl_and_run walk config_file_name overwrite s
  = crawl_and_run (filter (fun entry => holds config_file_name entry = true) walk)
                  config_file_name overwrite s
  /\ (forall (before after : list walk_entry) (entry : walk_entry) (s1 s2 : files * E)
             (x : exn),
        walk = before ++ entry :: after ->
        crawl_and_run before config_file_name overwrite s = (Ok tt, s1) ->
        holds config_file_name entry = true ->
        main (fst (fst entry)) overwrite config_file_name s1 = (Raise x, s2) ->
        crawl_and_run walk config_file_name overwrite s = (Raise x, s2)).
Proof.
  split.
  - revert s. induction walk as [|entry walk IH]; intros s; [reflexivity|].
    rewrite crawl_cons, filter_cons.
    destruct (holds config_file_name entry) eqn:Hh.
    + rewrite decide_True by reflexivity. rewrite crawl_cons, Hh.
      destruct (main _ _ _ s) as [[[]|e] s']; [apply IH|reflexivity].
    + rewrite decide_False by discriminate. apply IH.
  - intros before after entry s1 s2 x -> Hb Hh Hm.
    unfold Crawl.crawl_and_run in *. rewrite each_app, Hb.
    fold (crawl_and_run (entry :: after) config_file_name overwrite s1).
    rewrite crawl_cons, Hh, Hm. reflexivity.
Qed.

(** X27 (run_experiments.py, [crawl_and_run] over [main]): a crawl without
    [overwrite] over a tree whose configurations are all COMPLETED runs
    nothing and writes nothing. *)
Theorem finished_tree_is_left_alone (walk : list walk_entry) (config_file_name : string)
    (fs : files) (e : E) :
  (forall entry, entry ∈ walk -> holds config_file_name entry = true ->
     exists c : Config,
       from_json (os_path_join (fst (fst entry)) config_file_name) fs = (Ok c, fs)
       /\ status c = COMPLETED) ->
  crawl_and_run walk config_file_name false (fs, e) = (Ok tt, (fs, e)).
Proof.
  induction walk as [|entry walk IH]; intros Hall; [reflexivity|].
  rewrite crawl_cons.
  assert (Hrest : crawl_and_run walk config_file_name false (fs, e) = (Ok tt, (fs, e))).
  { apply IH. intros entry' Hin. apply Hall. apply elem_of_cons. auto. }
  destruct (holds config_file_name entry) eqn:Hh; [|exact Hrest].
  destruct (Hall entry ltac:(apply elem_of_cons; auto) Hh) as (c & Hread & Hst).
  rewrite (main_skips_completed _ _ _ _ c Hread Hst). exact Hrest.
Qed.

(** X28 (run_experiments.py, the script): [--overwrite] is declared with
    [type=bool], and [bool] of a string is true unless the string is
    empty; so every value given to the option that is not empty, 'False'
    among them, runs the crawl with [overwrite] set, as 'True' does. *)
Theorem overwrite_option_is_truthy (walk : list walk_entry) (dir_path : string)
    (config_name : option string) (given : string) :
  given <> EmptyString ->
  script walk (MkCommandLine dir_path config_name (Some given))
  = script walk (MkCommandLine dir_path config_name (Some "True"))
  /\ script walk (MkCommandLine dir_path config_name (Some given))
     = crawl_and_run walk (match config_name with Some s => s | None => "config.json" end)
                     true.
Proof.
  intros Hne. unfold Crawl.script, bool_of_str. simpl.
  destruct given; [contradiction|]. split; reflexivity.
Qed.

End Crawl.

End CrawlFacts.

(* ===================================================================== *)
(** ** Facts about the Matern kernel (kernels/matern_kernel.py) *)
(* ===================================================================== *)

Module KernelFacts.
Import Kernels.

Section Kernels.
Context {FeatureMap BaseKernel GpKernel : Type}.
Context {HK : KernelLibrary FeatureMap BaseKernel GpKernel}.

Abbreviation GeometricMaternKernel :=
  (@Kernels.GeometricMaternKernel FeatureMap BaseKernel GpKernel HK).
Abbreviation BaseMaternKernel_init :=
  (@Kernels.BaseMaternKernel_init FeatureMap BaseKernel GpKernel HK).

(** X29 (matern_kernel.py, [GeometricMaternKernel.__new__] and the two
    constructors): on a Euclidean space the kernel is refused with
    AssertionError when [trainable_nu] is true, the default of
    [GeometricMaternKernel], before anything else is done; with
    [trainable_nu=False] the two numbers are not looked at and no warning
    is issued.  On another space a [num_random_phases] that is not zero
    makes [num_eigenfunctions] irrelevant for the kernel, a
    [num_random_phases] of zero counts as not given, and the warning is
    issued exactly when both are given and [BaseMaternKernel.__init__]
    has returned. *)
Theorem kernel_by_space (dim : Z) (lengthscale nu : float) (seed : option Z)
    (num_random_phases num_eigenfunctions : option Z) :
  GeometricMaternKernel (Euclidean dim) lengthscale nu true seed
                        num_random_phases num_eigenfunctions
  = (Raise (AssertionError trainable_nu_message), [])
  /\ GeometricMaternKernel (Euclidean dim) lengthscale nu false seed
                           num_random_phases num_eigenfunctions
     = GeometricMaternKernel (Euclidean dim) lengthscale nu false seed None None
  /\ snd (GeometricMaternKernel (Euclidean dim) lengthscale nu false seed
                                num_random_phases num_eigenfunctions) = []
  /\ (forall trainable_nu,
        (forall n, n <> 0%Z ->
           fst (GeometricMaternKernel (Hypersphere dim) lengthscale nu trainable_nu seed
                                      (Some n) num_eigenfunctions)
           = fst (GeometricMaternKernel (Hypersphere dim) lengthscale nu trainable_nu seed
                    (Some n) None))
        /\ fst (GeometricMaternKernel (Hypersphere dim) lengthscale nu trainable_nu seed
                                      (Some 0%Z) num_eigenfunctions)
           = fst (GeometricMaternKernel (Hypersphere dim) lengthscale nu trainable_nu seed
                    None num_eigenfunctions)
        /\ (snd (GeometricMaternKernel (Hypersphere dim) lengthscale nu trainable_nu seed
                                       num_random_phases num_eigenfunctions) <> []
            <-> is_Some num_random_phases /\ is_Some num_eigenfunctions
                /\ is_ok (BaseMaternKernel_init (Hypersphere dim) seed) = true)).
Proof.
  split; [reflexivity|]. split; [reflexivity|]. split; [reflexivity|].
  intros trainable_nu.
  unfold Kernels.GeometricMaternKernel, GeometricMaternKernel_init. simpl.
  destruct (BaseMaternKernel_init (Hypersphere dim) seed) as [base|e]; simpl.
  - split; [|split].
    + intros n Hn. apply Z.eqb_neq in Hn. rewrite Hn. reflexivity.
    + reflexivity.
    + destruct num_random_phases, num_eigenfunctions; simpl;
        (split;
         [ intros Hx; first [exfalso; apply Hx; reflexivity | repeat split; eauto]
         | intros (H1 & H2 & _);
           first [ discriminate
                 | destruct H1 as [? H1]; discriminate H1
                 | destruct H2 as [? H2]; discriminate H2 ] ]).
  - split; [reflexivity|]. split; [reflexivity|].
    split; [intros Hc; contradiction|]. intros (_ & _ & Hf). discriminate Hf.
Qed.

End Kernels.

End KernelFacts.

(* ===================================================================== *)
(** ** Facts about the deep GP with spherical harmonic features
       (experiments/uci/model/geometric.py) *)
(* ===================================================================== *)

Module GeometricFacts.
Import Kernels Geometric.

Lemma dimension_supported (d h : Z) :
  dimension_to_num_harmonics_variational d = Ok h -> d = 4%Z \/ d = 6%Z \/ d = 8%Z.
Proof.
  unfold dimension_to_num_harmonics_variational.
  destruct (d =? 4)%Z eqn:E4; [apply Z.eqb_eq in E4; auto|].
  destruct (d =? 6)%Z eqn:E6; [apply Z.eqb_eq in E6; auto|].
  destruct (d =? 8)%Z eqn:E8; [apply Z.eqb_eq in E8; auto|].
  discriminate.
Qed.

Lemma dimension_unsupported (d : Z) :
  d <> 4%Z -> d <> 6%Z -> d <> 8%Z ->
  dimension_to_num_harmonics_variational d = Raise (KeyError (pretty d)).
Proof.
  intros H4 H6 H8. unfold dimension_to_num_harmonics_variational.
  apply Z.eqb_neq in H4, H6, H8. rewrite H4, H6, H8. reflexivity.
Qed.

Section Geometric.
Context {FeatureMap BaseKernel GpKernel Strategy : Type}.
Context {HK : KernelLibrary FeatureMap BaseKernel GpKernel} {HL : LayerLibrary Strategy}.

Abbreviation Layer := (@SHFDeepGPLayer FeatureMap GpKernel Strategy).
Abbreviation Model := (@SHFDeepGP FeatureMap GpKernel Strategy).
Abbreviation SHFDeepGPLayer_init :=
  (@Geometric.SHFDeepGPLayer_init FeatureMap BaseKernel GpKernel Strategy HK HL).
Abbreviation SHFDeepGP_init :=
  (@Geometric.SHFDeepGP_init FeatureMap BaseKernel GpKernel Strategy HK HL).

Lemma layer_fields (d : Z) (hidden : bool) (jitter_val : option float) (optimize_nu : bool)
    (output_dims : option Z) (layer : Layer) :
  SHFDeepGPLayer_init d hidden jitter_val optimize_nu output_dims = Ok layer ->
  (d = 4%Z \/ d = 6%Z \/ d = 8%Z)
  /\ Geometric.input_dims layer = (d + 1)%Z
  /\ Geometric.output_dims layer = output_dims
  /\ Geometric.outputscale layer
     = (if hidden then INNER_LAYER_VARIANCE else OUTPUT_LAYER_VARIANCE).
Proof.
  unfold Geometric.SHFDeepGPLayer_init.
  destruct (dimension_to_num_harmonics_variational d) as [h|e] eqn:Hd; simpl; [|discriminate].
  apply dimension_supported in Hd.
  repeat match goal with
         | |- context [res_bind ?x _] => destruct x; simpl; [|discriminate]
         end.
  intros [= <-]. simpl. auto.
Qed.

Lemma layer_unsupported (d : Z) (hidden : bool) (jitter_val : option float)
    (optimize_nu : bool) (output_dims : option Z) :
  d <> 4%Z -> d <> 6%Z -> d <> 8%Z ->
  SHFDeepGPLayer_init d hidden jitter_val optimize_nu output_dims
  = Raise (KeyError (pretty d)).
Proof.
  intros H4 H6 H8. unfold Geometric.SHFDeepGPLayer_init.
  rewrite (dimension_unsupported d H4 H6 H8). reflexivity.
Qed.

Lemma build_all_ok (n : nat) (build : res Layer) (l : list Layer) :
  build_all n build = Ok l -> length l = n /\ Forall (fun layer => build = Ok layer) l.
Proof.
  revert l. induction n as [|n IH]; intros l; simpl.
  - intros [= <-]. split; [reflexivity|constructor].
  - destruct build as [layer|e] eqn:Hb; simpl; [|discriminate].
    destruct (build_all n (Ok layer)) as [rest|e]; simpl; [|discriminate].
    intros [= <-]. destruct (IH rest eq_refl) as [Hlen Hall].
    split; [simpl; rewrite Hlen; reflexivity|]. constructor; [reflexivity|exact Hall].
Qed.

(** X30 (geometric.py, [SHFDeepGP.__init__] and
    [SHFDeepGPLayer.__init__]): once the space [Hypersphere(dimension)]
    exists, the model cannot be built with the default [num_layers=None]
    (TypeError), nor on a data set whose dimension is not 4, 6 or 8
    (KeyError of the dimension, from the table of harmonics), however many
    layers are asked for.  A model that is built for [num_layers = n] has
    [n - 1] hidden layers (none when [n] is one or less) followed by one
    output layer; every layer takes points of the embedding dimension
    [dimension + 1]; every hidden layer returns that dimension, so that
    each layer fits the next, and has the inner variance; the output layer
    returns [num_outputs] and has the output variance. *)
Theorem model_layers_chain (dataset : UCIDataset) (jitter_val : option float)
    (optimize_nu : bool) :
  (Hypersphere_init (dimension dataset) = Ok tt ->
   SHFDeepGP_init dataset None jitter_val optimize_nu = Raise (TypeError no_layers_message))
  /\ (Hypersphere_init (dimension dataset) = Ok tt ->
      dimension dataset <> 4%Z -> dimension dataset <> 6%Z -> dimension dataset <> 8%Z ->
      forall n,
        SHFDeepGP_init dataset (Some n) jitter_val optimize_nu
        = Raise (KeyError (pretty (dimension dataset))))
  /\ (forall (n : Z) (model : Model),
        SHFDeepGP_init dataset (Some n) jitter_val optimize_nu = Ok model ->
        exists (hidden_layers : list Layer) (output_layer : Layer),
          Geometric.layers model = hidden_layers ++ [output_layer]
          /\ length hidden_layers = Z.to_nat (n - 1)
          /\ Forall (fun layer =>
                       Geometric.input_dims layer = (dimension dataset + 1)%Z
                       /\ Geometric.output_dims layer = Some (dimension dataset + 1)%Z
                       /\ Geometric.outputscale layer = INNER_LAYER_VARIANCE) hidden_layers
          /\ Geometric.input_dims output_layer = (dimension dataset + 1)%Z
          /\ Geometric.output_dims output_layer = Some (num_outputs dataset)
          /\ Geometric.outputscale output_layer = OUTPUT_LAYER_VARIANCE
          /\ Geometric.space model = Hypersphere (dimension dataset)
          /\ (dimension dataset = 4%Z \/ dimension dataset = 6%Z \/ dimension dataset = 8%Z)).
Proof.
  split; [|split].
  { intros Hsp. unfold Geometric.SHFDeepGP_init. rewrite Hsp. reflexivity. }
  { intros Hsp H4 H6 H8 n. unfold Geometric.SHFDeepGP_init. rewrite Hsp. simpl.
    rewrite !(layer_unsupported _ _ _ _ _ H4 H6 H8).
    destruct (Z.to_nat (n - 1)); reflexivity. }
  intros n model. unfold Geometric.SHFDeepGP_init.
  destruct (Hypersphere_init (dimension dataset)) as [[]|e]; simpl; [|discriminate].
  destruct (build_all _ _) as [hidden_layers|e] eqn:Hh; simpl; [|discriminate].
  destruct (SHFDeepGPLayer_init (dimension dataset) false jitter_val optimize_nu
              (Some (num_outputs dataset))) as [output_layer|e] eqn:Ho; simpl; [|discriminate].
  destruct (MultitaskGaussianLikelihood (num_outputs dataset)) as [[]|e]; simpl;
    [|discriminate].
  intros [= <-]. simpl. exists hidden_layers, output_layer.
  apply build_all_ok in Hh as [Hlen Hall].
  apply layer_fields in Ho as (Hdim & Hi & Hod & Hs).
  split; [reflexivity|]. split; [exact Hlen|]. split; [|auto 10].
  eapply Forall_impl; [exact Hall|]. intros layer Hl.
  apply layer_fields in Hl as (_ & Hi' & Hod' & Hs'). auto.
Qed.

End Geometric.

End GeometricFacts.

(* ===================================================================== *)
(** ** Stubs: small deterministic collaborators, and runs on them *)
(* ===================================================================== *)

Module Stubs.
Import Surrogate BotorchFacts RunFacts.

Definition zero : float := fzero.
Definition one : float := fpos 1 0.
Definition two : float := fpos 1 1.
Definition three : float := fpos 3 0.

(** A deep GP whose weights are integers drawn from a counter; its
    predictive distribution remembers the weights and the points. *)
#[export] Instance stub_sampler : Sampler Z Z (Z * tensor) := {|
  draw := fun g => (g, (g + 1)%Z);
  predict := fun X _ _ w => Ok (w, X);
  observation_model := fun m => Ok m;
  as_posterior := fun _ => Ok tt
|}.

(** A reduction in the style of a backend that folds the values from left
    to right with torch's [minimum]: NaN when one of the two values is
    NaN, the first value when it is strictly below the second, and the
    second otherwise (of two values that compare equal the later one is
    kept). *)
Definition minimum (a b : float) : float :=
  if (isnan a || isnan b)%bool then fnan else if flt a b then a else b.

Definition min_of (l : list float) : res float :=
  match l with
  | [] => Raise (RuntimeError "min of an empty tensor")
  | v :: l' => Ok (fold_left minimum l' v)
  end.

Lemma tlt_nan_r (w : float) : tlt w fnan = false.
Proof.
  unfold tlt. rewrite TorchFacts.flt_nan_r. destruct (isnan w); reflexivity.
Qed.

(** What does not come before [a] does not come before anything that [a]
    does not come before. *)
Lemma tlt_above (w a b : float) : tlt w a = false -> tlt a b = false -> tlt w b = false.
Proof.
  intros Hwa Hab.
  destruct (isnan b) eqn:Hb; [destruct b; try discriminate Hb; apply tlt_nan_r|].
  destruct (isnan a) eqn:Ha.
  { unfold tlt in Hab. rewrite Ha, Hb in Hab. discriminate Hab. }
  assert (Hw : isnan w = false).
  { unfold tlt in Hwa. rewrite Ha in Hwa. destruct (isnan w); [discriminate Hwa|reflexivity]. }
  rewrite tlt_flt in * by assumption.
  destruct (flt w b) eqn:E; [|reflexivity].
  destruct (TorchFacts.flt_cotrans w b a Hw Hb Ha E) as [L|L]; congruence.
Qed.

Lemma minimum_least (a b : float) :
  (minimum a b = a \/ minimum a b = b)
  /\ tlt a (minimum a b) = false /\ tlt b (minimum a b) = false.
Proof.
  unfold minimum.
  destruct (isnan a) eqn:Ha.
  { destruct a; try discriminate Ha. simpl. repeat split; auto using tlt_nan_r. }
  destruct (isnan b) eqn:Hb.
  { destruct b; try discriminate Hb. simpl. repeat split; auto using tlt_nan_r. }
  simpl. destruct (flt a b) eqn:E.
  - split; [auto|]. split; [apply tlt_irrefl|].
    rewrite tlt_flt by assumption.
    destruct (flt b a) eqn:E'; [|reflexivity].
    pose proof (TorchFacts.flt_trans a b a Ha Hb Ha E E') as Hbad.
    rewrite TorchFacts.flt_irrefl in Hbad. discriminate Hbad.
  - split; [auto|]. split; [|apply tlt_irrefl].
    rewrite tlt_flt by assumption. exact E.
Qed.

Lemma fold_minimum_least (l seen : list float) (a : float) :
  a ∈ seen -> Forall (fun w => tlt w a = false) seen ->
  fold_left minimum l a ∈ seen ++ l
  /\ Forall (fun w => tlt w (fold_left minimum l a) = false) (seen ++ l).
Proof.
  revert seen a. induction l as [|b l IH]; intros seen a Hin Hall; simpl.
  - rewrite app_nil_r. auto.
  - replace (seen ++ b :: l) with ((seen ++ [b]) ++ l) by (rewrite <- app_assoc; reflexivity).
    destruct (minimum_least a b) as (Hm & Ha & Hb).
    apply IH.
    + apply elem_of_app. destruct Hm as [->| ->]; [left; exact Hin|].
      right. apply elem_of_cons. left. reflexivity.
    + apply Forall_app. split; [|constructor; [exact Hb|constructor]].
      eapply Forall_impl; [exact Hall|]. intros w Hw. exact (tlt_above w a _ Hw Ha).
Qed.

Lemma min_of_least (v : float) (l : list float) :
  exists m, min_of (v :: l) = Ok m
            /\ m ∈ v :: l
            /\ Forall (fun w => tlt w m = false) (v :: l).
Proof.
  exists (fold_left minimum l v). split; [reflexivity|].
  apply (fold_minimum_least l [v] v).
  - apply elem_of_cons. left. reflexivity.
  - constructor; [apply tlt_irrefl|constructor].
Qed.

#[export] Instance stub_min : Reductions := {|
  tmin := min_of;
  tmin_least := min_of_least
|}.

(** The score depends on the weights: even weights score one, odd weights
    score three. *)
#[export] Instance stub_surrogate : Surrogate (deep_gp Z Z) (Z * tensor) := {|
  optimizer_t := unit;
  mll_t := unit;
  create_base := fun _ _ _ _ => Ok (MkDeepGP 0%Z 1%Z true);
  optimizer_factory := fun _ _ => Ok tt;
  mll_factory := fun _ _ => Ok tt;
  fit_gpytorch_mll := fun _ b => Ok b;
  fit := fun _ _ _ _ _ _ b => Ok b;
  acqf_score := fun _ p => Tensor [1] [if Z.even (fst (mvn p)) then one else three];
  sphere_kmeans_centers := fun x k => take (Z.to_nat k) x;
  sample_method := "naive"
|}.

Definition raw_points : tensor := Tensor [2; 1; 3] [one; zero; zero; zero; one; zero].
Definition seeds : tensor := Tensor [1; 1; 3] [zero; zero; one].
Definition nan_seeds : tensor := Tensor [1; 1; 3] [zero; fnan; one].

(** The seeds come from one look at the raw points (NaN seeds when no raw
    sample is asked for); the refinement looks at the seeds once and
    returns them. *)
#[export] Instance stub_optim : Optim := {|
  gen_batch_initial_conditions := fun _ _ raw_samples _ =>
    if (raw_samples =? 0)%Z then QRet nan_seeds
    else QEval raw_points (fun _ => QRet seeds);
  optimize_acqf := fun _ _ _ _ gen_candidates bic => gen_candidates bic;
  gen_candidates_manifold := fun ic _ _ => QEval ic (fun v => QRet (ic, v))
|}.

(** The objective is two at the north pole and one elsewhere. *)
Definition target (p : point) : res float :=
  match p with
  | [_; _; S754_finite false 1 0] => Ok two
  | _ => Ok one
  end.

Definition initial_data : list point := [[one; zero; zero]].

Definition args (iterations : Z) (maximize : bool) (manifold_name : string) : BOArguments :=
  MkBOArguments manifold_name 2 iterations 5 100 1 maximize
                "log_expected_improvement" "steepest_descent" 100 0.

Definition schedule (switch : option Z) : Schedule := MkSchedule switch false 0.
Definition fit_arguments : FitArguments := MkFitArguments one 10 5 2.

Definition final_state (o : outcome) : bo_state :=
  match o with
  | Finished _ st => st
  | InitFailed _ => MkState [] [] [] fnan "" []
  end.

(** Two iterations of a maximising configuration on the exact family. *)
Definition run_max : outcome :=
  Eval vm_compute in
    run_bo initial_data target (args 2 true "sphere") (schedule None) "exact" fit_arguments.

(** Three iterations that start on "deep" and switch at iteration 1. *)
Definition run_switch : outcome :=
  Eval vm_compute in
    run_bo initial_data target (args 3 false "sphere") (schedule (Some 1%Z)) "deep"
           fit_arguments.

(** Two iterations that start on "exact" with the same kind of schedule. *)
Definition run_exact : outcome :=
  Eval vm_compute in
    run_bo initial_data target (args 2 false "sphere") (schedule (Some 1%Z)) "exact"
           fit_arguments.

(** One iteration on an unknown manifold. *)
Definition run_torus : outcome :=
  Eval vm_compute in
    run_bo initial_data target (args 1 false "torus") (schedule None) "exact" fit_arguments.

Example run_max_observations :
  bo_y (final_state run_max) = [one; two; two]
  /\ best_y (final_state run_max) = one
  /\ best_x (final_state run_max) = [one; zero; zero].
Proof. repeat split. Qed.

Example run_switch_trace :
  trace (final_state run_switch)
  = [ ECreate 0 "exact"; EFit "exact" None;
      EBase (Tensor [2; 3] (data raw_points)) "naive" true;
      EBase (Tensor [3] (data seeds)) "naive" false;
      EObserve [zero; zero; one] two; ELog [one; zero; zero] one;
      ECreate 1 "deep"; EFit "deep" (Some 2%Z);
      EResample;
      EBase (Tensor [2; 3] (data raw_points)) "naive" true;
      EBase (Tensor [3] (data seeds)) "naive" false;
      EObserve [zero; zero; one] two; ELog [one; zero; zero] one;
      ECreate 2 "deep"; EFit "deep" (Some 2%Z);
      EResample;
      EBase (Tensor [2; 3] (data raw_points)) "naive" true;
      EBase (Tensor [3] (data seeds)) "naive" false;
      EObserve [zero; zero; one] two; ELog [one; zero; zero] one ].
Proof. reflexivity. Qed.

Example run_torus_trace :
  run_torus
  = Finished (Raise (ValueError "Unknown manifold torus"))
             (MkState initial_data [one] [one; zero; zero] one "exact"
                      [ECreate 0 "exact"; EFit "exact" None]).
Proof. reflexivity. Qed.

(** A constant objective: every new observation ties with the first one,
    and the first one stays the best. *)
Example ties_keep_the_earlier_best :
  match run_bo initial_data (fun _ => Ok one) (args 2 false "sphere") (schedule None)
               "exact" fit_arguments with
  | Finished r st =>
      r = Ok tt /\ bo_y st = [one; one; one] /\ best_x st = [one; zero; zero]
      /\ bo_x st = [[one; zero; zero]; [zero; zero; one]; [zero; zero; one]]
  | InitFailed _ => False
  end.
Proof. vm_compute. repeat split. Qed.

(** The comparison of floats on a few values. *)
Example flt_values :
  flt one two = true /\ flt two one = false /\ flt one one = false
  /\ flt fnan one = false /\ flt one fnan = false
  /\ flt (S754_zero true) (S754_zero false) = false
  /\ flt (fneg 1 0) zero = true.
Proof. repeat split. Qed.

(** The property [space] reads the two fields that [create_model] does not
    read. *)
Example space_reads_the_fields :
  Model.space (Model.with_space "torus" 3 Model.ModelArguments_default)
  = Raise (ValueError "Unknown space: torus. Must be one of ['hypersphere'].")
  /\ Model.space (Model.with_space "hypersphere" 3 Model.ModelArguments_default)
     = Ok (Model.Hypersphere 3)
  /\ Model.space_of
       (match Model.create_model (fun n => Tensor [Z.to_nat n; 3] [])
                (Model.with_space "torus" 3 Model.ModelArguments_default) with
        | Ok m => m
        | Raise _ => Model.EuclideanDeepGP (Tensor [] []) (Model.GammaPrior one one) 0 one false
        end)
     = Some (Model.Hypersphere 2).
Proof. repeat split. Qed.

(** *** Runs that instantiate the theorems *)

Lemma run_max_no_nan : no_nan (bo_y (final_state run_max)).
Proof. repeat constructor. Qed.

(** C1. The failing input: two iterations with [maximize=True] and an
    objective that is one at the initial point and two at the point the
    optimiser proposes.  The loop never reads the flag: the run ends with
    the best value one at the initial point, the first minimum of the
    observed values one, two, two, where the claim asks for the first
    maximum, the value two at the point that was proposed first. *)
Theorem maximising_run_tracks_the_minimum :
  run_bo initial_data target (args 2 true "sphere") (schedule None) "exact" fit_arguments
  = Finished (Ok tt) (final_state run_max)
  /\ maximize (args 2 true "sphere") = true
  /\ bo_x (final_state run_max) = [[one; zero; zero]; [zero; zero; one]; [zero; zero; one]]
  /\ bo_y (final_state run_max) = [one; two; two]
  /\ best_x (final_state run_max) = [one; zero; zero]
  /\ best_y (final_state run_max) = one
  /\ first_best false (bo_x (final_state run_max)) (bo_y (final_state run_max))
                 (best_x (final_state run_max)) (best_y (final_state run_max))
  /\ first_best true (bo_x (final_state run_max)) (bo_y (final_state run_max))
                 [zero; zero; one] two
  /\ ~ first_best true (bo_x (final_state run_max)) (bo_y (final_state run_max))
                   (best_x (final_state run_max)) (best_y (final_state run_max)).
Proof.
  split; [vm_compute; reflexivity|].
  split; [reflexivity|]. split; [reflexivity|]. split; [reflexivity|].
  split; [reflexivity|]. split; [reflexivity|].
  split.
  { apply (run_bo_first_minimum initial_data target (args 2 true "sphere") (schedule None)
             "exact" fit_arguments (Ok tt) (final_state run_max)).
    - vm_compute. reflexivity.
    - exact run_max_no_nan. }
  split.
  { split; [apply elem_of_cons; right; apply elem_of_cons; left; reflexivity|].
    split.
    - intros [|[|[|j]]] v Hj; simpl in Hj; try discriminate Hj;
        injection Hj as <-; reflexivity.
    - exists 1, two. split; [reflexivity|]. split; [reflexivity|].
      split; [split; reflexivity|].
      intros [|j] w Hj Hw; [|lia]. simpl in Hw. injection Hw as <-. reflexivity. }
  intros (_ & Hle & _). specialize (Hle 1 two eq_refl). vm_compute in Hle. discriminate Hle.
Qed.

(** C1, as stated, fails: with [maximize=True] the loop still tracks the
    minimum; after the observations one, two, two the best value is one. *)
Lemma best_follows_orientation_fails : ~ best_follows_orientation.
Proof.
  intros Hclaim.
  specialize (Hclaim initial_data target (args 2 true "sphere") (schedule None) "exact"
                     fit_arguments (Ok tt) (final_state run_max) eq_refl run_max_no_nan).
  destruct Hclaim as (_ & Hle & _).
  specialize (Hle 1 two eq_refl). vm_compute in Hle. discriminate.
Qed.

Lemma run_bo_switches_at_schedule_witness :
  exists n,
    n <= Z.to_nat (num_iter (args 3 false "sphere"))
    /\ created (trace (final_state run_switch))
       = map (fun i => (i, family_at 1 i)) (seq 0 n)
    /\ (is_ok (Ok tt) = true -> n = Z.to_nat (num_iter (args 3 false "sphere"))).
Proof.
  apply (run_bo_switches_at_schedule initial_data target (args 3 false "sphere")
           (schedule (Some 1%Z)) fit_arguments 1%Z (Ok tt) (final_state run_switch)).
  - reflexivity.
  - vm_compute. reflexivity.
Defined.

(** C2, as stated, fails: a run that starts on "exact" with a schedule
    that switches at iteration 1 still asks for "exact" at iteration 1. *)
Lemma switches_from_any_start_fails : ~ switches_from_any_start.
Proof.
  intros Hclaim.
  specialize (Hclaim initial_data target (args 2 false "sphere") (schedule (Some 1%Z)) "exact"
                     fit_arguments 1%Z (Ok tt) (final_state run_exact) eq_refl eq_refl
                     1 "exact").
  assert (Hin : In (1, "exact") (created (trace (final_state run_exact)))).
  { vm_compute. auto. }
  specialize (Hclaim Hin). vm_compute in Hclaim. discriminate.
Qed.

Definition state0 : bo_state := MkState initial_data [one] [one; zero; zero] one "deep" [].

Lemma deep_iteration_resamples_once_witness :
  let run := bo_iteration target (args 3 false "sphere") (schedule None) fit_arguments
                          "deep" 0 state0 in
  let model := fitted_model (schedule None) fit_arguments "deep" 0 state0 in
  fst model = Ok (MkDeepGP 0%Z 1%Z true)
  /\ exists bases post,
       trace (snd run) = trace (snd model) ++ EResample :: bases ++ post
       /\ Forall is_base bases
       /\ base_flags bases = frozen_flags (length bases)
       /\ Forall quiet post.
Proof.
  split; [reflexivity|].
  exact (proj1 (proj2 (proj2
           (deep_iteration_resamples_once target (args 3 false "sphere") (schedule None)
              fit_arguments "deep" 0 state0 eq_refl)))
           (MkDeepGP 0%Z 1%Z true) eq_refl).
Defined.

(** The events of that iteration. *)
Example deep_iteration_trace :
  trace (snd (bo_iteration target (args 3 false "sphere") (schedule None) fit_arguments
                           "deep" 0 state0))
  = [ ECreate 0 "deep"; EFit "deep" (Some 10%Z);
      EResample;
      EBase (Tensor [2; 3] (data raw_points)) "naive" true;
      EBase (Tensor [3] (data seeds)) "naive" false;
      EObserve [zero; zero; one] two; ELog [one; zero; zero] one ].
Proof. reflexivity. Qed.

(** When the optimiser raises before it evaluates anything (no raw sample
    is asked for, and the seeds hold a NaN), the weights have been
    resampled all the same. *)
Example deep_iteration_nan_seeds :
  bo_iteration target (MkBOArguments "sphere" 2 3 5 0 1 false
                         "log_expected_improvement" "steepest_descent" 100 0)
               (schedule None) fit_arguments "deep" 0 state0
  = (Raise (AssertionError nan_message),
     MkState initial_data [one] [one; zero; zero] one "deep"
             [ECreate 0 "deep"; EFit "deep" (Some 10%Z); EResample]).
Proof. reflexivity. Qed.

(** A base model that keeps count of its calls; its first call raises (a
    matrix that is not positive definite, say) and the later calls return.
    Its likelihood raises. *)
Definition flaky_base : BaseModel nat tensor := {|
  base_call := fun X _ _ n =>
    (if Nat.eqb n 0 then Raise (RuntimeError "matrix not positive definite") else Ok X, S n);
  likelihood_call := fun _ => Raise (RuntimeError "no likelihood");
  GPyTorchPosterior_init := fun _ => Ok tt;
  set_training := fun _ n => n
|}.

Definition flaky_model (calls_so_far : nat) : BotorchGP nat :=
  MkBotorchGP calls_so_far "naive" true true [].

(** Three evaluations after [resample_weights()], the first of which
    raises in the base model: the second one passes [True] again. *)
Example flaky_evaluations :
  let gp := @evaluate_each nat tensor flaky_base
              [(seeds, false, None); (seeds, false, None); (seeds, false, None)]
              (snd (resample_weights (flaky_model 0))) in
  base_flags (calls gp) = [true; true; false]
  /\ is_ok (fst (@posterior nat tensor flaky_base seeds false None
                            (snd (resample_weights (flaky_model 0))))) = false.
Proof. split; reflexivity. Qed.

(** C3, as stated, fails: after [resample_weights()] an evaluation that
    raises in the base model leaves the flag set, and the evaluation after
    it calls the base model with [resample_weights=True] once more. *)
Lemma later_evaluations_keep_weights_fails :
  ~ @later_evaluations_keep_weights nat tensor flaky_base.
Proof.
  intros Hclaim.
  destruct (Hclaim [(seeds, false, None); (seeds, false, None)] (flaky_model 0))
    as (bases & Hc & Hfl).
  vm_compute in Hc. injection Hc as <-. vm_compute in Hfl. discriminate Hfl.
Qed.

(** An acquisition function for the counter state: it counts its
    evaluations. *)
Definition counting_acq (X : tensor) : M nat tensor := fun n => (Ok X, S n).

Lemma nan_initial_conditions_abort_witness :
  optimize_acqf_manifold counting_acq (MkBOArguments "sphere" 2 1 5 0 1 false
      "log_expected_improvement" "steepest_descent" 100 0) 0
  = (Raise (AssertionError nan_message), 0).
Proof.
  apply (BoFacts.nan_initial_conditions_abort counting_acq
           (MkBOArguments "sphere" 2 1 5 0 1 false
              "log_expected_improvement" "steepest_descent" 100 0) 0 0 nan_seeds).
  - reflexivity.
  - exists 1, fnan. split; reflexivity.
Defined.

(** C5, as stated, fails: with the unknown manifold "torus" the first
    iteration has created and fitted its model when the error is raised. *)
Lemma resolved_before_the_loop_fails : ~ resolved_before_the_loop.
Proof.
  intros Hclaim.
  specialize (Hclaim initial_data target (args 1 false "torus") (schedule None) "exact"
                     fit_arguments (ValueError "Unknown manifold torus")
                     (Raise (ValueError "Unknown manifold torus"))
                     (final_state run_torus) eq_refl eq_refl).
  vm_compute in Hclaim. discriminate.
Qed.

Definition model0 : BotorchGP (deep_gp Z Z) := init (MkDeepGP 0%Z 1%Z true) "naive".

Definition first_evaluation : res tensor * BotorchGP (deep_gp Z Z) :=
  Eval vm_compute in acq_function one seeds model0.

Lemma acquisition_scores_repeat_witness :
  exists gp2 X',
    acq_function one seeds (snd first_evaluation) = (Ok (Tensor [1] [three]), gp2)
    /\ SurrogateFacts.last_call gp2 = Some (EBase X' (posterior_sample_method model0) false)
    /\ weights (base_model gp2) = weights (base_model (snd first_evaluation))
    /\ source (base_model gp2) = source (base_model (snd first_evaluation))
    /\ _resample_weights (snd first_evaluation) = false
    /\ _resample_weights gp2 = false.
Proof.
  apply (SurrogateFacts.acquisition_scores_repeat one seeds model0 (snd first_evaluation)
           (Tensor [1] [three])).
  reflexivity.
Defined.

(** Resampling in between changes the score: the weights are part of it. *)
Example resampling_changes_the_score :
  fst ((resample_weights ;;; acq_function one seeds) (snd first_evaluation))
  = Ok (Tensor [1] [one]).
Proof. reflexivity. Qed.

Lemma forward_squeezes_singleton_witness :
  forward raw_points "naive" true model0
  = call_base (Tensor [2; 3] (data raw_points)) "naive" true model0
  /\ calls (snd (forward raw_points "naive" true model0))
     = calls model0 ++ [EBase (Tensor [2; 3] (data raw_points)) "naive" true].
Proof.
  apply (proj1 (forward_squeezes_singleton raw_points [2] 1 3 "naive" true model0 eq_refl)).
  reflexivity.
Defined.

(** *** Configurations on disk *)

Import Model Reproducibility ReproFacts.

Record DataArgs : Type := MkDataArgs { dataset_name : string; num_train : Z }.
Record TrainingArgs : Type := MkTrainingArgs { num_epochs : Z; sample_hidden : string }.

#[export] Instance DataArgs_dataclass : Dataclass DataArgs := {|
  asdict := fun d => JObj [("dataset_name", JStr (dataset_name d));
                           ("num_train", JInt (num_train d))];
  of_keywords := fun j =>
    res_bind (as_dict j) (fun d =>
    res_bind (check_keywords ["dataset_name"; "num_train"] d) (fun _ =>
    res_bind (kw_str "dataset_name" "sphere_synthetic" d) (fun f1 =>
    res_bind (kw_int "num_train" 400 d) (fun f2 =>
    Ok (MkDataArgs f1 f2)))));
  default := MkDataArgs "sphere_synthetic" 400
|}.

#[export] Instance TrainingArgs_dataclass : Dataclass TrainingArgs := {|
  asdict := fun t => JObj [("num_epochs", JInt (num_epochs t));
                           ("sample_hidden", JStr (sample_hidden t))];
  of_keywords := fun j =>
    res_bind (as_dict j) (fun d =>
    res_bind (check_keywords ["num_epochs"; "sample_hidden"] d) (fun _ =>
    res_bind (kw_int "num_epochs" 1000 d) (fun f1 =>
    res_bind (kw_str "sample_hidden" "naive" d) (fun f2 =>
    Ok (MkTrainingArgs f1 f2)))));
  default := MkTrainingArgs 1000 "naive"
|}.

#[export] Instance DataArgs_rebuilds : Rebuilds DataArgs.
Proof. intros []. reflexivity. Defined.

#[export] Instance TrainingArgs_rebuilds : Rebuilds TrainingArgs.
Proof. intros []. reflexivity. Defined.

(** An experiment that writes a journal of what ran, and whose training
    raises when no epoch is asked for. *)
#[export] Instance stub_experiment : @Experiment DataArgs TrainingArgs (list string) := {|
  data_t := unit;
  Reproducibility.sphere_uniform_grid := fun n => Tensor [Z.to_nat n; 3] [];
  get_data := fun _ '(fs, journal) => (Ok tt, (fs, journal ++ ["data"]));
  train_and_test := fun _ _ c _ '(fs, journal) =>
    (if (num_epochs (training_arguments c) =? 0)%Z
     then Raise (RuntimeError "no epochs") else Ok tt,
     (fs, journal ++ ["train"]));
  seed_everything := fun _ journal => journal ++ ["seed"]
|}.

Definition config (epochs : Z) (st : ExperimentStatus) (file_name : string)
  : ExperimentConfig DataArgs TrainingArgs :=
  MkExperimentConfig ModelArguments_default (MkDataArgs "sphere_synthetic" 400)
                     (MkTrainingArgs epochs "naive") 0 st file_name.

Definition run_dir : string := "/exp/default/run_0".
Definition config_path : string := "/exp/default/run_0/config.json".

Definition disk (epochs : Z) (st : ExperimentStatus) : files :=
  {[ config_path := JObj (to_dict (config epochs st "config.json")) ]}.

Lemma to_json_from_json_roundtrip_witness :
  exists fs',
    to_json (config 10 READY "config.json") run_dir ∅ = (Ok tt, fs')
    /\ from_json (os_path_join run_dir (file_name (config 10 READY "config.json"))) fs'
       = (Ok (config 10 READY "config.json"), fs').
Proof.
  apply (to_json_from_json_roundtrip (config 10 READY "config.json") run_dir ∅).
  - reflexivity.
  - discriminate.
Defined.

(** C10, as stated, fails: a configuration whose [file_name] names a file
    in a sub-directory is read back with the base name only. *)
Lemma roundtrip_for_every_config_fails :
  ~ @roundtrip_for_every_config DataArgs TrainingArgs _ _.
Proof.
  intros Hclaim.
  destruct (Hclaim (config 10 READY "sub/config.json") "/exp" ∅) as (fs' & Hw & Hr).
  assert (Hfs : fs' = <["/exp/sub/config.json" := JObj (to_dict (config 10 READY "sub/config.json"))]> ∅).
  { unfold to_json in Hw. unfold_monad. simpl in Hw. injection Hw as <-. reflexivity. }
  subst fs'.
  change (os_path_join "/exp" (file_name (config 10 READY "sub/config.json")))
    with "/exp/sub/config.json" in Hr.
  rewrite from_json_written in Hr. discriminate Hr.
Qed.

Lemma reader_records_outcome_witness :
  let c_run := set_status RUNNING (config 10 FAILED "config.json") in
  let fs_run := <[config_path := JObj (to_dict c_run)]> (disk 10 FAILED) in
  let '(r, (_, fs2, e2)) :=
    run_experiment c_run run_dir
      (c_run, fs_run, seed_everything (seed (config 10 FAILED "config.json")) []) in
  let final := if is_ok r then COMPLETED else FAILED in
  let fs3 := <[config_path := JObj (to_dict (set_status final (config 10 FAILED "config.json")))]> fs2 in
  main run_dir false "config.json" (disk 10 FAILED, []) = (r, (fs3, e2))
  /\ from_json config_path fs3 = (Ok (set_status final (config 10 FAILED "config.json")), fs3)
  /\ (final = FAILED <-> is_ok r = false).
Proof.
  refine (proj1 (reader_records_outcome run_dir "config.json" false (disk 10 FAILED) []
                   (config 10 FAILED "config.json") _ _ _) _).
  - reflexivity.
  - reflexivity.
  - vm_compute. reflexivity.
  - reflexivity.
Defined.

(** A run that raises is recorded as FAILED and raises out of [main]; the
    next call runs it again. *)
Example failed_run_is_recorded_and_rerun :
  let '(r1, (fs1, j1)) := main run_dir false "config.json" (disk 0 READY, []) in
  let '(r2, (fs2, j2)) := main run_dir false "config.json" (fs1, j1) in
  r1 = Raise (RuntimeError "no epochs")
  /\ fs1 = disk 0 FAILED
  /\ r2 = Raise (RuntimeError "no epochs")
  /\ j2 = ["seed"; "data"; "train"; "seed"; "data"; "train"].
Proof. vm_compute. repeat split. Qed.

(** A completed run is skipped by the next call without [overwrite]. *)
Example completed_run_is_skipped :
  let '(r1, (fs1, j1)) := main run_dir false "config.json" (disk 10 READY, []) in
  let '(r2, (fs2, j2)) := main run_dir false "config.json" (fs1, j1) in
  r1 = Ok tt /\ fs1 = disk 10 COMPLETED /\ r2 = Ok tt /\ fs2 = fs1
  /\ j2 = ["seed"; "data"; "train"].
Proof. vm_compute. repeat split. Qed.

(** *** Further runs on the stubs *)

Import WrapperFacts OptimiseFacts CreateFacts LoopFacts.

Definition flat_points : tensor := Tensor [3] [zero; zero; one].

Lemma short_input_raises_witness :
  forward flat_points "naive" true model0 = (Raise IndexError, model0)
  /\ posterior flat_points false None model0 = (Raise IndexError, set_mode false model0)
  /\ calls (snd (posterior flat_points false None model0)) = calls model0
  /\ _resample_weights (snd (posterior flat_points false None model0))
     = _resample_weights model0.
Proof.
  apply (short_input_raises flat_points "naive" true false None model0).
  unfold ndim. simpl. lia.
Defined.

(** An evaluation with observation noise on the model whose likelihood
    raises: [forward] has returned, so the flag is cleared, and the module
    stays in evaluation mode. *)
Lemma posterior_mode_and_flag_witness :
  let p := @posterior nat tensor flaky_base seeds true None (flaky_model 1) in
  fst p = Raise (RuntimeError "no likelihood")
  /\ _resample_weights (snd p) = false
  /\ training (snd p) = false.
Proof.
  cbv zeta.
  destruct (proj1 (proj2 (proj2 (proj2
              (@posterior_mode_and_flag nat tensor flaky_base seeds true None (flaky_model 1)))))
              (Tensor [1; 3] [zero; zero; one]) eq_refl) as [Hr Hf].
  split; [rewrite Hr; reflexivity|]. split; [exact Hf|].
  apply (proj1 (proj2
           (@posterior_mode_and_flag nat tensor flaky_base seeds true None (flaky_model 1)))).
  rewrite Hr. reflexivity.
Defined.

(** The wrapper after a call of [posterior] that raised is in evaluation
    mode; after a call that returned it is back in training mode. *)
Example posterior_modes :
  training model0 = true
  /\ training (snd (posterior flat_points false None model0)) = false
  /\ training (snd (posterior seeds false None model0)) = true.
Proof. repeat split. Qed.

Definition zero_mean_arguments : ModelArguments :=
  MkModelArguments "hypersphere" 2 "no_such_model" 1 60 20 false true
                   (fpos 5 (-1)) "exp" "intrinsic" false false (S754_zero true).

Definition grid (n : Z) : tensor := Tensor [Z.to_nat n; 3] [].

Lemma create_model_ignores_space_witness :
  exists m,
    create_model grid (with_space "torus" 7 ModelArguments_default) = Ok m
    /\ inducing_points_of m = grid (num_inducing ModelArguments_default)
    /\ space_of m = ModelFacts.space_of_family (Model.model_name ModelArguments_default).
Proof.
  apply (proj1 (proj2 (ModelFacts.create_model_ignores_space grid ModelArguments_default
                         "torus" 7))).
  - reflexivity.
  - simpl. left. reflexivity.
Defined.

Definition euclidean_arguments : ModelArguments :=
  MkModelArguments "hypersphere" 2 "euclidean" 1 60 20 false true
                   (fpos 5 (-1)) "exp" "intrinsic" false false (fpos 1 0).

Example euclidean_model :
  create_model grid euclidean_arguments
  = Ok (EuclideanDeepGP (grid 60) (GammaPrior (fpos 1 0) (fpos 4503599627370496 (-52)))
                        1 (fpos 5 (-1)) false).
Proof. reflexivity. Qed.

(** C8, as stated, fails: the model of the family "euclidean" is
    constructed without a space. *)
Lemma every_model_on_hypersphere_fails : ~ ModelFacts.every_model_on_hypersphere grid.
Proof.
  intros Hclaim.
  destruct (Hclaim euclidean_arguments _ euclidean_model) as [Hs _].
  discriminate Hs.
Qed.

Lemma create_model_zero_outputscale_witness :
  create_model grid zero_mean_arguments = Raise ZeroDivisionError
  /\ get_outputscale_prior (outputscale_mean zero_mean_arguments) = Raise ZeroDivisionError.
Proof.
  apply (create_model_zero_outputscale grid zero_mean_arguments).
  reflexivity.
Defined.

Definition state_exact : bo_state :=
  MkState initial_data [one] [one; zero; zero] one "exact" [].

Lemma other_families_never_resample_witness :
  let run := bo_iteration target (args 3 false "sphere") (schedule None) fit_arguments
                          "exact" 0 state_exact in
  exists evs,
    trace (snd run) = trace state_exact ++ evs
    /\ ~ In EResample evs
    /\ base_flags evs = frozen_flags (length (base_flags evs)).
Proof.
  apply (other_families_never_resample target (args 3 false "sphere") (schedule None)
           fit_arguments "exact" 0 state_exact).
  vm_compute. discriminate.
Defined.

Definition result_of (o : outcome) : res unit :=
  match o with
  | Finished r _ => r
  | InitFailed e => Raise e
  end.

Lemma run_bo_appends_observations_witness :
  exists y0,
    observe_all target initial_data = Ok y0
    /\ bo_x (final_state run_exact) = initial_data ++ map fst (observed (trace (final_state run_exact)))
    /\ bo_y (final_state run_exact) = y0 ++ map snd (observed (trace (final_state run_exact)))
    /\ Forall (fun xy => target (fst xy) = Ok (snd xy)) (observed (trace (final_state run_exact)))
    /\ (is_ok (Ok tt) = true ->
        length (observed (trace (final_state run_exact)))
        = Z.to_nat (num_iter (args 2 false "sphere")))
    /\ (is_ok (Ok tt) = false ->
        length (observed (trace (final_state run_exact)))
        < Z.to_nat (num_iter (args 2 false "sphere"))).
Proof.
  apply (run_bo_appends_observations initial_data target (args 2 false "sphere")
           (schedule (Some 1%Z)) "exact" fit_arguments (Ok tt) (final_state run_exact)).
  vm_compute. reflexivity.
Defined.

(** An objective that falls from one observation to the next: two at the
    first point, one at the pole. *)
Definition falling_target (p : point) : res float :=
  match p with
  | [_; _; S754_finite false 1 0] => Ok one
  | _ => Ok two
  end.

Definition run_falling : outcome :=
  Eval vm_compute in
    run_bo initial_data falling_target (args 2 false "sphere") (schedule None) "exact"
           fit_arguments.

Lemma best_value_never_worsens_witness :
  exists y0 b0,
    observe_all falling_target initial_data = Ok y0 /\ tmin y0 = Ok b0
    /\ improves b0 (map snd (logged (trace (final_state run_falling))))
    /\ last (b0 :: map snd (logged (trace (final_state run_falling))))
       = Some (best_y (final_state run_falling))
    /\ length (logged (trace (final_state run_falling)))
       = length (observed (trace (final_state run_falling)))
    /\ best_y (final_state run_falling) ∈ bo_y (final_state run_falling)
    /\ exists i v, bo_x (final_state run_falling) !! i = Some (best_x (final_state run_falling))
                   /\ bo_y (final_state run_falling) !! i = Some v
                   /\ same_value v (best_y (final_state run_falling)).
Proof.
  apply (best_value_never_worsens initial_data falling_target (args 2 false "sphere")
           (schedule None) "exact" fit_arguments (Ok tt) (final_state run_falling)).
  vm_compute. reflexivity.
Defined.

(** The two zeros compare equal.  With an objective that is -0.0 at the
    first initial point and +0.0 at the second, the best point is the
    first row, the index [y.argmin()] returns, and the best value is what
    the reduction [y.min()] returns, +0.0 with this backend: the value
    observed at the best point equals the best value without being the
    same float. *)
Definition zeros_target (p : point) : res float :=
  match p with
  | S754_finite false 1 0 :: _ => Ok (S754_zero true)
  | _ => Ok (S754_zero false)
  end.

Example signed_zeros :
  run_bo_init [[one; zero; zero]; [zero; one; zero]] zeros_target "exact"
  = Ok (MkState [[one; zero; zero]; [zero; one; zero]] [S754_zero true; S754_zero false]
                [one; zero; zero] (S754_zero false) "exact" [])
  /\ same_value (S754_zero true) (S754_zero false)
  /\ S754_zero true <> S754_zero false.
Proof. split; [reflexivity|]. split; [split; reflexivity|discriminate]. Qed.

Example run_falling_log :
  map snd (logged (trace (final_state run_falling))) = [one; one]
  /\ bo_y (final_state run_falling) = [two; one; one]
  /\ best_x (final_state run_falling) = [zero; zero; one].
Proof. repeat split. Qed.

Lemma kmeans_by_point_width_witness :
  run_bo initial_data target (args 2 false "sphere") (MkSchedule None true 3) "exact"
         fit_arguments
  = run_bo initial_data target (args 2 false "sphere")
           (without_kmeans (MkSchedule None true 3)) "exact" fit_arguments.
Proof.
  apply (kmeans_by_point_width initial_data target (args 2 false "sphere")
           (MkSchedule None true 3) "exact" fit_arguments).
  vm_compute. discriminate.
Defined.

Lemma run_without_deep_start_witness :
  let family := family_without_deep (switch_to_deep_iter (schedule (Some 1%Z))) "exact" in
  exists n,
    n <= Z.to_nat (num_iter (args 2 false "sphere"))
    /\ created (trace (final_state run_exact)) = map (fun i => (i, family)) (seq 0 n)
    /\ (is_ok (Ok tt) = true -> n = Z.to_nat (num_iter (args 2 false "sphere")))
    /\ ((0 < num_iter (args 2 false "sphere"))%Z
        -> Run.model_name (final_state run_exact) = family).
Proof.
  apply (run_without_deep_start initial_data target (args 2 false "sphere")
           (schedule (Some 1%Z)) "exact" fit_arguments (Ok tt) (final_state run_exact)).
  - discriminate.
  - vm_compute. reflexivity.
Defined.

(** Two iterations asked for on a family the loop does not know. *)
Definition run_sparse : outcome :=
  Eval vm_compute in
    run_bo initial_data target (args 2 false "sphere") (schedule None) "sparse" fit_arguments.

Lemma run_bo_unknown_family_witness :
  is_ok (result_of run_sparse) = false
  /\ bo_x (final_state run_sparse) = initial_data
  /\ trace (final_state run_sparse) = [ECreate 0 "sparse"]
  /\ ((forall x y ip, is_ok (create_base "sparse" x y ip) = true) ->
      (forall b l, is_ok (optimizer_factory b l) = true) ->
      (forall b y, is_ok (mll_factory b y) = true) ->
      result_of run_sparse = Raise (ValueError ("Unknown model name: " +:+ "sparse"))).
Proof.
  apply (run_bo_unknown_family initial_data target (args 2 false "sphere") (schedule None)
           "sparse" fit_arguments (result_of run_sparse) (final_state run_sparse)).
  - discriminate.
  - discriminate.
  - exact I.
  - reflexivity.
  - vm_compute. reflexivity.
Defined.
(** *** Further configurations on disk *)

Import ConfigFacts Naming NamingFacts Tree TreeFacts Crawl CrawlFacts.

Lemma running_status_runs_again_witness :
  enter config_path true (disk 10 RUNNING) = (Ok (config 10 RUNNING "config.json"), disk 10 RUNNING)
  /\ let '(r, (_, fs2, e2)) :=
       run_experiment (config 10 RUNNING "config.json") run_dir
         (config 10 RUNNING "config.json", disk 10 RUNNING,
          seed_everything (seed (config 10 RUNNING "config.json")) []) in
     let final := if is_ok r then COMPLETED else FAILED in
     main run_dir true "config.json" (disk 10 RUNNING, [])
     = (r, (<[config_path := JObj (to_dict (set_status final (config 10 RUNNING "config.json")))]> fs2,
            e2)).
Proof.
  refine (running_status_runs_again run_dir "config.json" true (disk 10 RUNNING) []
            (config 10 RUNNING "config.json") _ _ _ _).
  - reflexivity.
  - reflexivity.
  - vm_compute. reflexivity.
  - reflexivity.
Defined.

Lemma unreadable_config_runs_nothing_witness :
  @main DataArgs TrainingArgs _ _ (list string) _ run_dir false "config.json" (∅, [])
  = (Raise (FileNotFoundError config_path), (∅, [])).
Proof.
  apply (unreadable_config_runs_nothing run_dir "config.json" false ∅ []
           (FileNotFoundError config_path)).
  reflexivity.
Defined.

(** A configuration that asks for a model [create_model] does not know. *)
Definition unknown_model_config : ExperimentConfig DataArgs TrainingArgs :=
  MkExperimentConfig
    (MkModelArguments "hypersphere" 2 "gp" 1 60 20 false true
                      (fpos 5 (-1)) "exp" "intrinsic" false false (fpos 1 0))
    (MkDataArgs "sphere_synthetic" 400) (MkTrainingArgs 10 "naive") 0 READY "config.json".

Definition unknown_model_disk : files :=
  {[ config_path := JObj (to_dict unknown_model_config) ]}.

Lemma unknown_model_is_recorded_failed_witness :
  main run_dir false "config.json" (unknown_model_disk, [])
  = (Raise (ValueError (unknown_model_message "gp")),
     (<[config_path := JObj (to_dict (set_status FAILED unknown_model_config))]>
        (<[config_path := JObj (to_dict (set_status RUNNING unknown_model_config))]>
           unknown_model_disk),
      ["seed"; "data"])).
Proof.
  refine (unknown_model_is_recorded_failed run_dir "config.json" false unknown_model_disk
            (<[config_path := JObj (to_dict (set_status RUNNING unknown_model_config))]>
               unknown_model_disk)
            [] ["seed"; "data"] unknown_model_config tt _ _ _ _ _ _ _).
  - reflexivity.
  - reflexivity.
  - vm_compute. reflexivity.
  - reflexivity.
  - reflexivity.
  - vm_compute. intuition discriminate.
  - reflexivity.
Defined.

(** *** Names and trees *)

#[export] Instance DataArgs_fields : Fields DataArgs := fun d =>
  [ StrField "dataset_name" (dataset_name d) "sphere_synthetic";
    IntField "num_train" (num_train d) 400 ].

#[export] Instance TrainingArgs_fields : Fields TrainingArgs := fun t =>
  [ IntField "num_epochs" (num_epochs t) 1000;
    StrField "sample_hidden" (sample_hidden t) "naive" ].

(** Floats are printed by their sign alone: enough to tell names apart
    here. *)
Definition float_repr (f : float) : string :=
  match f with
  | S754_nan => "nan"
  | S754_zero _ => "0.0"
  | S754_infinity false | S754_finite false _ _ => "+"
  | S754_infinity true | S754_finite true _ _ => "-"
  end.

Example experiment_names :
  experiment_name float_repr (config 1000 READY "config.json") = Ok "default"
  /\ experiment_name float_repr (config 10 READY "config.json") = Ok "num_epochs=10"
  /\ run_name (config 10 READY "config.json") = "run_0"
  /\ get_experiment_name float_repr
       [IntField "seed" 1 0] [IntField "seed" 2 0] [] = Raise (ValueError repeated_message)
  /\ get_experiment_name float_repr
       [IntField "seed" 1 0] [IntField "seed" 0 0] [BoolField "fast" true false]
     = Ok "fast=True-seed=1".
Proof. vm_compute. repeat split. Qed.

(** Two numbers of hidden layers, two runs each. *)
Definition tree : TreeConfig :=
  MkTreeConfig [("num_hidden", JList [JInt 1; JInt 2])] [] [("num_epochs", JInt 10)] [0%Z; 1%Z].

Definition first_config : ExperimentConfig DataArgs TrainingArgs := config 10 READY "config.json".

Definition first_path : string := "/exp/num_epochs=10/run_0/config.json".

Definition old_disk : files := {[ first_path := JStr "kept" ]}.

Definition tree_disk : files :=
  snd (create_experiment_config_from_json float_repr (DataArguments := DataArgs)
         (TrainingArguments := TrainingArgs) tree "/exp" false ∅).

Example expand_args_example :
  expand_args [("num_hidden", JList [JInt 1; JInt 2]); ("nu", JFloat one);
               ("model_name", JList [JStr "euclidean"; JStr "geometric_manifold"])]
  = [ [("num_hidden", JInt 1); ("nu", JFloat one); ("model_name", JStr "euclidean")];
      [("num_hidden", JInt 1); ("nu", JFloat one); ("model_name", JStr "geometric_manifold")];
      [("num_hidden", JInt 2); ("nu", JFloat one); ("model_name", JStr "euclidean")];
      [("num_hidden", JInt 2); ("nu", JFloat one); ("model_name", JStr "geometric_manifold")] ].
Proof. reflexivity. Qed.

Example tree_files :
  size tree_disk = 4
  /\ tree_disk !! first_path = Some (JObj (to_dict first_config))
  /\ is_Some (tree_disk !! "/exp/num_epochs=10/run_1/config.json")
  /\ is_Some (tree_disk !! "/exp/num_hidden=2-num_epochs=10/run_0/config.json")
  /\ is_Some (tree_disk !! "/exp/num_hidden=2-num_epochs=10/run_1/config.json").
Proof. vm_compute. repeat split; eauto. Qed.

Lemma existing_configs_are_kept_witness :
  snd (create_experiment_config_from_json float_repr (DataArguments := DataArgs)
         (TrainingArguments := TrainingArgs) tree "/exp" false old_disk) !! first_path
  = Some (JStr "kept").
Proof.
  apply (existing_configs_are_kept float_repr tree "/exp" old_disk first_path (JStr "kept")).
  reflexivity.
Defined.

(** With [overwrite] the file is replaced. *)
Example overwrite_replaces :
  snd (create_experiment_config_from_json float_repr (DataArguments := DataArgs)
         (TrainingArguments := TrainingArgs) tree "/exp" true old_disk) !! first_path
  = Some (JObj (to_dict first_config)).
Proof. vm_compute. reflexivity. Qed.

Lemma second_pass_writes_nothing_witness :
  (forall j, j ∈ jobs tree ->
     exists (c : ExperimentConfig DataArgs TrainingArgs) (p : string),
       build_config j = Ok c /\ config_path_of float_repr "/exp" c = Ok p
       /\ is_Some (tree_disk !! p))
  /\ create_experiment_config_from_json float_repr (DataArguments := DataArgs)
       (TrainingArguments := TrainingArgs) tree "/exp" false tree_disk
     = (Ok tt, tree_disk).
Proof.
  apply (second_pass_writes_nothing float_repr tree "/exp" ∅ tree_disk).
  vm_compute. reflexivity.
Defined.

Lemma written_configs_are_ready_witness :
  exists (c : ExperimentConfig DataArgs TrainingArgs) (j : job),
    j ∈ jobs tree /\ build_config j = Ok c /\ config_path_of float_repr "/exp" c = Ok first_path
    /\ status c = READY
    /\ from_json first_path tree_disk = (Ok c, tree_disk)
    /\ (forall ow, may_start (status c) ow = true).
Proof.
  apply (written_configs_are_ready float_repr tree "/exp" false ∅ first_path).
  vm_compute. discriminate.
Defined.

(** *** Crawls *)

Definition walk : list walk_entry :=
  [ ("/exp", ["default"], []);
    ("/exp/default", ["run_0"], ["notes.txt"]);
    (run_dir, [], ["config.json"]) ].

Lemma finished_tree_is_left_alone_witness :
  crawl_and_run walk "config.json" false (disk 10 COMPLETED, [])
  = (Ok tt, (disk 10 COMPLETED, [])).
Proof.
  apply (finished_tree_is_left_alone walk "config.json" (disk 10 COMPLETED) []).
  intros entry Hin Hholds. unfold walk in Hin.
  repeat (apply elem_of_cons in Hin as [->|Hin]; [try discriminate Hholds|]).
  - exists (config 10 COMPLETED "config.json"). split; [vm_compute; reflexivity|reflexivity].
  - apply elem_of_nil in Hin. destruct Hin.
Defined.

Lemma overwrite_option_is_truthy_witness :
  script walk (MkCommandLine "/exp" None (Some "False"))
  = script walk (MkCommandLine "/exp" None (Some "True"))
  /\ script walk (MkCommandLine "/exp" None (Some "False"))
     = crawl_and_run walk "config.json" true.
Proof.
  apply (@overwrite_option_is_truthy DataArgs TrainingArgs (list string) _ _ _
           walk "/exp" None "False").
  discriminate.
Defined.

(** The completed experiment is run again by [--overwrite False], and left
    alone when the option is absent. *)
Example overwrite_false_runs_again :
  snd (snd (script walk (MkCommandLine "/exp" None (Some "False")) (disk 10 COMPLETED, [])))
  = ["seed"; "data"; "train"]
  /\ snd (snd (script walk (MkCommandLine "/exp" None None) (disk 10 COMPLETED, []))) = [].
Proof. vm_compute. split; reflexivity. Qed.

(** A crawl over two experiments of which the first fails: the second is
    not run and stays READY. *)
Definition second_path : string := "/exp/default/run_1/config.json".

Definition two_runs : files :=
  {[ config_path := JObj (to_dict (config 0 READY "config.json"));
     second_path := JObj (to_dict (config 10 READY "config.json")) ]}.

Definition two_walk : list walk_entry :=
  [ ("/exp/default", ["run_0"; "run_1"], []);
    (run_dir, [], ["config.json"]);
    ("/exp/default/run_1", [], ["config.json"]) ].

Example crawl_stops :
  let '(r, (fs, journal)) := crawl_and_run two_walk "config.json" false (two_runs, []) in
  r = Raise (RuntimeError "no epochs")
  /\ journal = ["seed"; "data"; "train"]
  /\ fs !! second_path = Some (JObj (to_dict (config 10 READY "config.json")))
  /\ fs !! config_path = Some (JObj (to_dict (config 0 FAILED "config.json"))).
Proof. vm_compute. repeat split. Qed.

(** *** Kernels and layers *)

Import Kernels Geometric KernelFacts GeometricFacts.

(** Libraries whose objects are what they were built from; the generator
    refuses negative seeds. *)
#[export] Instance stub_kernels
  : KernelLibrary Space (Space * option Z * option Z) (option Z * float * float) := {|
  Generator := fun seed =>
    match seed with
    | Some (Zneg _) => Raise (RuntimeError "seed out of range")
    | _ => Ok tt
    end;
  default_feature_map := fun space => Ok space;
  MaternGeometricKernel := fun space num key => Ok (space, num, key);
  GPytorchGeometricKernel := fun base_kernel lengthscale nu _ =>
    Ok (snd (fst base_kernel), lengthscale, nu);
  MaternKernel := fun nu lengthscale => Ok (None, lengthscale, nu)
|}.

#[export] Instance stub_layers : LayerLibrary (Z * Z) := {|
  num_spherical_harmonics_to_num_levels := fun n d => Ok (n / d)%Z;
  total_num_harmonics := fun l d => Ok (l * d)%Z;
  variational_strategy := fun m _ num_levels _ => Ok (m, num_levels);
  Hypersphere_init := fun d =>
    if (d <? 2)%Z then Raise (ValueError "Only implemented for dim >= 2") else Ok tt;
  ScaleKernel := fun _ => Ok tt;
  ConstantMean := fun _ => Ok tt;
  MultitaskGaussianLikelihood := fun _ => Ok tt;
  cholesky_jitter := fpos 1 (-20)
|}.

Definition power_plant : UCIDataset := MkUCIDataset 4 1.

Example three_layers :
  match SHFDeepGP_init power_plant (Some 3%Z) None OPTIMIZE_NU with
  | Ok model =>
      map Geometric.output_dims (Geometric.layers model) = [Some 5%Z; Some 5%Z; Some 1%Z]
      /\ map Geometric.outputscale (Geometric.layers model)
         = [INNER_LAYER_VARIANCE; INNER_LAYER_VARIANCE; OUTPUT_LAYER_VARIANCE]
  | Raise _ => False
  end.
Proof. vm_compute. split; reflexivity. Qed.

Example unsupported_dimensions :
  SHFDeepGP_init (MkUCIDataset 5 1) (Some 3%Z) None OPTIMIZE_NU = Raise (KeyError "5")
  /\ SHFDeepGP_init power_plant None None OPTIMIZE_NU = Raise (TypeError no_layers_message).
Proof. vm_compute. split; reflexivity. Qed.

Example default_kernel_on_euclidean_space :
  fst (Kernels.GeometricMaternKernel (Euclidean 3) one (fpos 5 (-1)) true None None (Some 20%Z))
  = Raise (AssertionError trainable_nu_message)
  /\ is_ok (fst (Kernels.GeometricMaternKernel (Euclidean 3) one (fpos 5 (-1)) false None None
                   (Some 20%Z))) = true
  /\ Kernels.GeometricMaternKernel (Hypersphere 2) one (fpos 5 (-1)) true None (Some 0%Z)
                                   (Some 20%Z)
     = (Ok (_GeometricMaternKernel (MkBaseMaternKernel None (Hypersphere 2))
                                   (Some 20%Z, one, fpos 5 (-1))),
        [both_given_warning]).
Proof. repeat split. Qed.

End Stubs.
